(** * EHR Integration Dashboard: the authenticated API-proxy layer

    A shallow embedding of the session/proxy core of the dashboard:

    - [JS]: the JavaScript values and operators the routes use on parsed JSON
      (property access, [?.], [||], [??], [find], [map], object spread);
    - [PatientRoute]: [GET] and [PUT] of [/api/patients/[id]];
    - [PatientsRoute]: [GET] of [/api/patients];
    - [LoginRoute]: [POST] of [/api/login];
    - [PatientsModal]: the write-back merge of [handleSave];
    - [AxiosInstance]: the 401 response interceptor with its refresh queue.

    Conventions.  A Number is an integer, [NaN] or an infinity (fractions
    are outside the model).  Up to 2^53 - 1 in magnitude every integer is a
    Number; beyond, Numbers are doubles: [parseInt] rounds to the nearest
    one and [String] writes the shortest digits that read back as it.  A
    string is a sequence of code units; an object is its list of own
    properties in property order.  Thrown exceptions are an
    explicit result type.  Outbound HTTP calls are recorded in a trace next to
    the response, so that "no call is made" is a statement about that trace. *)

From Stdlib Require Import String Ascii List ZArith Bool Lia Arith Permutation.
From Stdlib Require Import DecimalString.
Import ListNotations.
Open Scope string_scope.

(* ================================================================== *)
(** ** Exceptions and the result type *)

Inductive exn : Type :=
| TypeError      (* read of a property of null/undefined, call of a non-function, failed fetch or body read *)
| SyntaxError.   (* JSON.parse failure *)

Inductive res (A : Type) : Type :=
| Ok (a : A)
| Throw (e : exn).
Arguments Ok {A} a.
Arguments Throw {A} e.

Definition bind {A B : Type} (m : res A) (k : A -> res B) : res B :=
  match m with
  | Ok a => k a
  | Throw e => Throw e
  end.

Notation "'let*' x ':=' m 'in' k" := (bind m (fun x => k))
  (at level 10, x name, m at level 100, k at level 200).

Fixpoint mapM {A B : Type} (f : A -> res B) (l : list A) : res (list B) :=
  match l with
  | [] => Ok []
  | a :: l' =>
      let* b := f a in
      let* bs := mapM f l' in
      Ok (b :: bs)
  end.

(* ================================================================== *)
(** ** JavaScript values *)

Module JS.

#[warnings="-register-all"]
Inductive value : Type :=
| VUndefined
| VNull
| VBool (b : bool)
| VNum (n : Z)
| VNaN
| VInfinity (negative : bool)
| VStr (s : string)
| VArr (items : list value)
| VObj (props : list (string * value)).

Definition obj : Type := list (string * value).

(** [!!v] *)
Definition truthy (v : value) : bool :=
  match v with
  | VUndefined | VNull | VNaN => false
  | VBool b => b
  | VNum n => negb (n =? 0)%Z
  | VStr s => negb (s =? "")
  | VInfinity _ | VArr _ | VObj _ => true
  end.

(** [v == null], the test behind [?.] and [??] *)
Definition nullish (v : value) : bool :=
  match v with
  | VUndefined | VNull => true
  | _ => false
  end.

(** [a || b] *)
Definition or_else (a b : value) : value := if truthy a then a else b.

(** [a ?? b] *)
Definition coalesce (a b : value) : value := if nullish a then b else a.

(** [v === "s"] for a string [s] *)
Definition eq_str (v : value) (s : string) : bool :=
  match v with
  | VStr t => t =? s
  | _ => false
  end.

(** Own property lookup: the first entry with the key, [undefined] if none. *)
Fixpoint lookup (k : string) (o : obj) : value :=
  match o with
  | [] => VUndefined
  | (k', v) :: o' => if k' =? k then v else lookup k o'
  end.

Fixpoint has_key (k : string) (o : obj) : bool :=
  match o with
  | [] => false
  | (k', _) :: o' => (k' =? k) || has_key k o'
  end.

(** [v?.k] for a named key [k] that no built-in prototype defines:
    [undefined] on [null]/[undefined], the own property on an object,
    [undefined] on any other value.  Every key the code reads is of that
    kind but one: on a string, [link] is [String.prototype.link]; the one
    place that reads it, [PatientsRoute.find_link], treats that case
    itself. *)
Definition get_opt (v : value) (k : string) : value :=
  match v with
  | VObj o => lookup k o
  | _ => VUndefined
  end.

(** [v.k]: as [v?.k], but a read on [null]/[undefined] throws. *)
Definition get (v : value) (k : string) : res value :=
  if nullish v then Throw TypeError else Ok (get_opt v k).

Definition dec_of_nat (n : nat) : string := NilEmpty.string_of_uint (Nat.to_uint n).
Definition dec_of_Z (z : Z) : string := NilZero.string_of_int (Z.to_int z).

(** *** Numbers beyond the safe integers *)

(** [Number.MAX_SAFE_INTEGER] *)
Definition max_safe : Z := 9007199254740991.

Definition safe (n : Z) : bool := (Z.abs n <=? max_safe)%Z.

(** The double nearest to an integer [n >= 0], ties to the even mantissa;
    [None] when that is beyond the doubles ([Infinity]). *)
Definition nearest_double (n : Z) : option Z :=
  if (n <=? max_safe)%Z then Some n else
  let e := (Z.log2 n - 52)%Z in
  let q := Z.shiftr n e in
  let r := (n - Z.shiftl q e)%Z in
  let half := Z.shiftl 1 (e - 1) in
  let q' := if (half <? r)%Z || ((r =? half)%Z && Z.odd q) then (q + 1)%Z else q in
  let m := Z.shiftl q' e in
  if (Z.shiftl 1 1024 <=? m)%Z then None else Some m.

(** The Number an integer denotes. *)
Definition number_of (n : Z) : value :=
  match nearest_double (Z.abs n) with
  | Some m => VNum (Z.sgn n * m)
  | None => VInfinity (n <? 0)%Z
  end.

(** [Number::toString] for a double [x > 0] with an integer value: the
    integers [s], [k], [n] with [k] digits in [s], [s * 10^(n - k)]
    reading as [x], and [k] as small as possible; of several such [s] the
    one nearest to [x]. *)
Definition candidates (x k n : Z) : list (Z * Z) :=
  let p := (n - k)%Z in
  if (p <? 0)%Z then [] else
  let s0 := (x / 10 ^ p)%Z in
  filter (fun sn => let s := fst sn in
                    (10 ^ (k - 1) <=? s)%Z && (s <? 10 ^ k)%Z &&
                    match nearest_double (s * 10 ^ p) with
                    | Some y => (y =? x)%Z
                    | None => false
                    end)
         [(s0, n); ((s0 + 1)%Z, n)].

Definition closer (x k : Z) (a b : Z * Z) : Z * Z :=
  let da := Z.abs (fst a * 10 ^ (snd a - k) - x) in
  let db := Z.abs (fst b * 10 ^ (snd b - k) - x) in
  if (da <? db)%Z then a
  else if (db <? da)%Z then b
  else if Z.even (fst a) then a else b.

Definition best (x k : Z) (l : list (Z * Z)) : option (Z * Z) :=
  match l with
  | [] => None
  | a :: l' => Some (fold_left (closer x k) l' a)
  end.

Definition shortest (x : Z) : Z * Z * Z :=
  let nd := Z.of_nat (String.length (dec_of_Z x)) in
  match fold_left (fun found k =>
                     match found with
                     | Some _ => found
                     | None =>
                         match best x k (candidates x k nd ++ candidates x k (nd + 1)) with
                         | Some (s, n) => Some (s, k, n)
                         | None => None
                         end
                     end)
                  (map Z.of_nat (seq 1 17)) None with
  | Some r => r
  | None => (x, nd, nd)
  end.

Fixpoint zeros (n : nat) : string :=
  match n with
  | O => ""
  | S n' => String "0" (zeros n')
  end.

(** The digits, followed by zeros up to 21 places and in exponent notation
    from there on. *)
Definition double_text (x : Z) : string :=
  let '(s, k, n) := shortest x in
  let ds := dec_of_Z s in
  if (n <=? 21)%Z then ds ++ zeros (Z.to_nat (n - k))
  else match ds with
       | String d EmptyString => String d ("e+" ++ dec_of_Z (n - 1))
       | String d rest => String d ("." ++ rest ++ "e+" ++ dec_of_Z (n - 1))
       | EmptyString => ""
       end.

(** [String(n)] for the Number the integer [n] denotes. *)
Definition number_text (n : Z) : string :=
  if safe n then dec_of_Z n
  else match nearest_double (Z.abs n) with
       | Some x => (if (n <? 0)%Z then "-" else "") ++ double_text x
       | None => if (n <? 0)%Z then "-Infinity" else "Infinity"
       end.

Fixpoint char_at (s : string) (i : nat) : value :=
  match s, i with
  | EmptyString, _ => VUndefined
  | String c _, O => VStr (String c EmptyString)
  | String _ s', S i' => char_at s' i'
  end.

(** [v?.[i]] for an index [i]. *)
Definition idx_opt (v : value) (i : nat) : value :=
  match v with
  | VArr l => nth i l VUndefined
  | VStr s => char_at s i
  | VObj o => lookup (dec_of_nat i) o
  | _ => VUndefined
  end.

(** [Array.prototype.find] with a callback that may throw. *)
Fixpoint find_arr (p : value -> res bool) (l : list value) : res value :=
  match l with
  | [] => Ok VUndefined
  | x :: l' =>
      let* b := p x in
      if b then Ok x else find_arr p l'
  end.

(** [v?.find(p)]: [undefined] on [null]/[undefined]; on an array the search;
    on anything else [find] is not a function. *)
Definition find_opt (v : value) (p : value -> res bool) : res value :=
  match v with
  | VUndefined | VNull => Ok VUndefined
  | VArr l => find_arr p l
  | _ => Throw TypeError
  end.

(** [v?.map(f)] *)
Definition map_opt (v : value) (f : value -> res value) : res value :=
  match v with
  | VUndefined | VNull => Ok VUndefined
  | VArr l => let* l' := mapM f l in Ok (VArr l')
  | _ => Throw TypeError
  end.

Fixpoint join_with (sep : string) (l : list string) : string :=
  match l with
  | [] => ""
  | [s] => s
  | s :: l' => s ++ sep ++ join_with sep l'
  end.

(** [String(v)], as a template literal applies it. *)
Fixpoint to_str (v : value) : string :=
  match v with
  | VUndefined => "undefined"
  | VNull => "null"
  | VBool true => "true"
  | VBool false => "false"
  | VNum n => number_text n
  | VNaN => "NaN"
  | VInfinity false => "Infinity"
  | VInfinity true => "-Infinity"
  | VStr s => s
  | VArr l => join_with "," (map (fun x => if nullish x then "" else to_str x) l)
  | VObj _ => "[object Object]"
  end.

(** Defining a property: an existing key keeps its place and takes the new
    value, a new key goes last. *)
Fixpoint set_prop (o : obj) (k : string) (v : value) : obj :=
  match o with
  | [] => [(k, v)]
  | (k', v') :: o' => if k' =? k then (k, v) :: o' else (k', v') :: set_prop o' k v
  end.

Definition set_props (o : obj) (kvs : list (string * value)) : obj :=
  fold_left (fun acc kv => set_prop acc (fst kv) (snd kv)) kvs o.

Fixpoint indexed {A : Type} (f : A -> value) (i : nat) (l : list A) : obj :=
  match l with
  | [] => []
  | a :: l' => (dec_of_nat i, f a) :: indexed f (S i) l'
  end.

(** The own enumerable properties that [{...v}] copies. *)
Definition own_props (v : value) : obj :=
  match v with
  | VObj o => o
  | VArr l => indexed (fun x => x) 0 l
  | VStr s => indexed (fun c => VStr (String c EmptyString)) 0 (list_ascii_of_string s)
  | _ => []
  end.

(** No [null] and no [undefined] anywhere inside a value. *)
Fixpoint defined_deep (v : value) : bool :=
  match v with
  | VUndefined | VNull => false
  | VArr l => forallb defined_deep l
  | VObj o => forallb (fun kv => defined_deep (snd kv)) o
  | _ => true
  end.

End JS.

Import JS.

(* ================================================================== *)
(** ** HTTP plumbing shared by the three route files *)

(** The three settings every route file validates with [envSchema.parse] at
    load time, and [process.env.NODE_ENV]. *)
Record Env : Type := {
  NEXT_BASE_URL : string;
  NEXT_FIRM_URL_PREFIX : string;
  NEXT_API_KEY : string;
  NODE_ENV : option string
}.

Inductive payload : Type :=
| NoBody
| JsonBody (v : value)                      (* JSON.stringify(v) *)
| FormBody (fields : list (string * string)).  (* URLSearchParams *)

(** An outbound call to the remote API.  The query is kept as the list of
    parameters [URLSearchParams] holds; an empty list is a URL with no [?]. *)
Record request : Type := {
  method : string;
  url : string;
  query : list (string * string);
  headers : list (string * string);
  body : payload
}.

(** What [fetch] resolves to: status line, [text()] and [json()]. *)
Record reply : Type := {
  r_status : Z;
  r_statusText : string;
  r_text : string;
  r_json : res value
}.

Definition r_ok (r : reply) : bool := (200 <=? r_status r)%Z && (r_status r <=? 299)%Z.

Inductive same_site : Type := Strict | Lax | NoneSite.

Record cookie : Type := {
  c_name : string;
  c_value : value;
  httpOnly : bool;
  secure : bool;
  sameSite : same_site;
  maxAge : Z
}.

(** [NextResponse.json(body, { status })] and the cookies set on it.  The body
    is the value handed to [NextResponse.json]; its serialisation leaves out
    the properties whose value is [undefined]. *)
Record response : Type := {
  status : Z;
  json : value;
  cookies : list cookie
}.

Definition respond (st : Z) (b : value) : response :=
  {| status := st; json := b; cookies := [] |}.

Definition error_body (msg : string) : value := VObj [("error", VStr msg)].

(** A handler's outcome: its response and the outbound calls it made. *)
Definition outcome : Type := (response * list request)%type.

(** The [catch] block shared by the patient routes.  [ZodError] cannot occur
    inside a handler (the environment is parsed when the module loads);
    [SyntaxError] is singled out by [PUT] only. *)
Section Catch.
Variable message : exn -> string.   (* error.message, the engine's text *)

Definition internal_error (e : exn) : response :=
  respond 500 (VObj [("error", VStr "Internal server error"); ("message", VStr (message e))]).
End Catch.

Definition patient_url (env : Env) : string :=
  NEXT_BASE_URL env ++ "/" ++ NEXT_FIRM_URL_PREFIX env ++ "/ema/fhir/v2/Patient".

Definition grant_url (env : Env) : string :=
  NEXT_BASE_URL env ++ "/" ++ NEXT_FIRM_URL_PREFIX env ++ "/ema/ws/oauth2/grant".

(** [cookieStore.get('access_token')?.value] followed by [if (!accessToken)] *)
Definition usable_token (c : option string) : option string :=
  match c with
  | Some t => if t =? "" then None else Some t
  | None => None
  end.

(* ================================================================== *)
(** ** [/api/patients/[id]]: one patient, read and update *)

Module PatientRoute.

Definition ethnicity_url : string :=
  "http://hl7.org/fhir/us/core/StructureDefinition/us-core-ethnicity".

(** [x => x.url === u], the callback of both [find] calls *)
Definition url_is (u : string) (x : value) : res bool :=
  let* v := get x "url" in Ok (eq_str v u).

(** The [formatted] member of [transformedPatient].  [GET] and [PUT] spell
    out the same object literal, once over [patientData] and once over
    [updatedPatient]. *)
Definition formatted (patientData : value) : res value :=
  if nullish patientData then Throw TypeError else
  let name0 := idx_opt (get_opt patientData "name") 0 in
  let* ext := find_opt (get_opt patientData "extension") (url_is ethnicity_url) in
  let* subExt := find_opt (get_opt ext "extension") (url_is "text") in
  Ok (VObj
    [ ("identifier",
        or_else (get_opt (idx_opt (get_opt patientData "identifier") 0) "value") (VStr "N/A"));
      ("name", VObj
        [ ("family", or_else (get_opt name0 "family") (VStr "Unknown"));
          ("given", or_else (get_opt name0 "given") (VArr [VStr "Unknown"]));
          ("full", VStr (to_str (or_else (idx_opt (get_opt name0 "given") 0) (VStr "Unknown"))
                         ++ " "
                         ++ to_str (or_else (get_opt name0 "family") (VStr "Unknown")))) ]);
      ("gender", or_else (get_opt patientData "gender") (VStr "unknown"));
      ("birthDate", or_else (get_opt patientData "birthDate") (VStr "Unknown"));
      ("active", coalesce (get_opt patientData "active") (VBool false));
      ("deceased", coalesce (get_opt patientData "deceasedBoolean") (VBool false));
      ("maritalStatus",
        or_else (get_opt (get_opt patientData "maritalStatus") "text") (VStr "Unknown"));
      ("lastUpdated",
        or_else (get_opt (get_opt patientData "meta") "lastUpdated") (VStr "Unknown"));
      ("telecom", or_else (get_opt patientData "telecom") (VArr []));
      ("address", or_else (get_opt patientData "address") (VArr []));
      ("ethnicity", or_else (get_opt subExt "valueString") (VStr "Unspecified")) ]).

Definition transformedPatient (patientData : value) : res value :=
  let* id := get patientData "id" in
  let* resourceType := get patientData "resourceType" in
  let* fmt := formatted patientData in
  Ok (VObj [ ("id", id); ("resourceType", resourceType);
             ("raw", patientData); ("formatted", fmt) ]).

Section Handlers.
Variable env : Env.
Variable message : exn -> string.
Variable remote : request -> res reply.   (* fetch against the remote API *)

Definition get_request (id accessToken : string) : request :=
  {| method := "GET";
     url := patient_url env ++ "/" ++ id;
     query := [];
     headers := [ ("Accept", "application/fhir+json");
                  ("Authorization", "Bearer " ++ accessToken);
                  ("x-api-key", NEXT_API_KEY env) ];
     body := NoBody |}.

Definition put_request (id accessToken : string) (doc : value) : request :=
  {| method := "PUT";
     url := patient_url env ++ "/" ++ id;
     query := [];
     headers := [ ("Content-Type", "application/fhir+json");
                  ("Accept", "application/fhir+json");
                  ("Authorization", "Bearer " ++ accessToken);
                  ("x-api-key", NEXT_API_KEY env) ];
     body := JsonBody doc |}.

(** [GET]: [id] is the path parameter, [cookie] the [access_token] cookie. *)
Definition GET (id : string) (cookie : option string) : outcome :=
  if id =? "" then (respond 400 (error_body "Patient ID is required"), []) else
  match usable_token cookie with
  | None => (respond 401 (error_body "Unauthorized - No access token found"), [])
  | Some accessToken =>
      let req := get_request id accessToken in
      match remote req with
      | Throw e => (internal_error message e, [req])
      | Ok r =>
          if negb (r_ok r) then
            if (r_status r =? 401)%Z then
              (respond 401 (error_body "Unauthorized - Token may be expired"), [req])
            else if (r_status r =? 404)%Z then
              (respond 404 (error_body "Patient not found"), [req])
            else
              (respond (r_status r)
                 (error_body ("Failed to fetch patient: " ++ r_statusText r)), [req])
          else
            match (let* patientData := r_json r in transformedPatient patientData) with
            | Ok t => (respond 200 t, [req])
            | Throw e => (internal_error message e, [req])
            end
      end
  end.

(** The [catch] block of [PUT]: a [SyntaxError] is a malformed body. *)
Definition put_catch (e : exn) : response :=
  match e with
  | SyntaxError => respond 400 (error_body "Invalid JSON in request body")
  | _ => internal_error message e
  end.

(** [PUT]: [parsed] is the result of [request.json()]. *)
Definition PUT (id : string) (cookie : option string) (parsed : res value) : outcome :=
  if id =? "" then (respond 400 (error_body "Patient ID is required"), []) else
  match usable_token cookie with
  | None => (respond 401 (error_body "Unauthorized - No access token found"), [])
  | Some accessToken =>
      match (let* doc := parsed in
             let* rt := get doc "resourceType" in
             let* bid := get doc "id" in Ok (doc, rt, bid)) with
      | Throw e => (put_catch e, [])
      | Ok (doc, rt, bid) =>
          if negb (truthy rt) || negb (truthy bid) then
            (respond 400
               (error_body "Invalid patient data - resourceType and id are required"), [])
          else if negb (eq_str bid id) then
            (respond 400
               (error_body "Patient ID in URL does not match ID in request body"), [])
          else
            let req := put_request id accessToken doc in
            match remote req with
            | Throw e => (put_catch e, [req])
            | Ok r =>
                if negb (r_ok r) then
                  if (r_status r =? 401)%Z then
                    (respond 401 (error_body "Unauthorized - Token may be expired"), [req])
                  else if (r_status r =? 404)%Z then
                    (respond 404 (error_body "Patient not found"), [req])
                  else if (r_status r =? 400)%Z then
                    (respond 400
                       (VObj [ ("error", VStr "Bad request - Invalid patient data");
                               ("details", VStr (r_text r)) ]), [req])
                  else
                    (respond (r_status r)
                       (error_body ("Failed to update patient: " ++ r_statusText r)), [req])
                else
                  match (let* updatedPatient := r_json r in
                         transformedPatient updatedPatient) with
                  | Ok t =>
                      (respond 200
                         (VObj [ ("message", VStr "Patient updated successfully");
                                 ("patient", t) ]), [req])
                  | Throw e => (put_catch e, [req])
                  end
            end
      end
  end.
End Handlers.

End PatientRoute.

(* ================================================================== *)
(** ** [/api/patients]: one page of the patient list *)

Module PatientsRoute.

(** [parseInt(s, 10)]: leading white space, an optional sign, then the
    longest run of decimal digits, read as the Number they denote (the
    nearest double beyond the safe integers, an infinity beyond the
    doubles); [NaN] when there is no digit. *)
Definition is_space (c : ascii) : bool :=
  let n := nat_of_ascii c in
  (n =? 32)%nat || ((9 <=? n)%nat && (n <=? 13)%nat) || (n =? 160)%nat.

Fixpoint skip_spaces (s : string) : string :=
  match s with
  | String c s' => if is_space c then skip_spaces s' else s
  | EmptyString => s
  end.

Definition digit (c : ascii) : option Z :=
  let n := nat_of_ascii c in
  if ((48 <=? n)%nat && (n <=? 57)%nat)%bool then Some (Z.of_nat (n - 48)) else None.

Fixpoint digits (s : string) (acc : option Z) : option Z :=
  match s with
  | String c s' =>
      match digit c with
      | Some d => digits s' (Some (10 * match acc with Some a => a | None => 0 end + d)%Z)
      | None => acc
      end
  | EmptyString => acc
  end.

Definition parseInt (s : string) : value :=
  let s1 := skip_spaces s in
  let (neg, s2) :=
    match s1 with
    | String "-"%char r => (true, r)
    | String "+"%char r => (false, r)
    | _ => (false, s1)
    end in
  match digits s2 None with
  | Some n => number_of (if neg then - n else n)%Z
  | None => VNaN
  end.

(** The callback of [data.entry?.map]: one bundle entry to one list row. *)
Definition patient_row (entry : value) : res value :=
  let* patient := get entry "resource" in
  let* id := get patient "id" in
  let name0 := idx_opt (get_opt patient "name") 0 in
  Ok (VObj
    [ ("id", coalesce id (VStr "N/A"));
      ("fullUrl", get_opt entry "fullUrl");
      ("identifier",
        or_else (get_opt (idx_opt (get_opt patient "identifier") 0) "value") (VStr "N/A"));
      ("name", VObj
        [ ("family", or_else (get_opt name0 "family") (VStr "Unknown"));
          ("given", or_else (get_opt name0 "given") (VArr [VStr "Unknown"]));
          ("full", VStr (to_str (or_else (idx_opt (get_opt name0 "given") 0) (VStr "Unknown"))
                         ++ " "
                         ++ to_str (or_else (get_opt name0 "family") (VStr "Unknown")))) ]);
      ("gender", or_else (get_opt patient "gender") (VStr "unknown"));
      ("birthDate", or_else (get_opt patient "birthDate") (VStr "Unknown"));
      ("active", coalesce (get_opt patient "active") (VBool false));
      ("maritalStatus",
        or_else (get_opt (get_opt patient "maritalStatus") "text") (VStr "Unknown"));
      ("lastUpdated",
        or_else (get_opt (get_opt patient "meta") "lastUpdated") (VStr "Unknown")) ]).

(** [link => link.relation === rel] *)
Definition relation_is (rel : string) (link : value) : res bool :=
  let* r := get link "relation" in Ok (eq_str r rel).

(** [data.link?.find(link => link.relation === rel)].  On a string,
    [data.link] is the method [String.prototype.link], which has no
    [find]: the call throws. *)
Definition find_link (data : value) (rel : string) : res value :=
  match data with
  | VStr _ => Throw TypeError
  | _ => find_opt (get_opt data "link") (relation_is rel)
  end.

Definition transformedData (page : string) (data : value) : res value :=
  let* total := get data "total" in
  let* rows := map_opt (get_opt data "entry") patient_row in
  let* self := find_link data "self" in
  let* next := find_link data "next" in
  let* prev := find_link data "prev" in
  let* hasNext := find_link data "next" in
  let* hasPrev := find_link data "prev" in
  Ok (VObj
    [ ("total", or_else total (VNum 0));
      ("patients", coalesce rows (VArr []));
      ("links", VObj [ ("self", get_opt self "url");
                       ("next", get_opt next "url");
                       ("prev", get_opt prev "url") ]);
      ("pagination", VObj [ ("currentPage", parseInt page);
                            ("hasNext", VBool (truthy hasNext));
                            ("hasPrev", VBool (truthy hasPrev)) ]) ]).

Section Handlers.
Variable env : Env.
Variable message : exn -> string.
Variable remote : request -> res reply.

(** [searchParams.get(name) || fallback] *)
Definition param_or (p : option string) (fallback : string) : string :=
  match p with
  | Some s => if s =? "" then fallback else s
  | None => fallback
  end.

Definition list_request (page count accessToken : string) : request :=
  {| method := "GET";
     url := patient_url env;
     query := (if page =? "1" then [] else [("page", page)])
              ++ (if count =? "20" then [] else [("_count", count)]);
     headers := [ ("Accept", "application/fhir+json");
                  ("Authorization", "Bearer " ++ accessToken);
                  ("x-api-key", NEXT_API_KEY env) ];
     body := NoBody |}.

(** [GET]: [page_param] and [count_param] are the two search parameters. *)
Definition GET (page_param count_param cookie : option string) : outcome :=
  let page := param_or page_param "1" in
  let count := param_or count_param "20" in
  match usable_token cookie with
  | None => (respond 401 (error_body "Unauthorized - No access token found"), [])
  | Some accessToken =>
      let req := list_request page count accessToken in
      match remote req with
      | Throw e => (internal_error message e, [req])
      | Ok r =>
          if negb (r_ok r) then
            if (r_status r =? 401)%Z then
              (respond 401 (error_body "Unauthorized - Token may be expired"), [req])
            else
              (respond (r_status r)
                 (error_body ("Failed to fetch patients: " ++ r_statusText r)), [req])
          else
            match (let* data := r_json r in transformedData page data) with
            | Ok t => (respond 200 t, [req])
            | Throw e => (internal_error message e, [req])
            end
      end
  end.
End Handlers.

End PatientsRoute.

(* ================================================================== *)
(** ** [/api/login]: the password-grant exchange *)

Module LoginRoute.

(** A [FormDataEntryValue]: a string or a file. *)
Inductive entry : Type :=
| Text (s : string)
| File.

Definition form : Type := list (string * entry).

(** [formData.get(name)]: the first entry with that name, or [null]. *)
Fixpoint form_get (name : string) (f : form) : option entry :=
  match f with
  | [] => None
  | (k, v) :: f' => if k =? name then Some v else form_get name f'
  end.

(** One issue of [parsed.error.issues]: the field it is about and its code.
    zod's further members of an issue are left out; [issue_message] is the
    text [loginSchema] attaches to its [min(1)] check. *)
Inductive issue : Type :=
| invalid_type (field : string)
| too_small (field : string) (issue_message : string).

(** [z.string().min(1, msg)] on one field *)
Definition check_field (field msg : string) (v : option entry) : string + issue :=
  match v with
  | Some (Text s) => if s =? "" then inr (too_small field msg) else inl s
  | _ => inr (invalid_type field)
  end.

(** [loginSchema.safeParse({ username, password })] *)
Definition loginSchema (username password : option entry)
  : (string * string) + list issue :=
  match check_field "username" "Username is required" username,
        check_field "password" "Password is required" password with
  | inl u, inl p => inl (u, p)
  | inr i, inl _ => inr [i]
  | inl _, inr j => inr [j]
  | inr i, inr j => inr [i; j]
  end.

Definition issue_value (i : issue) : value :=
  match i with
  | invalid_type field =>
      VObj [("code", VStr "invalid_type"); ("path", VArr [VStr field])]
  | too_small field msg =>
      VObj [("code", VStr "too_small"); ("path", VArr [VStr field]); ("message", VStr msg)]
  end.

(** What [axios.post] settles to: the parsed body of a 2xx reply, or an
    [AxiosError] whose [response] (status and body) may be missing. *)
Inductive axios_result : Type :=
| Fulfilled (data : value)
| Rejected (response : option (Z * value)).

Section Handler.
Variable env : Env.
Variable message : exn -> string.
Variable remote : request -> axios_result.

Definition grant_request (username password : string) : request :=
  {| method := "POST";
     url := grant_url env;
     query := [];
     headers := [ ("Content-Type", "application/x-www-form-urlencoded");
                  ("x-api-key", NEXT_API_KEY env) ];
     body := FormBody [ ("grant_type", "password");
                        ("username", username);
                        ("password", password) ] |}.

(** [process.env.NODE_ENV === 'production'] *)
Definition production : bool :=
  match NODE_ENV env with
  | Some e => e =? "production"
  | None => false
  end.

Definition token_cookie (name : string) (v : value) (age : Z) : cookie :=
  {| c_name := name; c_value := v;
     httpOnly := true; secure := production; sameSite := Strict; maxAge := age |}.

Definition login_failed (e : exn) : response :=
  respond 500 (error_body ("Login failed: " ++ message e)).

(** [POST]: [formData] is the result of [request.formData()]. *)
Definition POST (formData : res form) : outcome :=
  match formData with
  | Throw e => (login_failed e, [])
  | Ok fd =>
      match loginSchema (form_get "username" fd) (form_get "password" fd) with
      | inr issues =>
          (respond 400 (VObj [ ("error", VStr "Invalid input data");
                               ("details", VArr (map issue_value issues)) ]), [])
      | inl (username, password) =>
          let req := grant_request username password in
          match remote req with
          | Rejected resp =>
              ({| status := match resp with Some (st, _) => st | None => 500 end;
                  json := VObj [ ("error",
                                   coalesce (match resp with
                                             | Some (_, d) => d
                                             | None => VUndefined
                                             end) (VStr "Unknown login error")) ];
                  cookies := [] |}, [req])
          | Fulfilled data =>
              match (let* access := get data "access_token" in
                     let* refresh := get data "refresh_token" in
                     Ok (access, refresh)) with
              | Throw e => (login_failed e, [req])
              | Ok (access, refresh) =>
                  ({| status := 200;
                      json := data;
                      cookies := [ token_cookie "access_token" access 3600;
                                   token_cookie "refresh_token" refresh (86400 * 7) ] |},
                   [req])
              end
          end
      end
  end.
End Handler.

End LoginRoute.

(* ================================================================== *)
(** ** [PatientsModal]: writing an edit back *)

Module PatientsModal.

(** The [formData] state of the edit form. *)
Record FormData : Type := {
  telecom : value;
  name_family : value;
  name_given : value;
  gender : value;
  birthDate : value;
  active : value;
  maritalStatus : value
}.

(** The [updatedPatient] literal of [handleSave]: the properties of
    [patient.raw] are copied, then the six edited members are defined in
    source order.  Reading [patient.raw.maritalStatus] throws when
    [patient.raw] is [null] or [undefined]. *)
Definition updatedPatient (raw : value) (formData : FormData) : res value :=
  let* ms := get raw "maritalStatus" in
  Ok (VObj (set_props (own_props raw)
    [ ("telecom", telecom formData);
      ("name", VArr [ VObj [ ("family", name_family formData);
                             ("given", name_given formData) ] ]);
      ("gender", gender formData);
      ("birthDate", birthDate formData);
      ("active", active formData);
      ("maritalStatus",
        VObj (set_props (own_props ms) [ ("text", maritalStatus formData) ])) ])).

(** The keys [handleSave] writes. *)
Definition edited_keys : list string :=
  ["telecom"; "name"; "gender"; "birthDate"; "active"; "maritalStatus"].

Definition edited (k : string) : bool := existsb (String.eqb k) edited_keys.

(** [handleSave]: nothing without a loaded patient; otherwise the merged
    document is [PUT] to the internal route of [patient.id]. *)
Definition handleSave (patient : option (string * value)) (formData : FormData)
  : option (res (string * value)) :=
  match patient with
  | None => None
  | Some (id, raw) =>
      Some (let* doc := updatedPatient raw formData in
            Ok ("/api/patients/" ++ id, doc))
  end.

End PatientsModal.

(* ================================================================== *)
(** ** [axiosInstance]: the browser-side client and its refresh protocol *)

(** The client runs on one thread: a handler runs without interruption up
    to its first [await], and the reactions it leaves on resolved promises
    run before the next network event is looked at.  The model is therefore
    a state machine over three kinds of events (the application makes a
    call, a call is answered, the refresh call is answered), each handled
    in one step, with the module-level [isRefreshing] and [failedQueue] and
    the cookies in the state. *)
Module AxiosInstance.

(** [s.split(c)[0]]: the part of [s] before the first [c]. *)
Fixpoint before (c : ascii) (s : string) : string :=
  match s with
  | EmptyString => EmptyString
  | String a s' => if Ascii.eqb a c then EmptyString else String a (before c s')
  end.

(** The two cookies as [document.cookie] shows them to scripts: the value
    the browser holds for each name, if any.  Assigning
    ["name=value; attributes"] stores the text up to the first [;]; the
    browser's trimming of white space and its policy on the [secure]
    attribute are not modelled. *)
Record Jar : Type := {
  access_token : option string;
  refresh_token : option string
}.

(** [cookies.find(c => c.trim().startsWith(name + '='))?.split('=')[1]]: the
    piece is [name=value], so the result is [value] cut at its first [=]. *)
Definition read_cookie (c : option string) : option string :=
  option_map (before "=") c.

(** [document.cookie = `name=${v}; path=/; secure; samesite=strict; max-age=...`] *)
Definition write_cookie (v : value) : option string :=
  Some (before ";" (to_str v)).

(** An axios request config: the call it belongs to, the [_retry] mark and
    the [Authorization] header.  axios carries both over when a config is
    passed to [apiClient] again. *)
Record config : Type := {
  cid : nat;
  _retry : bool;
  Authorization : option string
}.

Inductive failure : Type :=
| RequestFailed (status : option Z)   (* the AxiosError of the call itself *)
| RefreshFailed.                      (* the error of the refresh call *)

Inductive result : Type :=
| Resolved (status : Z)
| Failed (e : failure).

(** What goes out on the network.  A request is recorded with its
    [Authorization] field as the server reads it. *)
Inductive sent : Type :=
| Request (id : nat) (authorization : option string)
| Refresh (refreshToken : string).     (* POST .../ema/ws/oauth2/grant, grant_type=refresh_token *)

(** A promise reaction left for the microtask queue by [processQueue]. *)
Inductive job : Type :=
| Resume (c : config) (token : value)  (* resolve(token) *)
| Abort (c : config) (e : failure).    (* reject(error) *)

Record state : Type := {
  window : bool;                       (* typeof window !== 'undefined' *)
  jar : Jar;
  location : option string;            (* an assignment to window.location.href *)
  isRefreshing : bool;
  failedQueue : list config;           (* the resolve/reject pairs, by the config they close over *)
  in_flight : list config;             (* calls awaiting their reply *)
  refreshing : list (config * string); (* refresh calls awaiting their reply, with the suspended handler's config *)
  wire : list sent;                    (* everything sent, oldest first *)
  settled : list (nat * result);       (* what each caller's promise settled to *)
  pending_forever : list nat           (* queued promises dropped without being settled *)
}.

Definition init (w : bool) (j : Jar) : state :=
  {| window := w; jar := j; location := None; isRefreshing := false;
     failedQueue := []; in_flight := []; refreshing := []; wire := [];
     settled := []; pending_forever := [] |}.

Definition set_jar (j : Jar) (s : state) : state :=
  {| window := window s; jar := j; location := location s;
     isRefreshing := isRefreshing s; failedQueue := failedQueue s;
     in_flight := in_flight s; refreshing := refreshing s; wire := wire s;
     settled := settled s; pending_forever := pending_forever s |}.

Definition set_location (l : string) (s : state) : state :=
  {| window := window s; jar := jar s; location := Some l;
     isRefreshing := isRefreshing s; failedQueue := failedQueue s;
     in_flight := in_flight s; refreshing := refreshing s; wire := wire s;
     settled := settled s; pending_forever := pending_forever s |}.

Definition set_isRefreshing (b : bool) (s : state) : state :=
  {| window := window s; jar := jar s; location := location s;
     isRefreshing := b; failedQueue := failedQueue s;
     in_flight := in_flight s; refreshing := refreshing s; wire := wire s;
     settled := settled s; pending_forever := pending_forever s |}.

Definition set_failedQueue (q : list config) (s : state) : state :=
  {| window := window s; jar := jar s; location := location s;
     isRefreshing := isRefreshing s; failedQueue := q;
     in_flight := in_flight s; refreshing := refreshing s; wire := wire s;
     settled := settled s; pending_forever := pending_forever s |}.

Definition set_in_flight (l : list config) (s : state) : state :=
  {| window := window s; jar := jar s; location := location s;
     isRefreshing := isRefreshing s; failedQueue := failedQueue s;
     in_flight := l; refreshing := refreshing s; wire := wire s;
     settled := settled s; pending_forever := pending_forever s |}.

Definition set_refreshing (l : list (config * string)) (s : state) : state :=
  {| window := window s; jar := jar s; location := location s;
     isRefreshing := isRefreshing s; failedQueue := failedQueue s;
     in_flight := in_flight s; refreshing := l; wire := wire s;
     settled := settled s; pending_forever := pending_forever s |}.

Definition emit (x : sent) (s : state) : state :=
  {| window := window s; jar := jar s; location := location s;
     isRefreshing := isRefreshing s; failedQueue := failedQueue s;
     in_flight := in_flight s; refreshing := refreshing s; wire := wire s ++ [x];
     settled := settled s; pending_forever := pending_forever s |}.

Definition settle (id : nat) (r : result) (s : state) : state :=
  {| window := window s; jar := jar s; location := location s;
     isRefreshing := isRefreshing s; failedQueue := failedQueue s;
     in_flight := in_flight s; refreshing := refreshing s; wire := wire s;
     settled := settled s ++ [(id, r)]; pending_forever := pending_forever s |}.

Definition drop (id : nat) (s : state) : state :=
  {| window := window s; jar := jar s; location := location s;
     isRefreshing := isRefreshing s; failedQueue := failedQueue s;
     in_flight := in_flight s; refreshing := refreshing s; wire := wire s;
     settled := settled s; pending_forever := pending_forever s ++ [id] |}.

Definition with_retry (c : config) : config :=
  {| cid := cid c; _retry := true; Authorization := Authorization c |}.

Definition with_authorization (h : string) (c : config) : config :=
  {| cid := cid c; _retry := _retry c; Authorization := Some h |}.

Definition bearer (token : string) : string := "Bearer " ++ token.

(** The request interceptor: in a browser with an [access_token] cookie the
    header is taken from the cookie; otherwise the config passes unchanged. *)
Definition request_interceptor (s : state) (c : config) : config :=
  if window s then
    match read_cookie (access_token (jar s)) with
    | Some accessToken => with_authorization (bearer accessToken) c
    | None => c
    end
  else c.

(** A header value as it is sent: the HTTP white space (tab, line feed,
    carriage return, space) at either end of a value is not part of the
    field, so that [Bearer ] with an empty token arrives as [Bearer].
    (Values with a control character inside, which a browser refuses to
    send, do not occur for tokens read from a cookie.) *)
Definition http_space (c : ascii) : bool :=
  let n := nat_of_ascii c in
  (n =? 9)%nat || (n =? 10)%nat || (n =? 13)%nat || (n =? 32)%nat.

Fixpoint strip_leading (v : string) : string :=
  match v with
  | String c v' => if http_space c then strip_leading v' else v
  | EmptyString => v
  end.

Fixpoint strip_trailing (v : string) : string :=
  match v with
  | String c v' =>
      match strip_trailing v' with
      | EmptyString => if http_space c then EmptyString else String c EmptyString
      | r => String c r
      end
  | EmptyString => v
  end.

Definition field_value (v : string) : string := strip_trailing (strip_leading v).

(** [apiClient(config)]: through the request interceptor and onto the wire. *)
Definition apiClient (c : config) (s : state) : state :=
  let c' := request_interceptor s c in
  emit (Request (cid c') (option_map field_value (Authorization c')))
       (set_in_flight (in_flight s ++ [c']) s).

(** [processQueue(error, token)]: every queued pair is rejected when there
    is an error, resolved when there is a (truthy) token, and otherwise left
    alone; then the queue is emptied.  The reactions run as microtasks. *)
Fixpoint queue_jobs (error : option failure) (token : value) (q : list config)
  : list job * list nat :=
  match q with
  | [] => ([], [])
  | c :: q' =>
      let (jobs, lost) := queue_jobs error token q' in
      match error with
      | Some e => (Abort c e :: jobs, lost)
      | None => if truthy token then (Resume c token :: jobs, lost)
                else (jobs, cid c :: lost)
      end
  end.

Definition processQueue (error : option failure) (token : value) (s : state)
  : state * list job :=
  let (jobs, lost) := queue_jobs error token (failedQueue s) in
  (set_failedQueue [] (fold_left (fun acc id => drop id acc) lost s), jobs).

(** The [.then]/[.catch] attached to a queued promise. *)
Definition run_job (s : state) (j : job) : state :=
  match j with
  | Resume c token => apiClient (with_authorization (bearer (to_str token)) c) s
  | Abort c e => settle (cid c) (Failed e) s
  end.

Definition run_jobs (jobs : list job) (s : state) : state := fold_left run_job jobs s.

(** Take the first config of call [id] out of a list. *)
Fixpoint take (id : nat) (l : list config) : option (config * list config) :=
  match l with
  | [] => None
  | c :: l' =>
      if Nat.eqb (cid c) id then Some (c, l')
      else match take id l' with
           | Some (c', rest) => Some (c', c :: rest)
           | None => None
           end
  end.

Definition is_401 (st : option Z) : bool :=
  match st with
  | Some n => (n =? 401)%Z
  | None => false
  end.

(** axios' default [validateStatus] *)
Definition is_2xx (st : option Z) : bool :=
  match st with
  | Some n => (200 <=? n)%Z && (n <? 300)%Z
  | None => false
  end.

(** The refresh token as the 401 handler reads it. *)
Definition read_refreshToken (s : state) : string :=
  if window s then
    match read_cookie (refresh_token (jar s)) with
    | Some t => t
    | None => ""
    end
  else "".

Definition redirect_to_login (s : state) : state :=
  if window s then set_location "/login" s else s.

(** The rejected-response interceptor, up to its first [await]. *)
Definition response_error (originalRequest : config) (st : option Z) (s : state) : state :=
  if is_401 st && negb (_retry originalRequest) then
    if isRefreshing s then
      set_failedQueue (failedQueue s ++ [originalRequest]) s
    else
      let originalRequest := with_retry originalRequest in
      let s := set_isRefreshing true s in
      let refreshToken := read_refreshToken s in
      if refreshToken =? "" then
        set_isRefreshing false
          (settle (cid originalRequest) (Failed (RequestFailed st)) (redirect_to_login s))
      else
        emit (Refresh refreshToken)
          (set_refreshing (refreshing s ++ [(originalRequest, refreshToken)]) s)
  else
    settle (cid originalRequest) (Failed (RequestFailed st)) s.

(** The rest of the handler, resumed when the refresh call settles.
    [data] is [refreshResponse.data], or [None] when [axios.post] rejected. *)
Definition refresh_settled (originalRequest : config) (data : option value) (s : state)
  : state :=
  match (match data with
         | Some d =>
             let* access := get d "access_token" in
             let* newRefreshToken := get d "refresh_token" in
             Ok (access, newRefreshToken)
         | None => Throw TypeError
         end) with
  | Ok (access, newRefreshToken) =>
      let s := if window s
               then set_jar {| access_token := write_cookie access;
                               refresh_token := write_cookie newRefreshToken |} s
               else s in
      let originalRequest := with_authorization (bearer (to_str access)) originalRequest in
      let (s, jobs) := processQueue None access s in
      let s := apiClient originalRequest s in
      let s := set_isRefreshing false s in
      run_jobs jobs s
  | Throw _ =>
      let (s, jobs) := processQueue (Some RefreshFailed) VNull s in
      let s := if window s
               then set_location "/login"
                      (set_jar {| access_token := None; refresh_token := None |} s)
               else s in
      let s := set_isRefreshing false s in
      settle (cid originalRequest) (Failed RefreshFailed) (run_jobs jobs s)
  end.

Inductive event : Type :=
| Call (id : nat)                       (* the application calls apiClient with a new config *)
| Reply (id : nat) (st : option Z)      (* the reply to a call in flight; [None] is a network failure *)
| RefreshReply (data : option value).   (* the reply to the refresh call in flight *)

Definition step (s : state) (e : event) : state :=
  match e with
  | Call id => apiClient {| cid := id; _retry := false; Authorization := None |} s
  | Reply id st =>
      match take id (in_flight s) with
      | None => s
      | Some (c, rest) =>
          let s := set_in_flight rest s in
          if is_2xx st
          then settle id (Resolved (match st with Some n => n | None => 0%Z end)) s
          else response_error c st s
      end
  | RefreshReply data =>
      match refreshing s with
      | [] => s
      | (c, _) :: rest => refresh_settled c data (set_refreshing rest s)
      end
  end.

Definition run (s : state) (es : list event) : state := fold_left step es s.

Definition refresh_calls (w : list sent) : nat :=
  length (filter (fun x => match x with Refresh _ => true | _ => false end) w).

(** The exported helpers. *)
Definition getAccessToken (s : state) : option string :=
  if window s then read_cookie (access_token (jar s)) else None.

Definition getRefreshToken (s : state) : option string :=
  if window s then read_cookie (refresh_token (jar s)) else None.

Definition isAuthenticated (s : state) : bool :=
  match getAccessToken s with Some _ => true | None => false end.

Definition logout (s : state) : state :=
  if window s
  then set_location "/login" (set_jar {| access_token := None; refresh_token := None |} s)
  else s.

End AxiosInstance.


(* ================================================================== *)
(** ** Reference forms used by the statements below *)

(** The object [updatedPatient] builds from a raw resource with properties
    [o]: the closed form of the merge. *)
Definition merged (o : obj) (fd : PatientsModal.FormData) : obj :=
  set_props o
    [ ("telecom", PatientsModal.telecom fd);
      ("name", VArr [ VObj [ ("family", PatientsModal.name_family fd);
                             ("given", PatientsModal.name_given fd) ] ]);
      ("gender", PatientsModal.gender fd);
      ("birthDate", PatientsModal.birthDate fd);
      ("active", PatientsModal.active fd);
      ("maritalStatus",
        VObj (set_props (own_props (lookup "maritalStatus" o))
                        [ ("text", PatientsModal.maritalStatus fd) ])) ].

(** The source fields of a patient resource that its declared type marks
    optional. *)
Definition optional_fields : list string :=
  [ "meta"; "extension"; "identifier"; "active"; "name"; "telecom";
    "gender"; "birthDate"; "deceasedBoolean"; "maritalStatus"; "address" ].

(** The documented fallback of every member of the flattened view. *)
Definition fallback_view : value :=
  VObj
    [ ("identifier", VStr "N/A");
      ("name", VObj [ ("family", VStr "Unknown");
                      ("given", VArr [VStr "Unknown"]);
                      ("full", VStr "Unknown Unknown") ]);
      ("gender", VStr "unknown");
      ("birthDate", VStr "Unknown");
      ("active", VBool false);
      ("deceased", VBool false);
      ("maritalStatus", VStr "Unknown");
      ("lastUpdated", VStr "Unknown");
      ("telecom", VArr []);
      ("address", VArr []);
      ("ethnicity", VStr "Unspecified") ].

(** The elements of an array, none for any other value. *)
Definition items (v : value) : list value :=
  match v with
  | VArr l => l
  | _ => []
  end.

(** An optional array whose elements all satisfy [p]. *)
Definition array_of (p : value -> bool) (v : value) : bool :=
  match v with
  | VUndefined | VNull => true
  | VArr l => forallb p l
  | _ => false
  end.

Definition entry_ok (e : value) : bool :=
  negb (nullish e) && negb (nullish (get_opt e "resource")).

(** A bundle of the shape the list route declares for [data]: an object,
    [entry] and [link] absent or arrays, every entry with a [resource], no
    [null] link. *)
Definition bundle_ok (data : value) : bool :=
  match data with VObj _ => true | _ => false end
  && array_of entry_ok (get_opt data "entry")
  && array_of (fun l => negb (nullish l)) (get_opt data "link").

(** The bundle's link array contains a link whose relation is [rel]. *)
Definition has_link (rel : string) (data : value) : Prop :=
  exists l, In l (items (get_opt data "link")) /\ get_opt l "relation" = VStr rel.

Definition row_keys : list string :=
  [ "id"; "fullUrl"; "identifier"; "name"; "gender"; "birthDate"; "active";
    "maritalStatus"; "lastUpdated" ].

(** [row] is a list row for [entry]: it has the nine members, [fullUrl] is
    the entry's own (whatever that is), and every other member, the three
    parts of the name included, is neither [null] nor [undefined]. *)
Definition row_of (entry row : value) : Prop :=
  exists r,
    row = VObj r /\
    map fst r = row_keys /\
    lookup "fullUrl" r = get_opt entry "fullUrl" /\
    (forall k, In k row_keys -> k <> "fullUrl" -> nullish (lookup k r) = false) /\
    nullish (get_opt (lookup "name" r) "family") = false /\
    nullish (get_opt (lookup "name" r) "given") = false /\
    nullish (get_opt (lookup "name" r) "full") = false.

(** A form field that is missing or empty. *)
Definition blank (v : option LoginRoute.entry) : Prop :=
  v = None \/ v = Some (LoginRoute.Text "").

(** The replies "401" to the calls [ids], in that order. *)
Definition unauthorized (ids : list nat) : list AxiosInstance.event :=
  map (fun id => AxiosInstance.Reply id (Some 401%Z)) ids.

(** The character [c] occurs in [s]. *)
Fixpoint has_char (c : ascii) (s : string) : bool :=
  match s with
  | EmptyString => false
  | String a s' => Ascii.eqb a c || has_char c s'
  end.

(** The flag and the refresh calls in flight agree: one call while the
    flag is up, none while it is down. *)
Definition flag_guards_refresh (s : AxiosInstance.state) : Prop :=
  if AxiosInstance.isRefreshing s
  then length (AxiosInstance.refreshing s) = 1%nat
  else AxiosInstance.refreshing s = [].

(** The header every call carries once the cookie holds the token [tok]:
    the request interceptor reads the cookie back. *)
Definition header_from_cookie (tok : value) : string :=
  AxiosInstance.bearer (AxiosInstance.before "=" (AxiosInstance.before ";" (to_str tok))).

(** The config of a call the application has just made. *)
Definition new_config (id : nat) : AxiosInstance.config :=
  {| AxiosInstance.cid := id; AxiosInstance._retry := false;
     AxiosInstance.Authorization := None |}.

(** Everything in the client's state but the calls in flight and the wire. *)
Definition control (s : AxiosInstance.state) :=
  (AxiosInstance.window s, AxiosInstance.jar s, AxiosInstance.location s,
   AxiosInstance.isRefreshing s, AxiosInstance.failedQueue s,
   AxiosInstance.refreshing s, AxiosInstance.settled s,
   AxiosInstance.pending_forever s).

(** Everything but the calls in flight and the queue. *)
Definition session (s : AxiosInstance.state) :=
  (AxiosInstance.window s, AxiosInstance.jar s, AxiosInstance.location s,
   AxiosInstance.isRefreshing s, AxiosInstance.refreshing s,
   AxiosInstance.wire s, AxiosInstance.settled s,
   AxiosInstance.pending_forever s).

(** The scenario of the single-flight property, in a browser with cookies
    [j]: the calls [ids] are made; each is answered 401, in the order
    [order]; then the refresh call is answered with the body [data]. *)
Definition calls_made (j : AxiosInstance.Jar) (ids : list nat) : AxiosInstance.state :=
  AxiosInstance.run (AxiosInstance.init true j) (map AxiosInstance.Call ids).

Definition all_unauthorized (j : AxiosInstance.Jar) (ids order : list nat)
  : AxiosInstance.state :=
  AxiosInstance.run (calls_made j ids) (unauthorized order).

Definition refresh_answered (j : AxiosInstance.Jar) (ids order : list nat) (data : value)
  : AxiosInstance.state :=
  AxiosInstance.step (all_unauthorized j ids order) (AxiosInstance.RefreshReply (Some data)).

(** The same scenario from any state [s] of the client. *)
Definition calls_made_from (s : AxiosInstance.state) (ids : list nat) : AxiosInstance.state :=
  AxiosInstance.run s (map AxiosInstance.Call ids).

Definition all_unauthorized_from (s : AxiosInstance.state) (ids order : list nat)
  : AxiosInstance.state :=
  AxiosInstance.run (calls_made_from s ids) (unauthorized order).

Definition refresh_answered_from (s : AxiosInstance.state) (ids order : list nat)
    (data : value) : AxiosInstance.state :=
  AxiosInstance.step (all_unauthorized_from s ids order)
    (AxiosInstance.RefreshReply (Some data)).

(** No refresh is going on: the flag is down, no refresh call is in
    flight and no call waits in the queue. *)
Definition idle (s : AxiosInstance.state) : Prop :=
  AxiosInstance.isRefreshing s = false /\
  AxiosInstance.refreshing s = [] /\
  AxiosInstance.failedQueue s = [].

(** The calls [ids] are new: distinct, and none of them is still in flight. *)
Definition new_calls (s : AxiosInstance.state) (ids : list nat) : Prop :=
  NoDup ids /\
  forall id, In id ids -> ~ In id (map AxiosInstance.cid (AxiosInstance.in_flight s)).

From Stdlib Require Import DecimalPos.


(* ================================================================== *)
(** ** [PatientsModal]: the state of the edit form *)

(** The form handlers of [PatientsModal.tsx].  Each is the function handed
    to [setFormData] (or the object handed to it), over the same [FormData]
    record as [handleSave]: [{...prev, telecom}] changes [telecom] only,
    [{...prev, name: {...prev.name, given}}] changes the given names only. *)
Module PatientsModalForm.
Import PatientsModal.

(** [[...v]]: the elements of an array, the code units of a string; any
    other value is not iterable. *)
Definition spread_items (v : value) : res (list value) :=
  match v with
  | VArr l => Ok l
  | VStr s => Ok (map (fun c => VStr (String c EmptyString)) (list_ascii_of_string s))
  | _ => Throw TypeError
  end.

(** The receiver of [v.filter(...)] and [v.map(...)]: only an array has
    these methods. *)
Definition array_items (v : value) : res (list value) :=
  match v with
  | VArr l => Ok l
  | _ => Throw TypeError
  end.

(** [l.filter((_, i) => keep(i))], counting from [i]. *)
Fixpoint filter_index {A : Type} (keep : nat -> bool) (i : nat) (l : list A) : list A :=
  match l with
  | [] => []
  | a :: l' => if keep i then a :: filter_index keep (S i) l' else filter_index keep (S i) l'
  end.

(** [l.map((x, i) => f(x, i))], counting from [i]. *)
Fixpoint map_index {A B : Type} (f : A -> nat -> B) (i : nat) (l : list A) : list B :=
  match l with
  | [] => []
  | a :: l' => f a i :: map_index f (S i) l'
  end.

Definition with_telecom (t : value) (prev : FormData) : FormData :=
  {| telecom := t; name_family := name_family prev; name_given := name_given prev;
     gender := gender prev; birthDate := birthDate prev; active := active prev;
     maritalStatus := maritalStatus prev |}.

Definition with_given (g : value) (prev : FormData) : FormData :=
  {| telecom := telecom prev; name_family := name_family prev; name_given := g;
     gender := gender prev; birthDate := birthDate prev; active := active prev;
     maritalStatus := maritalStatus prev |}.

(** [{ system: 'phone', value: '', use: 'home' }] *)
Definition blank_telecom : value :=
  VObj [ ("system", VStr "phone"); ("value", VStr ""); ("use", VStr "home") ].

Definition addTelecomEntry (prev : FormData) : res FormData :=
  let* l := spread_items (telecom prev) in
  Ok (with_telecom (VArr (l ++ [blank_telecom])) prev).

Definition removeTelecomEntry (index : nat) (prev : FormData) : res FormData :=
  let* l := array_items (telecom prev) in
  Ok (with_telecom (VArr (filter_index (fun i => negb (Nat.eqb i index)) 0 l)) prev).

(** [{ ...item, [field]: value }] at [index], every other item as it is. *)
Definition updateTelecomEntry (index : nat) (field value : string) (prev : FormData)
  : res FormData :=
  let* l := array_items (telecom prev) in
  Ok (with_telecom
        (VArr (map_index (fun item i =>
                            if Nat.eqb i index
                            then VObj (set_props (own_props item) [ (field, VStr value) ])
                            else item) 0 l)) prev).

Definition addGivenName (prev : FormData) : res FormData :=
  let* l := spread_items (name_given prev) in
  Ok (with_given (VArr (l ++ [VStr ""])) prev).

Definition removeGivenName (index : nat) (prev : FormData) : res FormData :=
  let* l := array_items (name_given prev) in
  Ok (with_given (VArr (filter_index (fun i => negb (Nat.eqb i index)) 0 l)) prev).

Definition updateGivenName (index : nat) (value : string) (prev : FormData) : res FormData :=
  let* l := array_items (name_given prev) in
  Ok (with_given
        (VArr (map_index (fun name i => if Nat.eqb i index then VStr value else name) 0 l))
        prev).

(** The form [fetchPatientData] sets from the answer [data] of the route,
    and [handleCancel] sets again from [patient]: the same literal over
    [data.formatted]. *)
Definition form_of (data : value) : res FormData :=
  let* formatted := get data "formatted" in
  let* tel := get formatted "telecom" in
  let* name := get formatted "name" in
  let* family := get name "family" in
  let* given := get name "given" in
  let* gen := get formatted "gender" in
  let* birth := get formatted "birthDate" in
  let* act := get formatted "active" in
  let* marital := get formatted "maritalStatus" in
  Ok {| telecom := or_else tel (VArr []);
        name_family := family; name_given := given;
        gender := gen; birthDate := birth; active := act; maritalStatus := marital |}.

(** [handleCancel]: with a patient loaded the form goes back to
    [form_of patient]; without one it stays. *)
Definition handleCancel (patient : value) (current : FormData) : res FormData :=
  if truthy patient then form_of patient else Ok current.

End PatientsModalForm.

(* ================================================================== *)
(** ** [PatientsDashboard]: paging through the list *)

Module PatientsDashboard.

(** The two pieces of state the paging handlers read. *)
Record Paging : Type := {
  patientData : value;      (* the last page received, or [null] *)
  currentPage : Z
}.

(** A query value as [searchParams.get] returns it: a [+] of the URL reads
    as a space.  (The text of a Number holds no other character that a
    query string encodes.) *)
Fixpoint query_text (s : string) : string :=
  match s with
  | String c s' => String (if Ascii.eqb c "+" then " "%char else c) (query_text s')
  | EmptyString => EmptyString
  end.

(** The search parameters of [`/api/patients?page=${page}&count=20`], as
    the route reads them. *)
Definition fetchPatients (page : Z) : option string * option string :=
  (Some (query_text (to_str (VNum page))), Some "20").

(** [patientData?.pagination.flag]: [undefined] without a page; otherwise
    the flag of its [pagination], which must be there. *)
Definition page_flag (flag : string) (p : Paging) : res value :=
  if nullish (patientData p) then Ok VUndefined
  else get (get_opt (patientData p) "pagination") flag.

(** [handleNextPage] and [handlePrevPage]: the page they ask
    [fetchPatients] for, if any. *)
Definition handleNextPage (p : Paging) : res (option Z) :=
  let* hasNext := page_flag "hasNext" p in
  Ok (if truthy hasNext then Some (currentPage p + 1)%Z else None).

Definition handlePrevPage (p : Paging) : res (option Z) :=
  let* hasPrev := page_flag "hasPrev" p in
  Ok (if truthy hasPrev then Some (currentPage p - 1)%Z else None).

(** [handleRefresh] and [handlePatientUpdated] ask for the current page. *)
Definition handleRefresh (p : Paging) : Z := currentPage p.

(** After a successful fetch of [page]: [setPatientData(data)] and
    [setCurrentPage(page)]. *)
Definition fetched (page : Z) (data : value) : Paging :=
  {| patientData := data; currentPage := page |}.

End PatientsDashboard.

(* ================================================================== *)
(** ** Further reference forms *)

(** The scenario in which the refresh call fails: as [refresh_answered],
    with the refresh call rejected. *)
Definition refresh_rejected (j : AxiosInstance.Jar) (ids order : list nat)
  : AxiosInstance.state :=
  AxiosInstance.step (all_unauthorized j ids order) (AxiosInstance.RefreshReply None).

(** The calls a run of events makes. *)
Definition calls_in (es : list AxiosInstance.event) : list nat :=
  flat_map (fun e => match e with AxiosInstance.Call id => [id] | _ => [] end) es.

(** The configs without the [_retry] mark. *)
Definition unmarked (l : list AxiosInstance.config) : nat :=
  length (filter (fun c => negb (AxiosInstance._retry c)) l).

(** Every call the client still knows about: in flight, waiting in the
    queue, suspended on the refresh call, settled, or dropped unsettled. *)
Definition known (s : AxiosInstance.state) : list nat :=
  (map AxiosInstance.cid (AxiosInstance.in_flight s)
   ++ map AxiosInstance.cid (AxiosInstance.failedQueue s)
   ++ map (fun x => AxiosInstance.cid (fst x)) (AxiosInstance.refreshing s)
   ++ map fst (AxiosInstance.settled s)
   ++ AxiosInstance.pending_forever s)%list.

(** A refresh reply that is a failure or carries an access token. *)
Definition reply_usable (e : AxiosInstance.event) : Prop :=
  match e with
  | AxiosInstance.RefreshReply (Some d) =>
      nullish d = true \/ truthy (get_opt d "access_token") = true
  | _ => True
  end.

(** No reply of the run is a 401. *)
Definition no_401 (es : list AxiosInstance.event) : Prop :=
  forall id st, In (AxiosInstance.Reply id st) es -> AxiosInstance.is_401 st = false.

(** What the promise reactions of [processQueue] leave alone. *)
Definition core (s : AxiosInstance.state) :=
  (AxiosInstance.window s, AxiosInstance.jar s, AxiosInstance.location s,
   AxiosInstance.isRefreshing s, AxiosInstance.failedQueue s,
   AxiosInstance.refreshing s, AxiosInstance.pending_forever s).

(** What [processQueue] itself leaves alone. *)
Definition outside_queue (s : AxiosInstance.state) :=
  (AxiosInstance.window s, AxiosInstance.jar s, AxiosInstance.location s,
   AxiosInstance.isRefreshing s, AxiosInstance.refreshing s,
   AxiosInstance.in_flight s, AxiosInstance.wire s, AxiosInstance.settled s).

(** No call waits in the queue while the flag is down. *)
Definition queue_guarded (s : AxiosInstance.state) : Prop :=
  AxiosInstance.isRefreshing s = false -> AxiosInstance.failedQueue s = [].

Definition no_cookies : AxiosInstance.Jar :=
  {| AxiosInstance.access_token := None; AxiosInstance.refresh_token := None |}.

(** The cookies written from the body of a refresh reply. *)
Definition refreshed_cookies (d : value) : AxiosInstance.Jar :=
  {| AxiosInstance.access_token := AxiosInstance.write_cookie (get_opt d "access_token");
     AxiosInstance.refresh_token := AxiosInstance.write_cookie (get_opt d "refresh_token") |}.

(** A refresh reply the handler cannot use: the call was rejected, or its
    body is [null] or [undefined], so that reading the tokens throws. *)
Definition refresh_unusable (data : option value) : bool :=
  match data with
  | Some d => nullish d
  | None => true
  end.

(** The promise reactions that send an unmarked config again. *)
Definition resumes_unmarked (jobs : list AxiosInstance.job) : nat :=
  length (filter (fun j => match j with
                           | AxiosInstance.Resume c _ => negb (AxiosInstance._retry c)
                           | AxiosInstance.Abort _ _ => false
                           end) jobs).

(** The refresh calls sent so far, plus the calls that can still start
    one: those the client holds without the [_retry] mark. *)
Definition refresh_potential (s : AxiosInstance.state) : nat :=
  AxiosInstance.refresh_calls (AxiosInstance.wire s)
  + unmarked (AxiosInstance.in_flight s)
  + unmarked (AxiosInstance.failedQueue s)
  + unmarked (map fst (AxiosInstance.refreshing s)).

(** The queued calls a refresh reply leaves unsettled: all of them when the
    body can be read but carries no (truthy) access token, none otherwise. *)
Definition stranded (data : option value) (q : list AxiosInstance.config) : list nat :=
  match data with
  | Some d => if nullish d || truthy (get_opt d "access_token") then []
              else map AxiosInstance.cid q
  | None => []
  end.

(** A form with every field filled in: nothing the view would replace by
    a placeholder. *)
Definition filled (fd : PatientsModal.FormData) : bool :=
  truthy (PatientsModal.telecom fd)
  && truthy (PatientsModal.name_family fd)
  && truthy (PatientsModal.name_given fd)
  && truthy (PatientsModal.gender fd)
  && truthy (PatientsModal.birthDate fd)
  && negb (nullish (PatientsModal.active fd))
  && truthy (PatientsModal.maritalStatus fd).

(** The members of the view that the form does not edit. *)
Definition unedited_view : list string :=
  ["identifier"; "deceased"; "lastUpdated"; "address"; "ethnicity"].

(** What [document.cookie] shows of the cookies a response has set: the
    value stored under [name], unless the cookie is HTTP-only, which keeps
    it from scripts. *)
Definition script_visible (name : string) (cs : list cookie) : option string :=
  match find (fun c => (c_name c =? name) && negb (httpOnly c)) cs with
  | Some c => Some (to_str (c_value c))
  | None => None
  end.

Definition jar_after (cs : list cookie) : AxiosInstance.Jar :=
  {| AxiosInstance.access_token := script_visible "access_token" cs;
     AxiosInstance.refresh_token := script_visible "refresh_token" cs |}.

(** The browser-side client in a browser (or on the server, [w = false])
    that held no cookie before the login route answered. *)
Definition client_after_login (env : Env) (message : exn -> string)
    (remote : request -> LoginRoute.axios_result) (formData : res LoginRoute.form)
    (w : bool) : AxiosInstance.state :=
  AxiosInstance.init w
    (jar_after (cookies (fst (LoginRoute.POST env message remote formData)))).

(** A request sent without an [Authorization] header. *)
Definition unauthenticated_request (x : AxiosInstance.sent) : Prop :=
  match x with
  | AxiosInstance.Request _ None => True
  | _ => False
  end.

(** The state of a client that holds no token and has no refresh going. *)
Definition tokenless (s : AxiosInstance.state) : Prop :=
  AxiosInstance.jar s = no_cookies /\
  AxiosInstance.isRefreshing s = false /\
  AxiosInstance.failedQueue s = [] /\
  AxiosInstance.refreshing s = [] /\
  Forall unauthenticated_request (AxiosInstance.wire s).

(** The call a promise reaction belongs to. *)
Definition job_id (j : AxiosInstance.job) : nat :=
  match j with
  | AxiosInstance.Resume c _ => AxiosInstance.cid c
  | AxiosInstance.Abort c _ => AxiosInstance.cid c
  end.

(** The calls the client is still working on or has settled. *)
Definition attended (s : AxiosInstance.state) : list nat :=
  (map AxiosInstance.cid (AxiosInstance.in_flight s)
   ++ map AxiosInstance.cid (AxiosInstance.failedQueue s)
   ++ map (fun x => AxiosInstance.cid (fst x)) (AxiosInstance.refreshing s)
   ++ map fst (AxiosInstance.settled s))%list.

(* ================================================================== *)
(** ** Sample inputs *)

(** A raw resource with two name entries, the first with [use] and
    [prefix], and a coded marital status. *)
Definition raw_two_names : obj :=
  [ ("resourceType", VStr "Patient");
    ("id", VStr "42");
    ("name", VArr [ VObj [ ("use", VStr "official"); ("family", VStr "Doe");
                           ("given", VArr [VStr "Jane"]);
                           ("prefix", VArr [VStr "Dr."]) ];
                    VObj [ ("use", VStr "maiden"); ("family", VStr "Roe") ] ]);
    ("maritalStatus", VObj [ ("coding", VArr [ VObj [ ("code", VStr "M") ] ]);
                             ("text", VStr "Married") ]);
    ("address", VArr [ VObj [ ("city", VStr "Pune") ] ]) ].

Definition form_divorced : PatientsModal.FormData :=
  {| PatientsModal.telecom := VArr [];
     PatientsModal.name_family := VStr "Doe";
     PatientsModal.name_given := VArr [VStr "Jane"];
     PatientsModal.gender := VStr "female";
     PatientsModal.birthDate := VStr "1990-01-01";
     PatientsModal.active := VBool true;
     PatientsModal.maritalStatus := VStr "Divorced" |}.


Definition env_production : Env :=
  {| NEXT_BASE_URL := "https://ehr.example";
     NEXT_FIRM_URL_PREFIX := "firm";
     NEXT_API_KEY := "key";
     NODE_ENV := Some "production" |}.

Definition env_development : Env :=
  {| NEXT_BASE_URL := "https://ehr.example";
     NEXT_FIRM_URL_PREFIX := "firm";
     NEXT_API_KEY := "key";
     NODE_ENV := Some "development" |}.

Definition plain_message (e : exn) : string :=
  match e with
  | TypeError => "TypeError"
  | SyntaxError => "SyntaxError"
  end.

(** A remote API that answers every call with an empty 200. *)
Definition remote_empty_200 (_ : request) : res reply :=
  Ok {| r_status := 200; r_statusText := "OK"; r_text := "{}"; r_json := Ok (VObj []) |}.

(** A grant endpoint that issues the same pair of tokens to everybody. *)
Definition token_pair : value :=
  VObj [ ("token_type", VStr "Bearer");
         ("access_token", VStr "A1");
         ("refresh_token", VStr "R1") ].

Definition remote_grants (_ : request) : LoginRoute.axios_result :=
  LoginRoute.Fulfilled token_pair.

Definition form_alice : LoginRoute.form :=
  [ ("username", LoginRoute.Text "alice"); ("password", LoginRoute.Text "secret") ].

Definition form_no_password : LoginRoute.form :=
  [ ("username", LoginRoute.Text "alice"); ("password", LoginRoute.Text "") ].

(** The body of [PUT /patients/42] that names patient 43. *)
Definition body_43 : value :=
  VObj [ ("resourceType", VStr "Patient"); ("id", VStr "43") ].

Definition body_42 : value :=
  VObj [ ("resourceType", VStr "Patient"); ("id", VStr "42") ].

(** A bundle whose only link is the one to the next page. *)
Definition bundle_only_next : value :=
  VObj [ ("total", VNum 50);
         ("entry", VArr [ VObj [ ("resource", VObj [ ("id", VStr "253267") ]) ] ]);
         ("link", VArr [ VObj [ ("relation", VStr "next");
                                ("url", VStr "https://ehr.example/Patient?page=2") ] ]) ].

(** A bundle of page 2 whose backward link carries the relation
    ["previous"]. *)
Definition bundle_previous : value :=
  VObj [ ("total", VNum 50);
         ("link", VArr [ VObj [ ("relation", VStr "self");
                                ("url", VStr "https://ehr.example/Patient?page=2") ];
                         VObj [ ("relation", VStr "previous");
                                ("url", VStr "https://ehr.example/Patient?page=1") ] ]) ].

(** A browser holding an expired access token and a refresh token. *)
Definition jar_stale : AxiosInstance.Jar :=
  {| AxiosInstance.access_token := Some "old"; AxiosInstance.refresh_token := Some "R0" |}.

(** A refresh reply with a new pair. *)
Definition new_pair : value :=
  VObj [ ("access_token", VStr "new"); ("refresh_token", VStr "R1") ].

(** Two concurrent calls whose 401s were answered by one refresh: call 1
    started it, call 2 waited in the queue; both have been sent again. *)
Definition two_calls_refreshed : AxiosInstance.state :=
  AxiosInstance.run (AxiosInstance.init true jar_stale)
    [ AxiosInstance.Call 1; AxiosInstance.Call 2;
      AxiosInstance.Reply 1 (Some 401%Z); AxiosInstance.Reply 2 (Some 401%Z);
      AxiosInstance.RefreshReply (Some new_pair) ].

(** A browser whose cookies show no refresh token to scripts. *)
Definition jar_without_refresh : AxiosInstance.Jar :=
  {| AxiosInstance.access_token := Some "old"; AxiosInstance.refresh_token := None |}.

(** A run with a success, a server error, a missing resource and a network
    failure, and no 401. *)
Definition quiet_events : list AxiosInstance.event :=
  [ AxiosInstance.Call 1; AxiosInstance.Call 2; AxiosInstance.Call 3; AxiosInstance.Call 4;
    AxiosInstance.Reply 2 (Some 500%Z); AxiosInstance.Reply 1 (Some 200%Z);
    AxiosInstance.Reply 4 None; AxiosInstance.Reply 3 (Some 404%Z) ].

(** A reply of the token endpoint that omits the refresh token. *)
Definition access_only : value := VObj [("access_token", VStr "A1")].

(** Three calls, all answered 401; the refresh is answered with tokens. *)
Definition refreshed_run : list AxiosInstance.event :=
  [AxiosInstance.Call 1; AxiosInstance.Call 2; AxiosInstance.Call 3;
   AxiosInstance.Reply 2 (Some 401%Z); AxiosInstance.Reply 1 (Some 401%Z);
   AxiosInstance.Reply 3 (Some 401%Z);
   AxiosInstance.RefreshReply (Some new_pair)].

(** A remote API that is down: every call is answered 503. *)
Definition remote_unavailable (_ : request) : res reply :=
  Ok {| r_status := 503; r_statusText := "Service Unavailable"; r_text := "";
        r_json := Throw SyntaxError |}.

(** A remote API that answers every call 200 with a body that is not JSON. *)
Definition remote_garbled (_ : request) : res reply :=
  Ok {| r_status := 200; r_statusText := "OK"; r_text := "<html>";
        r_json := Throw SyntaxError |}.

(** A remote API that answers every call with the bundle [bundle_only_next]. *)
Definition remote_first_page (_ : request) : res reply :=
  Ok {| r_status := 200; r_statusText := "OK"; r_text := "";
        r_json := Ok bundle_only_next |}.

(** A raw resource with nothing but its type and id. *)
Definition raw_minimal : obj := [ ("resourceType", VStr "Patient"); ("id", VStr "7") ].
(* ================================================================== *)
(** * Properties *)

(** ** Facts about the JavaScript operators *)

Section JSFacts.

Lemma lookup_set_prop (o : obj) (k k' : string) (v : value) :
  lookup k (set_prop o k' v) = if k' =? k then v else lookup k o.
Proof.
  induction o as [| [k0 v0] o IH]; simpl.
  - destruct (k' =? k); reflexivity.
  - destruct (k0 =? k') eqn:E0; simpl.
    + apply String.eqb_eq in E0; subst k0. destruct (k' =? k); reflexivity.
    + rewrite IH. destruct (k0 =? k) eqn:E1; [| reflexivity].
      apply String.eqb_eq in E1; subst k0.
      rewrite String.eqb_sym, E0. reflexivity.
Qed.

Lemma lookup_absent (o : obj) (k : string) :
  has_key k o = false -> lookup k o = VUndefined.
Proof.
  induction o as [| [k0 v0] o IH]; simpl; [reflexivity |].
  intros H. apply orb_false_iff in H as [H0 H1]. rewrite H0. auto.
Qed.

(** Defining a property the predicate [p] selects leaves the properties
    outside [p] as they were, in the same order. *)
Lemma filter_set_prop (p : string -> bool) (o : obj) (k : string) (v : value) :
  p k = true ->
  filter (fun kv => negb (p (fst kv))) (set_prop o k v)
  = filter (fun kv => negb (p (fst kv))) o.
Proof.
  intros Hk. induction o as [| [k0 v0] o IH]; simpl.
  - rewrite Hk. reflexivity.
  - destruct (k0 =? k) eqn:E; simpl.
    + apply String.eqb_eq in E; subst k0. rewrite Hk. reflexivity.
    + rewrite IH. reflexivity.
Qed.

Lemma or_else_defined (a b : value) : nullish b = false -> nullish (or_else a b) = false.
Proof.
  unfold or_else. intros H. destruct (truthy a) eqn:T; [| exact H].
  destruct a; simpl in *; congruence.
Qed.

Lemma coalesce_defined (a b : value) : nullish b = false -> nullish (coalesce a b) = false.
Proof. unfold coalesce. destruct a; simpl; auto. Qed.

Lemma eq_str_true (v : value) (s : string) : eq_str v s = true <-> v = VStr s.
Proof.
  destruct v; simpl; split; try discriminate.
  - intros H. apply String.eqb_eq in H. congruence.
  - intros H. inversion H. apply String.eqb_refl.
Qed.

End JSFacts.

(** Rewriting a lookup through the chain of property definitions of an
    object literal whose keys are literal strings. *)
Ltac lookup_literal :=
  unfold set_props; simpl fold_left;
  repeat first [ rewrite lookup_set_prop; simpl String.eqb
               | progress cbn [get_opt fold_left fst snd] ];
  try reflexivity.

(** ** Resource Mapper: the write-back merge *)

Section WriteBack.
Import PatientsModal.

Variable o : obj.            (* the properties of [patient.raw] *)
Variable fd : FormData.

Lemma updatedPatient_object : updatedPatient (VObj o) fd = Ok (VObj (merged o fd)).
Proof. reflexivity. Qed.

Lemma merged_untouched (k : string) : edited k = false -> lookup k (merged o fd) = lookup k o.
Proof.
  unfold edited, edited_keys; simpl existsb. intros H.
  repeat (apply orb_false_iff in H; destruct H as [?E H]).
  unfold merged, set_props; simpl fold_left.
  repeat rewrite lookup_set_prop.
  repeat match goal with
         | E : (k =? _) = false |- _ => rewrite String.eqb_sym in E; rewrite E; clear E
         end.
  reflexivity.
Qed.

Lemma merged_order :
  filter (fun kv => negb (edited (fst kv))) (merged o fd)
  = filter (fun kv => negb (edited (fst kv))) o.
Proof.
  unfold merged, set_props; simpl fold_left.
  repeat (rewrite filter_set_prop by reflexivity). reflexivity.
Qed.

End WriteBack.

(** C2.  Write-back preservation.  For every raw patient resource (an
    object [o]) and every state [fd] of the edit form, the merge of
    [handleSave] yields an object in which every property outside the six
    the form writes has the value it has in [o] (address, identifier and
    extension among them), and these untouched properties keep their order;
    the edited members carry the values of the form: name, gender, birth
    date, active flag, telecom array, and the text of the marital status. *)
Theorem write_back_preserves_unedited (o : obj) (fd : PatientsModal.FormData) :
  exists doc,
    PatientsModal.updatedPatient (VObj o) fd = Ok (VObj doc) /\
    (forall k, PatientsModal.edited k = false -> lookup k doc = lookup k o) /\
    lookup "address" doc = lookup "address" o /\
    lookup "identifier" doc = lookup "identifier" o /\
    lookup "extension" doc = lookup "extension" o /\
    filter (fun kv => negb (PatientsModal.edited (fst kv))) doc
      = filter (fun kv => negb (PatientsModal.edited (fst kv))) o /\
    lookup "name" doc
      = VArr [ VObj [ ("family", PatientsModal.name_family fd);
                      ("given", PatientsModal.name_given fd) ] ] /\
    lookup "gender" doc = PatientsModal.gender fd /\
    lookup "birthDate" doc = PatientsModal.birthDate fd /\
    lookup "active" doc = PatientsModal.active fd /\
    lookup "telecom" doc = PatientsModal.telecom fd /\
    get_opt (lookup "maritalStatus" doc) "text" = PatientsModal.maritalStatus fd.
Proof.
  exists (merged o fd). split; [apply updatedPatient_object |].
  split; [apply merged_untouched |].
  repeat split; try (apply merged_untouched; reflexivity); try apply merged_order;
    unfold merged; lookup_literal.
Qed.

(** C9.  Saving an edit replaces the whole name array by one element made
    of the edited family and given names only: whatever the raw resource
    had under [name] (further entries, or [use], [prefix], [suffix], [text]
    in the first one) does not reach the document, which is the same for
    any two raw resources as far as [name] goes.  The marital status is
    merged instead: with an object [m] under [maritalStatus], every member
    of [m] other than [text] (its [coding] among them) is kept and [text]
    takes the edited value. *)
Theorem save_replaces_name_merges_marital_status
    (o m : obj) (fd : PatientsModal.FormData) :
  lookup "maritalStatus" o = VObj m ->
  exists doc ms,
    PatientsModal.updatedPatient (VObj o) fd = Ok (VObj doc) /\
    lookup "name" doc
      = VArr [ VObj [ ("family", PatientsModal.name_family fd);
                      ("given", PatientsModal.name_given fd) ] ] /\
    (forall o', lookup "name" (merged o' fd) = lookup "name" doc) /\
    lookup "maritalStatus" doc = VObj ms /\
    lookup "text" ms = PatientsModal.maritalStatus fd /\
    lookup "coding" ms = lookup "coding" m /\
    (forall k, k <> "text" -> lookup k ms = lookup k m).
Proof.
  intros Hm.
  exists (merged o fd), (set_prop m "text" (PatientsModal.maritalStatus fd)).
  split; [apply updatedPatient_object |].
  assert (Hname : forall o', lookup "name" (merged o' fd)
            = VArr [ VObj [ ("family", PatientsModal.name_family fd);
                            ("given", PatientsModal.name_given fd) ] ]).
  { intros o'. unfold merged. lookup_literal. }
  split; [apply Hname |].
  split; [intros o'; rewrite !Hname; reflexivity |].
  split; [unfold merged; lookup_literal; rewrite Hm; reflexivity |].
  split; [rewrite lookup_set_prop; reflexivity |].
  split; [rewrite lookup_set_prop; reflexivity |].
  intros k Hk. rewrite lookup_set_prop.
  destruct ("text" =? k) eqn:E; [| reflexivity].
  apply String.eqb_eq in E. congruence.
Qed.

Lemma save_replaces_name_merges_marital_status_witness :
  exists doc ms,
    PatientsModal.updatedPatient (VObj raw_two_names) form_divorced = Ok (VObj doc) /\
    lookup "name" doc = VArr [ VObj [ ("family", VStr "Doe"); ("given", VArr [VStr "Jane"]) ] ] /\
    (forall o', lookup "name" (merged o' form_divorced) = lookup "name" doc) /\
    lookup "maritalStatus" doc = VObj ms /\
    lookup "text" ms = VStr "Divorced" /\
    lookup "coding" ms = VArr [ VObj [ ("code", VStr "M") ] ] /\
    (forall k, k <> "text" ->
       lookup k ms = lookup k [ ("coding", VArr [ VObj [ ("code", VStr "M") ] ]);
                                ("text", VStr "Married") ]).
Proof.
  exact (save_replaces_name_merges_marital_status raw_two_names
           [ ("coding", VArr [ VObj [ ("code", VStr "M") ] ]); ("text", VStr "Married") ]
           form_divorced eq_refl).
Defined.

(** ** Resource Mapper: the flattened view *)

(** C4.  Fallback completeness.  For every patient resource in which all
    the optional source fields are absent, the view [GET] and [PUT] build is
    the table of documented fallbacks, member by member (identifier "N/A",
    family "Unknown", given ["Unknown"], gender "unknown", birth date
    "Unknown", active and deceased false, marital status and last update
    "Unknown", telecom and address empty, ethnicity "Unspecified"), and no
    [null] or [undefined] occurs anywhere in it. *)
Theorem fallback_completeness (o : obj) :
  (forall k, In k optional_fields -> has_key k o = false) ->
  PatientRoute.formatted (VObj o) = Ok fallback_view /\
  defined_deep fallback_view = true.
Proof.
  intros Habsent.
  assert (L : forall k, In k optional_fields -> lookup k o = VUndefined).
  { intros k Hk. apply lookup_absent, Habsent, Hk. }
  split; [| reflexivity].
  unfold PatientRoute.formatted. cbn [nullish get_opt].
  rewrite !L by (simpl; tauto).
  reflexivity.
Qed.

Lemma fallback_completeness_witness :
  PatientRoute.formatted (VObj [ ("resourceType", VStr "Patient"); ("id", VStr "42") ])
    = Ok fallback_view /\
  defined_deep fallback_view = true.
Proof.
  apply (fallback_completeness [ ("resourceType", VStr "Patient"); ("id", VStr "42") ]).
  intros k Hk. simpl in Hk.
  repeat (destruct Hk as [<- | Hk]; [reflexivity |]).
  contradiction.
Defined.

(** [GET] and [PUT] answer with that view under [formatted]. *)
Lemma patient_route_answers_with_view
    (env : Env) (message : exn -> string) (remote : request -> res reply)
    (id token : string) (r : reply) (patientData view : value) :
  id <> "" -> token <> "" ->
  remote (PatientRoute.get_request env id token) = Ok r ->
  r_ok r = true ->
  r_json r = Ok patientData ->
  nullish patientData = false ->
  PatientRoute.formatted patientData = Ok view ->
  PatientRoute.GET env message remote id (Some token)
  = (respond 200 (VObj [ ("id", get_opt patientData "id");
                         ("resourceType", get_opt patientData "resourceType");
                         ("raw", patientData);
                         ("formatted", view) ]),
     [PatientRoute.get_request env id token]).
Proof.
  intros Hid Htok Hremote Hok Hjson Hdef Hview.
  apply String.eqb_neq in Hid, Htok.
  unfold PatientRoute.GET, usable_token. rewrite Hid, Htok, Hremote, Hok, Hjson.
  cbn [negb bind]. unfold PatientRoute.transformedPatient, get. rewrite Hdef.
  cbn [bind]. rewrite Hview. reflexivity.
Qed.

(** ** Resource Gateway: the list page *)

Section ListPage.
Import PatientsRoute.

Lemma mapM_Forall2 {A B : Type} (f : A -> res B) (P : A -> B -> Prop) (l : list A) :
  Forall (fun a => exists b, f a = Ok b /\ P a b) l ->
  exists bs, mapM f l = Ok bs /\ Forall2 P l bs.
Proof.
  induction 1 as [| a l (b & Hb & Pb) _ (bs & Hbs & Pbs)]; simpl.
  - exists []. split; [reflexivity | constructor].
  - exists (b :: bs). rewrite Hb; simpl. rewrite Hbs; simpl.
    split; [reflexivity | constructor; assumption].
Qed.

Lemma patient_row_spec (e : value) :
  entry_ok e = true -> exists row, patient_row e = Ok row /\ row_of e row.
Proof.
  unfold entry_ok. intros H. apply andb_true_iff in H as [He Hr].
  apply negb_true_iff in He, Hr.
  unfold patient_row, get. rewrite He. cbn [bind]. rewrite Hr. cbn [bind].
  eexists. split; [reflexivity |].
  eexists. split; [reflexivity |].
  split; [reflexivity |]. split; [reflexivity |].
  split.
  - intros k Hk Hne. simpl in Hk.
    repeat (destruct Hk as [<- | Hk];
            [ first [ congruence
                    | cbn [lookup String.eqb Ascii.eqb Bool.eqb];
                      first [ apply or_else_defined | apply coalesce_defined | idtac ];
                      reflexivity ] |]).
    contradiction.
  - cbn [lookup String.eqb Ascii.eqb Bool.eqb get_opt].
    repeat split; try apply or_else_defined; reflexivity.
Qed.

Lemma rows_total (data : value) :
  array_of entry_ok (get_opt data "entry") = true ->
  exists v rows,
    map_opt (get_opt data "entry") patient_row = Ok v /\
    coalesce v (VArr []) = VArr rows /\
    Forall2 row_of (items (get_opt data "entry")) rows.
Proof.
  destruct (get_opt data "entry") as [| | | | | | | l |] eqn:E; simpl; try discriminate.
  - intros _. exists VUndefined, []. repeat split; constructor.
  - intros _. exists VUndefined, []. repeat split; constructor.
  - intros H. rewrite forallb_forall in H.
    destruct (mapM_Forall2 patient_row row_of l) as (rows & Hm & HF).
    { apply Forall_forall. intros e He. apply patient_row_spec, H, He. }
    exists (VArr rows), rows. rewrite Hm. repeat split; assumption.
Qed.

Lemma find_arr_relation (rel : string) (l : list value) :
  forallb (fun x => negb (nullish x)) l = true ->
  exists x, find_arr (relation_is rel) l = Ok x /\
            (truthy x = true <-> exists y, In y l /\ get_opt y "relation" = VStr rel).
Proof.
  induction l as [| a l IH]; simpl.
  - intros _. exists VUndefined. split; [reflexivity |].
    split; [discriminate | intros (y & [] & _)].
  - intros H. apply andb_true_iff in H as [Ha Hl]. apply negb_true_iff in Ha.
    unfold relation_is at 1, get. rewrite Ha. cbn [bind].
    destruct (eq_str (get_opt a "relation") rel) eqn:E.
    + exists a. split; [reflexivity |]. apply eq_str_true in E.
      split.
      * intros _. exists a. split; [left; reflexivity | exact E].
      * intros _. destruct a; simpl in E; try discriminate. reflexivity.
    + destruct (IH Hl) as (x & Hx & Hiff). exists x. split; [exact Hx |].
      rewrite Hiff. split.
      * intros (y & Hy & Hr). exists y. split; [right; exact Hy | exact Hr].
      * intros (y & [-> | Hy] & Hr).
        -- apply eq_str_true in Hr. congruence.
        -- exists y. split; assumption.
Qed.

Lemma find_link_total (o : obj) (rel : string) :
  array_of (fun l => negb (nullish l)) (lookup "link" o) = true ->
  exists x, find_link (VObj o) rel = Ok x /\
            (truthy x = true <-> has_link rel (VObj o)).
Proof.
  unfold find_link, has_link. cbn [get_opt].
  destruct (lookup "link" o) as [| | | | | | | l |]; simpl; try discriminate.
  - intros _. exists VUndefined. split; [reflexivity |].
    split; [discriminate | intros (y & [] & _)].
  - intros _. exists VUndefined. split; [reflexivity |].
    split; [discriminate | intros (y & [] & _)].
  - apply find_arr_relation.
Qed.

(** The page the route builds from a well-shaped bundle. *)
Lemma transformedData_total (page : string) (data : value) :
  bundle_ok data = true ->
  exists out rows hasNext hasPrev,
    transformedData page data = Ok out /\
    get_opt out "patients" = VArr rows /\
    Forall2 row_of (items (get_opt data "entry")) rows /\
    get_opt out "pagination"
      = VObj [ ("currentPage", parseInt page);
               ("hasNext", VBool hasNext); ("hasPrev", VBool hasPrev) ] /\
    (hasNext = true <-> has_link "next" data) /\
    (hasPrev = true <-> has_link "prev" data).
Proof.
  unfold bundle_ok. intros H.
  apply andb_true_iff in H as [H Hlink]. apply andb_true_iff in H as [Hd Hentry].
  destruct data as [| | | | | | | | o]; try discriminate Hd. clear Hd.
  destruct (rows_total (VObj o) Hentry) as (v & rows & Hv & Hrows & HF).
  destruct (find_link_total o "self" Hlink) as (sf & Hsf & _).
  destruct (find_link_total o "next" Hlink) as (nx & Hnx & Hnext).
  destruct (find_link_total o "prev" Hlink) as (pv & Hpv & Hprev).
  unfold transformedData, get. cbn [nullish bind].
  rewrite Hv. cbn [bind]. rewrite Hsf. cbn [bind].
  rewrite Hnx. cbn [bind]. rewrite Hpv. cbn [bind].
  eexists. exists rows, (truthy nx), (truthy pv).
  split; [reflexivity |].
  cbn [get_opt lookup String.eqb Ascii.eqb Bool.eqb].
  repeat split; try assumption; try apply Hnext; try apply Hprev.
Qed.

(** The same facts for any bundle from which the route does build a page. *)
Lemma find_arr_found (rel : string) (l : list value) (x : value) :
  find_arr (relation_is rel) l = Ok x ->
  (truthy x = true <-> exists y, In y l /\ get_opt y "relation" = VStr rel).
Proof.
  induction l as [| a l IH]; simpl.
  - intros [= <-]. split; [discriminate | intros (y & [] & _)].
  - unfold relation_is at 1, get. destruct (nullish a) eqn:Ha; cbn [bind]; [discriminate |].
    destruct (eq_str (get_opt a "relation") rel) eqn:E.
    + intros [= <-]. apply eq_str_true in E. split.
      * intros _. exists a. split; [left; reflexivity | exact E].
      * intros _. destruct a; simpl in E; try discriminate. reflexivity.
    + intros H. rewrite (IH H). split.
      * intros (y & Hy & Hr). exists y. split; [right; exact Hy | exact Hr].
      * intros (y & [-> | Hy] & Hr).
        -- apply eq_str_true in Hr. congruence.
        -- exists y. split; assumption.
Qed.

Lemma find_link_found (data : value) (rel : string) (x : value) :
  find_link data rel = Ok x -> (truthy x = true <-> has_link rel data).
Proof.
  unfold find_link, has_link.
  destruct data as [| | | | | | | | o]; try discriminate;
    try (intros [= <-]; split; [discriminate | intros (y & [] & _)]).
  cbn [get_opt].
  destruct (lookup "link" o) as [| | | | | | | l |]; simpl; try discriminate.
  - intros [= <-]. split; [discriminate | intros (y & [] & _)].
  - intros [= <-]. split; [discriminate | intros (y & [] & _)].
  - apply find_arr_found.
Qed.

Lemma patient_row_built (e row : value) : patient_row e = Ok row -> row_of e row.
Proof.
  intros H. destruct (patient_row_spec e) as (row' & H' & R).
  - unfold patient_row, get in H. unfold entry_ok.
    destruct (nullish e); cbn [bind] in H; [discriminate |].
    destruct (nullish (get_opt e "resource")); cbn [bind] in H; [discriminate |].
    reflexivity.
  - rewrite H in H'. injection H' as <-. exact R.
Qed.

Lemma mapM_built {A B : Type} (f : A -> res B) (P : A -> B -> Prop) (l : list A) :
  (forall a b, f a = Ok b -> P a b) ->
  forall bs, mapM f l = Ok bs -> Forall2 P l bs.
Proof.
  intros HP. induction l as [| a l IH]; simpl; intros bs H.
  - injection H as <-. constructor.
  - destruct (f a) as [b |] eqn:Hb; cbn [bind] in H; [| discriminate].
    destruct (mapM f l) as [bs' |]; cbn [bind] in H; [| discriminate].
    injection H as <-. constructor; [apply HP, Hb | apply IH; reflexivity].
Qed.

Lemma rows_built (data v : value) :
  map_opt (get_opt data "entry") patient_row = Ok v ->
  exists rows, coalesce v (VArr []) = VArr rows /\
               Forall2 row_of (items (get_opt data "entry")) rows.
Proof.
  destruct (get_opt data "entry") as [| | | | | | | l |]; simpl; try discriminate.
  - intros [= <-]. exists []. split; [reflexivity | constructor].
  - intros [= <-]. exists []. split; [reflexivity | constructor].
  - destruct (mapM patient_row l) as [rows |] eqn:Hm; cbn [bind]; [| discriminate].
    intros [= <-]. exists rows. split; [reflexivity |].
    apply (mapM_built patient_row row_of l patient_row_built rows Hm).
Qed.

Lemma transformedData_built (page : string) (data out : value) :
  transformedData page data = Ok out ->
  exists rows hasNext hasPrev,
    get_opt out "patients" = VArr rows /\
    Forall2 row_of (items (get_opt data "entry")) rows /\
    get_opt out "pagination"
      = VObj [ ("currentPage", parseInt page);
               ("hasNext", VBool hasNext); ("hasPrev", VBool hasPrev) ] /\
    (hasNext = true <-> has_link "next" data) /\
    (hasPrev = true <-> has_link "prev" data).
Proof.
  unfold transformedData. intros H.
  destruct (get data "total") as [total |]; cbn [bind] in H; [| discriminate].
  destruct (map_opt (get_opt data "entry") patient_row) as [v |] eqn:Hv;
    cbn [bind] in H; [| discriminate].
  destruct (find_link data "self") as [sf |]; cbn [bind] in H; [| discriminate].
  destruct (find_link data "next") as [nx |] eqn:Hnx; cbn [bind] in H; [| discriminate].
  destruct (find_link data "prev") as [pv |] eqn:Hpv; cbn [bind] in H; [| discriminate].
  injection H as <-.
  destruct (rows_built data v Hv) as (rows & Hrows & HF).
  exists rows, (truthy nx), (truthy pv).
  cbn [get_opt lookup String.eqb Ascii.eqb Bool.eqb].
  repeat split; try assumption;
    try apply (find_link_found data "next" nx Hnx);
    try apply (find_link_found data "prev" pv Hpv).
Qed.

Lemma bool_eq_iff (a b : bool) : (a = true <-> b = true) -> a = b.
Proof. destruct a, b; intros [H1 H2]; auto; symmetry; auto. Qed.

End ListPage.

(** The list route hands the page it builds to the browser as it is. *)
Lemma list_route_answers_with_page
    (env : Env) (message : exn -> string) (remote : request -> res reply)
    (page_param count_param : option string) (token : string) (r : reply)
    (data out : value) :
  token <> "" ->
  remote (PatientsRoute.list_request env (PatientsRoute.param_or page_param "1")
            (PatientsRoute.param_or count_param "20") token) = Ok r ->
  r_ok r = true ->
  r_json r = Ok data ->
  PatientsRoute.transformedData (PatientsRoute.param_or page_param "1") data = Ok out ->
  PatientsRoute.GET env message remote page_param count_param (Some token)
  = (respond 200 out,
     [PatientsRoute.list_request env (PatientsRoute.param_or page_param "1")
        (PatientsRoute.param_or count_param "20") token]).
Proof.
  intros Htok Hremote Hok Hjson Hout. apply String.eqb_neq in Htok.
  unfold PatientsRoute.GET, usable_token. rewrite Htok, Hremote, Hok, Hjson.
  cbn [negb bind]. rewrite Hout. reflexivity.
Qed.



(** The row of an entry that has a resource but no [fullUrl]. *)
Example row_without_fullUrl :
  PatientsRoute.patient_row (VObj [ ("resource", VObj [ ("id", VStr "253267") ]) ])
  = Ok (VObj [ ("id", VStr "253267");
               ("fullUrl", VUndefined);
               ("identifier", VStr "N/A");
               ("name", VObj [ ("family", VStr "Unknown");
                               ("given", VArr [VStr "Unknown"]);
                               ("full", VStr "Unknown Unknown") ]);
               ("gender", VStr "unknown");
               ("birthDate", VStr "Unknown");
               ("active", VBool false);
               ("maritalStatus", VStr "Unknown");
               ("lastUpdated", VStr "Unknown") ]).
Proof. reflexivity. Qed.



(** The case the specification singles out: only a "next" link. *)
Example only_next_link :
  exists out,
    PatientsRoute.transformedData "1" bundle_only_next = Ok out /\
    get_opt out "pagination"
      = VObj [ ("currentPage", VNum 1); ("hasNext", VBool true); ("hasPrev", VBool false) ].
Proof. eexists. split; reflexivity. Qed.


(** ** Auth Gateway: login *)

Section Login.
Import LoginRoute.

Lemma check_field_blank (field msg : string) (v : option entry) :
  blank v -> exists i, check_field field msg v = inr i.
Proof. intros [-> | ->]; simpl; eauto. Qed.

End Login.

(** C6.  Login input validation.  For every login form in which the
    username or the password is empty or missing, the route answers 400
    with the error "Invalid input data" and a non-empty list of validation
    details, and makes no outbound call. *)
Theorem login_rejects_blank_fields
    (env : Env) (message : exn -> string)
    (remote : request -> LoginRoute.axios_result) (fd : LoginRoute.form) :
  blank (LoginRoute.form_get "username" fd) \/ blank (LoginRoute.form_get "password" fd) ->
  exists details,
    LoginRoute.POST env message remote (Ok fd)
      = (respond 400 (VObj [ ("error", VStr "Invalid input data");
                             ("details", VArr details) ]), []) /\
    details <> [].
Proof.
  intros H. unfold LoginRoute.POST, LoginRoute.loginSchema.
  destruct H as [H | H].
  - destruct (check_field_blank "username" "Username is required" _ H) as (i & ->).
    destruct (LoginRoute.check_field "password" _ _);
      eexists; (split; [reflexivity | discriminate]).
  - destruct (check_field_blank "password" "Password is required" _ H) as (i & ->).
    destruct (LoginRoute.check_field "username" _ _);
      eexists; (split; [reflexivity | discriminate]).
Qed.

Lemma login_rejects_blank_fields_witness :
  exists details,
    LoginRoute.POST env_production plain_message remote_grants (Ok form_no_password)
      = (respond 400 (VObj [ ("error", VStr "Invalid input data");
                             ("details", VArr details) ]), []) /\
    details <> [].
Proof.
  apply (login_rejects_blank_fields env_production plain_message remote_grants
           form_no_password).
  right. right. reflexivity.
Defined.

(** C8, as the code has it.  For every successful login (both fields
    present and non-empty, the grant endpoint answering 2xx with a body)
    the route makes the one grant call, answers 200 with the body it
    received, and sets exactly two cookies, [access_token] and
    [refresh_token], carrying the two tokens of that body; both are
    HTTP-only and same-site strict, and each is secure exactly when
    [NODE_ENV] is "production"; the access token's max-age (3600) is the
    shorter one (604800 for the refresh token). *)
Theorem login_cookie_policy
    (env : Env) (message : exn -> string)
    (remote : request -> LoginRoute.axios_result)
    (fd : LoginRoute.form) (u p : string) (data : value) :
  LoginRoute.form_get "username" fd = Some (LoginRoute.Text u) -> u <> "" ->
  LoginRoute.form_get "password" fd = Some (LoginRoute.Text p) -> p <> "" ->
  remote (LoginRoute.grant_request env u p) = LoginRoute.Fulfilled data ->
  nullish data = false ->
  exists a r,
    LoginRoute.POST env message remote (Ok fd)
      = ({| status := 200; json := data; cookies := [a; r] |},
         [LoginRoute.grant_request env u p]) /\
    c_name a = "access_token" /\ c_value a = get_opt data "access_token" /\
    c_name r = "refresh_token" /\ c_value r = get_opt data "refresh_token" /\
    httpOnly a = true /\ httpOnly r = true /\
    sameSite a = Strict /\ sameSite r = Strict /\
    (secure a = true <-> NODE_ENV env = Some "production") /\
    (secure r = true <-> NODE_ENV env = Some "production") /\
    maxAge a = 3600%Z /\ maxAge r = 604800%Z /\ (maxAge a < maxAge r)%Z.
Proof.
  intros Hu Hu' Hp Hp' Hremote Hdata.
  apply String.eqb_neq in Hu', Hp'.
  unfold LoginRoute.POST, LoginRoute.loginSchema, LoginRoute.check_field.
  rewrite Hu, Hp, Hu', Hp', Hremote. unfold get. rewrite Hdata. cbn [bind].
  assert (Hsec : LoginRoute.production env = true <-> NODE_ENV env = Some "production").
  { unfold LoginRoute.production. destruct (NODE_ENV env) as [e |].
    - rewrite String.eqb_eq. split; congruence.
    - split; discriminate. }
  do 2 eexists. split; [reflexivity |].
  cbn. repeat split; try apply Hsec; reflexivity.
Qed.

Lemma login_cookie_policy_witness :
  exists a r,
    LoginRoute.POST env_production plain_message remote_grants (Ok form_alice)
      = ({| status := 200; json := token_pair; cookies := [a; r] |},
         [LoginRoute.grant_request env_production "alice" "secret"]) /\
    c_name a = "access_token" /\ c_value a = get_opt token_pair "access_token" /\
    c_name r = "refresh_token" /\ c_value r = get_opt token_pair "refresh_token" /\
    httpOnly a = true /\ httpOnly r = true /\
    sameSite a = Strict /\ sameSite r = Strict /\
    (secure a = true <-> NODE_ENV env_production = Some "production") /\
    (secure r = true <-> NODE_ENV env_production = Some "production") /\
    maxAge a = 3600%Z /\ maxAge r = 604800%Z /\ (maxAge a < maxAge r)%Z.
Proof.
  apply (login_cookie_policy env_production plain_message remote_grants form_alice
           "alice" "secret" token_pair);
    first [ reflexivity | discriminate ].
Defined.

(** C8 as stated fails outside production: a successful login on a
    development server sets both cookies without the secure flag. *)
Lemma login_cookies_not_secure_in_development :
  map (fun c => (c_name c, secure c))
      (cookies (fst (LoginRoute.POST env_development plain_message remote_grants
                       (Ok form_alice))))
  = [ ("access_token", false); ("refresh_token", false) ].
Proof. reflexivity. Qed.

(** ** Resource Gateway: update *)

(** Whatever the request, a body whose id is not the path id never
    reaches the remote API. *)
Lemma put_mismatch_makes_no_call
    (env : Env) (message : exn -> string) (remote : request -> res reply)
    (id : string) (cookie : option string) (parsed : res value) :
  (forall doc, parsed = Ok doc -> eq_str (get_opt doc "id") id = false) ->
  snd (PatientRoute.PUT env message remote id cookie parsed) = [].
Proof.
  intros H. unfold PatientRoute.PUT.
  destruct (id =? ""); [reflexivity |].
  destruct (usable_token cookie); [| reflexivity].
  destruct parsed as [doc | e]; cbn [bind]; [| reflexivity].
  specialize (H doc eq_refl).
  unfold get. destruct (nullish doc); cbn [bind]; [reflexivity |].
  rewrite H. cbn [negb].
  destruct (negb (truthy (get_opt doc "resourceType")) || negb (truthy (get_opt doc "id")));
    reflexivity.
Qed.

(** C7, as the code has it.  For every PUT request with a path id, an
    [access_token] cookie and a JSON body that has a resourceType and an
    id: when the body's id differs from the path id the route answers 400
    with the id-mismatch error and calls nothing; when the two ids are
    equal it makes exactly one call, a PUT of that body to the remote
    path of that id. *)
Theorem put_checks_id_before_forwarding
    (env : Env) (message : exn -> string) (remote : request -> res reply)
    (id token : string) (doc : value) :
  id <> "" -> token <> "" ->
  truthy (get_opt doc "resourceType") = true ->
  truthy (get_opt doc "id") = true ->
  (get_opt doc "id" <> VStr id ->
     PatientRoute.PUT env message remote id (Some token) (Ok doc)
     = (respond 400 (error_body "Patient ID in URL does not match ID in request body"), []))
  /\
  (get_opt doc "id" = VStr id ->
     snd (PatientRoute.PUT env message remote id (Some token) (Ok doc))
       = [PatientRoute.put_request env id token doc] /\
     method (PatientRoute.put_request env id token doc) = "PUT" /\
     url (PatientRoute.put_request env id token doc) = patient_url env ++ "/" ++ id /\
     body (PatientRoute.put_request env id token doc) = JsonBody doc).
Proof.
  intros Hid Htok Hrt Hbid.
  apply String.eqb_neq in Hid, Htok.
  assert (Hdoc : nullish doc = false) by (destruct doc; simpl in *; congruence).
  unfold PatientRoute.PUT, usable_token. rewrite Hid, Htok. cbn [bind].
  unfold get. rewrite Hdoc. cbn [bind].
  rewrite Hrt, Hbid. cbn [negb orb].
  split.
  - intros Hne. destruct (eq_str (get_opt doc "id") id) eqn:E; [| reflexivity].
    apply eq_str_true in E. contradiction.
  - intros E. apply eq_str_true in E. rewrite E. cbn [negb].
    split; [| repeat split].
    destruct (remote _) as [r | e]; [| reflexivity].
    destruct (negb (r_ok r)).
    + destruct (r_status r =? 401)%Z, (r_status r =? 404)%Z, (r_status r =? 400)%Z;
        reflexivity.
    + destruct (let* updatedPatient := r_json r in _); reflexivity.
Qed.

Lemma put_checks_id_before_forwarding_witness :
  (get_opt body_43 "id" <> VStr "42" ->
     PatientRoute.PUT env_production plain_message remote_empty_200 "42" (Some "tok")
       (Ok body_43)
     = (respond 400 (error_body "Patient ID in URL does not match ID in request body"), []))
  /\
  (get_opt body_43 "id" = VStr "42" ->
     snd (PatientRoute.PUT env_production plain_message remote_empty_200 "42" (Some "tok")
            (Ok body_43))
       = [PatientRoute.put_request env_production "42" "tok" body_43] /\
     method (PatientRoute.put_request env_production "42" "tok" body_43) = "PUT" /\
     url (PatientRoute.put_request env_production "42" "tok" body_43)
       = patient_url env_production ++ "/" ++ "42" /\
     body (PatientRoute.put_request env_production "42" "tok" body_43) = JsonBody body_43).
Proof.
  apply (put_checks_id_before_forwarding env_production plain_message remote_empty_200
           "42" "tok" body_43);
    first [ discriminate | reflexivity ].
Defined.

(** The two scenarios of the specification, run on the route. *)
Example put_42_with_body_43 :
  PatientRoute.PUT env_production plain_message remote_empty_200 "42" (Some "tok")
    (Ok body_43)
  = (respond 400 (error_body "Patient ID in URL does not match ID in request body"), []).
Proof. reflexivity. Qed.

Example put_42_with_body_42 :
  snd (PatientRoute.PUT env_production plain_message remote_empty_200 "42" (Some "tok")
         (Ok body_42))
  = [PatientRoute.put_request env_production "42" "tok" body_42].
Proof. reflexivity. Qed.

(** C7 as stated fails without the cookie: the same mismatching body is
    answered 401, not 400, because the token is checked first; and a
    mismatching body without a resourceType gets the other 400. *)
Lemma put_mismatch_without_cookie_is_401 :
  get_opt body_43 "id" <> VStr "42" /\
  PatientRoute.PUT env_production plain_message remote_empty_200 "42" None (Ok body_43)
  = (respond 401 (error_body "Unauthorized - No access token found"), []) /\
  PatientRoute.PUT env_production plain_message remote_empty_200 "42" (Some "tok")
    (Ok (VObj [ ("id", VStr "43") ]))
  = (respond 400 (error_body "Invalid patient data - resourceType and id are required"), []).
Proof. repeat split. discriminate. Qed.

(** ** Session Client: the refresh protocol *)

Section RefreshProtocol.
Import AxiosInstance.

(** *** The flag and the refresh call *)

Lemma run_app (s : state) (es1 es2 : list event) :
  run s (es1 ++ es2) = run (run s es1) es2.
Proof. unfold run. apply fold_left_app. Qed.

Lemma run_jobs_keeps_refresh (jobs : list job) (s : state) :
  isRefreshing (run_jobs jobs s) = isRefreshing s /\
  refreshing (run_jobs jobs s) = refreshing s.
Proof.
  revert s. induction jobs as [| j jobs IH]; intros s; [split; reflexivity |].
  unfold run_jobs in *. simpl. destruct (IH (run_job s j)) as [-> ->].
  destruct j; split; reflexivity.
Qed.

Lemma processQueue_keeps_refresh (error : option failure) (token : value) (s : state) :
  refreshing (fst (processQueue error token s)) = refreshing s.
Proof.
  unfold processQueue. destruct (queue_jobs error token (failedQueue s)) as [jobs lost].
  simpl. generalize s. induction lost as [| id lost IH]; intros s0; [reflexivity |].
  simpl. rewrite IH. reflexivity.
Qed.

Lemma step_keeps_flag (s : state) (e : event) :
  flag_guards_refresh s -> flag_guards_refresh (step s e).
Proof.
  unfold flag_guards_refresh. intros I. destruct e as [id | id st | data]; simpl.
  - exact I.
  - destruct (take id (in_flight s)) as [[c rest] |]; [| exact I].
    destruct (is_2xx st); [exact I |].
    unfold response_error. cbn [isRefreshing refreshing set_in_flight].
    destruct (is_401 st && negb (_retry c)); [| exact I].
    destruct (isRefreshing s) eqn:F; cbn; [rewrite F; exact I |].
    destruct (read_refreshToken _ =? ""); cbn.
    + unfold redirect_to_login. destruct (window _); cbn; exact I.
    + rewrite I. reflexivity.
  - destruct (refreshing s) as [| [c rt] rest] eqn:R; [rewrite R; exact I |].
    assert (rest = []) as ->.
    { destruct (isRefreshing s); [| discriminate].
      destruct rest; [reflexivity | discriminate]. }
    unfold refresh_settled.
    destruct (match data with Some d => _ | None => _ end) as [[access newRefresh] | e].
    + destruct (processQueue None access _) as [s1 jobs] eqn:P.
      destruct (run_jobs_keeps_refresh jobs
                  (set_isRefreshing false (apiClient
                     (with_authorization (bearer (to_str access)) c) s1))) as [-> ->].
      cbn. pose proof (processQueue_keeps_refresh None access
        (if window (set_refreshing [] s)
         then set_jar {| access_token := write_cookie access;
                         refresh_token := write_cookie newRefresh |} (set_refreshing [] s)
         else set_refreshing [] s)) as K.
      rewrite P in K. cbn in K. rewrite K. destruct (window s); reflexivity.
    + destruct (processQueue (Some RefreshFailed) VNull _) as [s1 jobs] eqn:P.
      cbn [isRefreshing refreshing settle].
      destruct (run_jobs_keeps_refresh jobs
                  (set_isRefreshing false
                     (if window s1
                      then set_location "/login"
                             (set_jar {| access_token := None; refresh_token := None |} s1)
                      else s1))) as [-> ->].
      cbn. pose proof (processQueue_keeps_refresh (Some RefreshFailed) VNull
                         (set_refreshing [] s)) as K.
      rewrite P in K. cbn in K. destruct (window s1); cbn; exact K.
Qed.

Lemma run_keeps_flag (es : list event) (s : state) :
  flag_guards_refresh s -> flag_guards_refresh (run s es).
Proof.
  revert s. induction es as [| e es IH]; intros s I; [exact I |].
  apply IH, step_keeps_flag, I.
Qed.

(** At most one refresh call is in flight, whatever the events. *)
Lemma single_flight (w : bool) (j : Jar) (es : list event) :
  length (refreshing (run (init w j) es)) <= 1.
Proof.
  pose proof (run_keeps_flag es (init w j) eq_refl) as I.
  unfold flag_guards_refresh in I.
  destruct (isRefreshing _); rewrite I; simpl; lia.
Qed.

(** *** The calls go out *)

Lemma request_interceptor_keeps (s : state) (c : config) :
  cid (request_interceptor s c) = cid c /\ _retry (request_interceptor s c) = _retry c.
Proof.
  unfold request_interceptor. destruct (window s); [| split; reflexivity].
  destruct (read_cookie _); split; reflexivity.
Qed.

Lemma calls_phase (ids : list nat) (s : state) :
  control (run s (map Call ids)) = control s /\
  in_flight (run s (map Call ids))
    = (in_flight s ++ map (fun id => request_interceptor s (new_config id)) ids)%list /\
  wire (run s (map Call ids))
    = (wire s ++ map (fun id => Request id
                        (option_map field_value
                           (Authorization (request_interceptor s (new_config id)))))
                     ids)%list.
Proof.
  revert s. induction ids as [| id ids IH]; intros s; simpl.
  - rewrite !app_nil_r. repeat split.
  - destruct (IH (apiClient (new_config id) s)) as (C & F & W).
    fold (new_config id). change (fold_left step (map Call ids) ?x) with (run x (map Call ids)).
    rewrite C, F, W. split; [reflexivity |].
    cbn [apiClient in_flight wire emit set_in_flight].
    rewrite <- !app_assoc. simpl.
    split; [reflexivity |].
    rewrite (proj1 (request_interceptor_keeps s (new_config id))). reflexivity.
Qed.

Lemma refresh_calls_app (w1 w2 : list sent) :
  refresh_calls (w1 ++ w2)%list = refresh_calls w1 + refresh_calls w2.
Proof. unfold refresh_calls. rewrite filter_app, length_app. reflexivity. Qed.

Lemma refresh_calls_requests {A : Type} (f : A -> nat) (h : A -> option string)
    (l : list A) :
  refresh_calls (map (fun a => Request (f a) (h a)) l) = 0.
Proof. induction l as [| a l IH]; [reflexivity | exact IH]. Qed.

(** *** Taking a call out of the list of calls in flight *)

Lemma take_spec (id : nat) (l : list config) :
  In id (map cid l) ->
  exists c rest, take id l = Some (c, rest) /\ cid c = id /\ Permutation l (c :: rest).
Proof.
  induction l as [| a l IH]; simpl; [contradiction |].
  intros H. destruct (Nat.eqb (cid a) id) eqn:E.
  - apply Nat.eqb_eq in E. exists a, l. repeat split; [exact E | apply Permutation_refl].
  - destruct H as [H | H]; [apply Nat.eqb_neq in E; contradiction |].
    destruct (IH H) as (c & rest & -> & Hc & P).
    exists c, (a :: rest). repeat split; [exact Hc |].
    apply perm_trans with (a :: c :: rest); [apply perm_skip, P | apply perm_swap].
Qed.

(** *** The first 401 starts the refresh, the others wait *)

Lemma trigger_step (s : state) (id : nat) (c : config) (rest : list config) :
  take id (in_flight s) = Some (c, rest) ->
  _retry c = false ->
  isRefreshing s = false ->
  (read_refreshToken s =? "") = false ->
  step s (Reply id (Some 401%Z))
  = emit (Refresh (read_refreshToken s))
      (set_refreshing (refreshing s ++ [(with_retry c, read_refreshToken s)])
         (set_isRefreshing true (set_in_flight rest s))).
Proof.
  intros T R F Hrt. unfold step. rewrite T. cbn [is_2xx Z.leb Z.ltb Z.compare andb
    Pos.compare Pos.compare_cont].
  unfold response_error. cbn [is_401 Z.eqb Pos.eqb andb isRefreshing set_in_flight].
  rewrite R, F. cbn [negb].
  change (read_refreshToken (set_isRefreshing true (set_in_flight rest s)))
    with (read_refreshToken s).
  rewrite Hrt. reflexivity.
Qed.

Lemma enqueue_step (s : state) (id : nat) (c : config) (rest : list config) :
  take id (in_flight s) = Some (c, rest) ->
  _retry c = false ->
  isRefreshing s = true ->
  step s (Reply id (Some 401%Z))
  = set_failedQueue (failedQueue s ++ [c]) (set_in_flight rest s).
Proof.
  intros T R F. unfold step. rewrite T. cbn [is_2xx Z.leb Z.ltb Z.compare andb
    Pos.compare Pos.compare_cont].
  unfold response_error. cbn [is_401 Z.eqb Pos.eqb andb isRefreshing set_in_flight].
  rewrite R, F. reflexivity.
Qed.

Lemma queue_phase (l : list nat) (s : state) :
  isRefreshing s = true ->
  NoDup (map cid (in_flight s)) ->
  Forall (fun c => _retry c = false) (in_flight s) ->
  NoDup l ->
  incl l (map cid (in_flight s)) ->
  session (run s (unauthorized l)) = session s /\
  exists qs,
    failedQueue (run s (unauthorized l)) = (failedQueue s ++ qs)%list /\
    map cid qs = l /\
    Permutation (in_flight s) (qs ++ in_flight (run s (unauthorized l)))%list.
Proof.
  revert s. induction l as [| id l IH]; intros s F ND R NDl Hin.
  - split; [reflexivity |]. exists []. simpl. rewrite app_nil_r.
    repeat split. apply Permutation_refl.
  - change (run s (unauthorized (id :: l)))
      with (run (step s (Reply id (Some 401%Z))) (unauthorized l)).
    destruct (take_spec id (in_flight s)) as (c & rest & T & Hc & P).
    { apply Hin. left. reflexivity. }
    assert (Rc : _retry c = false /\ Forall (fun c => _retry c = false) rest).
    { apply (Permutation_Forall P) in R. inversion R; subst. split; assumption. }
    assert (NDr : NoDup (cid c :: map cid rest)).
    { apply (Permutation_NoDup (l := map cid (in_flight s))); [| exact ND].
      apply (Permutation_map cid) in P. exact P. }
    rewrite (enqueue_step s id c rest T (proj1 Rc) F).
    destruct (IH (set_failedQueue (failedQueue s ++ [c]) (set_in_flight rest s)))
      as (S & qs & Q & M & P').
    + exact F.
    + inversion NDr; assumption.
    + exact (proj2 Rc).
    + inversion NDl; assumption.
    + intros x Hx. cbn [in_flight set_failedQueue set_in_flight].
      assert (Hx' : In x (cid c :: map cid rest)).
      { apply (Permutation_in (l := map cid (in_flight s))).
        - apply (Permutation_map cid) in P. exact P.
        - apply Hin. right. exact Hx. }
      destruct Hx' as [E | Hx']; [| exact Hx'].
      inversion NDl; subst. contradiction.
    + split; [rewrite S; reflexivity |].
      exists (c :: qs). cbn [failedQueue set_failedQueue set_in_flight in_flight] in *.
      rewrite Q, <- app_assoc. repeat split.
      * simpl. rewrite M, Hc. reflexivity.
      * apply perm_trans with (c :: rest); [exact P |]. simpl. apply perm_skip, P'.
Qed.

(** *** The refresh succeeds: every waiting call is sent again *)

Lemma queue_jobs_resume (tok : value) (q : list config) :
  truthy tok = true ->
  queue_jobs None tok q = (map (fun c => Resume c tok) q, []).
Proof.
  intros T. induction q as [| c q IH]; simpl; [reflexivity |].
  rewrite IH, T. reflexivity.
Qed.

Lemma apiClient_with_cookie (s : state) (c : config) (a : string) :
  window s = true ->
  read_cookie (access_token (jar s)) = Some a ->
  apiClient c s
  = emit (Request (cid c) (Some (field_value (bearer a))))
      (set_in_flight (in_flight s ++ [with_authorization (bearer a) c]) s).
Proof.
  intros W A. unfold apiClient, request_interceptor. rewrite W, A. reflexivity.
Qed.

Lemma resume_phase (tok : value) (a : string) (qs : list config) (s : state) :
  window s = true ->
  read_cookie (access_token (jar s)) = Some a ->
  control (run_jobs (map (fun c => Resume c tok) qs) s) = control s /\
  in_flight (run_jobs (map (fun c => Resume c tok) qs) s)
    = (in_flight s ++ map (with_authorization (bearer a)) qs)%list /\
  wire (run_jobs (map (fun c => Resume c tok) qs) s)
    = (wire s ++ map (fun c => Request (cid c) (Some (field_value (bearer a)))) qs)%list.
Proof.
  revert s. induction qs as [| c qs IH]; intros s W A.
  - simpl. rewrite !app_nil_r. repeat split.
  - change (run_jobs (map (fun c => Resume c tok) (c :: qs)) s)
      with (run_jobs (map (fun c => Resume c tok) qs)
              (apiClient (with_authorization (bearer (to_str tok)) c) s)).
    rewrite (apiClient_with_cookie s _ a W A).
    destruct (IH (emit (Request (cid (with_authorization (bearer (to_str tok)) c))
                          (Some (field_value (bearer a))))
                    (set_in_flight
                       (in_flight s
                        ++ [with_authorization (bearer a)
                              (with_authorization (bearer (to_str tok)) c)]) s)))
      as (C & F & V); [exact W | exact A |].
    rewrite C, F, V. cbn [in_flight wire emit set_in_flight].
    rewrite <- !app_assoc. repeat split.
Qed.

Lemma refresh_success (s : state) (c : config) (rt : string) (o : obj) :
  refreshing s = [(c, rt)] ->
  window s = true ->
  truthy (lookup "access_token" o) = true ->
  step s (RefreshReply (Some (VObj o)))
  = run_jobs (map (fun q => Resume q (lookup "access_token" o)) (failedQueue s))
      (set_isRefreshing false
         (apiClient (with_authorization (bearer (to_str (lookup "access_token" o))) c)
            (set_failedQueue []
               (set_jar {| access_token := write_cookie (lookup "access_token" o);
                           refresh_token := write_cookie (lookup "refresh_token" o) |}
                  (set_refreshing [] s))))).
Proof.
  intros R W T. unfold step. rewrite R. unfold refresh_settled.
  cbn [get nullish get_opt bind window set_refreshing]. rewrite W.
  unfold processQueue. cbn [failedQueue set_jar set_refreshing].
  rewrite (queue_jobs_resume _ _ T). reflexivity.
Qed.

Lemma before_without (c : ascii) (s : string) :
  has_char c s = false -> before c s = s.
Proof.
  induction s as [| a s IH]; simpl; [reflexivity |].
  intros H. apply orb_false_iff in H as [-> H]. rewrite (IH H). reflexivity.
Qed.

End RefreshProtocol.

(** *** The scenario on a client that has done nothing yet *)

Section FreshClient.
Import AxiosInstance.

Variable j : Jar.                 (* the cookies when the calls are made *)
Variable rt : string.             (* the refresh token a script reads from them *)
Variables ids order : list nat.   (* the calls, and the order their 401s arrive in *)

Let s0 : state := calls_made j ids.
Let s1 : state := all_unauthorized j ids order.

Hypothesis ids_distinct : NoDup ids.
Hypothesis arrival : Permutation order ids.
Hypothesis refresh_cookie : read_cookie (refresh_token j) = Some rt.
Hypothesis refresh_cookie_set : rt <> "".

Lemma first_and_rest :
  forall first others, order = first :: others ->
  exists c,
    session s1
      = (true, j, None, true, [(with_retry c, rt)],
         (wire s0 ++ [Refresh rt])%list, [], []) /\
    cid c = first /\
    map cid (failedQueue s1) = others /\
    in_flight s1 = [].
Proof.
  intros first others Ho.
  destruct (calls_phase ids (init true j)) as (C & F & W).
  change (run (init true j) (map Call ids)) with s0 in C, F, W.
  unfold control in C. cbn in C.
  cbn [init in_flight wire app] in F, W.
  injection C as Cw Cj Cl Cr Cq Cf Cs Cp.
  assert (Hids : map cid (in_flight s0) = ids).
  { rewrite F, map_map. rewrite <- (map_id ids) at 2. apply map_ext.
    intros a. apply (request_interceptor_keeps (init true j) (new_config a)). }
  assert (Hfresh : Forall (fun c => _retry c = false) (in_flight s0)).
  { rewrite F. apply Forall_forall. intros c Hc. apply in_map_iff in Hc as (a & <- & _).
    apply (request_interceptor_keeps (init true j) (new_config a)). }
  assert (NDo : NoDup order).
  { apply (Permutation_NoDup (l := ids)); [apply Permutation_sym, arrival | exact ids_distinct]. }
  rewrite Ho in NDo.
  destruct (take_spec first (in_flight s0)) as (c & rest & T & Hc & P).
  { rewrite Hids. apply (Permutation_in (l := order)); [exact arrival |].
    rewrite Ho. left. reflexivity. }
  assert (Rc : _retry c = false /\ Forall (fun c => _retry c = false) rest).
  { apply (Permutation_Forall P) in Hfresh. apply Forall_cons_iff in Hfresh.
    exact Hfresh. }
  assert (Htok : read_refreshToken s0 = rt).
  { unfold read_refreshToken. rewrite Cw, Cj, refresh_cookie. reflexivity. }
  assert (Hne : (read_refreshToken s0 =? "") = false).
  { rewrite Htok. apply String.eqb_neq, refresh_cookie_set. }
  assert (Pids : Permutation (first :: others) (cid c :: map cid rest)).
  { rewrite <- Ho. apply perm_trans with ids; [exact arrival |].
    rewrite <- Hids. exact (Permutation_map cid P). }
  rewrite Hc in Pids. apply Permutation_cons_inv in Pids.
  unfold s1, all_unauthorized. fold s0. rewrite Ho.
  change (run s0 (unauthorized (first :: others)))
    with (run (step s0 (Reply first (Some 401%Z))) (unauthorized others)).
  rewrite (trigger_step s0 first c rest T (proj1 Rc) Cr Hne), Htok.
  set (sA := emit (Refresh rt)
               (set_refreshing (refreshing s0 ++ [(with_retry c, rt)])
                  (set_isRefreshing true (set_in_flight rest s0)))).
  destruct (queue_phase others sA) as (S & qs & Q & M & P').
  - reflexivity.
  - change (in_flight sA) with rest.
    apply (Permutation_NoDup Pids). apply NoDup_cons_iff in NDo. apply NDo.
  - exact (proj2 Rc).
  - apply NoDup_cons_iff in NDo. apply NDo.
  - change (in_flight sA) with rest.
    intros x Hx. apply (Permutation_in _ Pids), Hx.
  - exists c.
    change (session sA)
      with (window s0, jar s0, location s0, true,
            (refreshing s0 ++ [(with_retry c, rt)])%list,
            (wire s0 ++ [Refresh rt])%list, settled s0, pending_forever s0) in S.
    change (failedQueue sA) with (failedQueue s0) in Q.
    change (in_flight sA) with rest in P'.
    rewrite Cw, Cj, Cl, Cf, Cs, Cp in S. rewrite Cq in Q.
    split; [exact S |]. split; [exact Hc |].
    split; [rewrite Q; exact M |].
    apply Permutation_length in P'. apply Permutation_length in Pids.
    rewrite length_app in P'. rewrite <- M in Pids. rewrite !length_map in Pids.
    destruct (in_flight (run sA (unauthorized others))); [reflexivity |].
    simpl in P'. lia.
Qed.

End FreshClient.

(** *** The scenario from any state in which no refresh is going on *)

Section SingleFlight.
Import AxiosInstance.

Lemma take_skip (id : nat) (old l : list config) :
  ~ In id (map cid old) ->
  take id (old ++ l)
  = match take id l with
    | Some (c, rest) => Some (c, (old ++ rest)%list)
    | None => None
    end.
Proof.
  induction old as [| a old IH]; intros H.
  - cbn [app]. destruct (take id l) as [[c rest] |]; reflexivity.
  - cbn [app take map In] in *.
    destruct (Nat.eqb (cid a) id) eqn:E.
    + apply Nat.eqb_eq in E. elim H. left. exact E.
    + rewrite IH by (intros Hin; apply H; right; exact Hin).
      destruct (take id l) as [[c rest] |]; reflexivity.
Qed.

(** While the refresh is in flight, the 401s of new calls are queued;
    the calls [old], made earlier and not answered, stay in flight. *)
Lemma queue_phase_from (old : list config) (l : list nat) (s : state) (cur : list config) :
  isRefreshing s = true ->
  in_flight s = (old ++ cur)%list ->
  (forall id, In id l -> ~ In id (map cid old)) ->
  NoDup (map cid cur) ->
  Forall (fun c => _retry c = false) cur ->
  NoDup l ->
  incl l (map cid cur) ->
  session (run s (unauthorized l)) = session s /\
  exists qs cur',
    failedQueue (run s (unauthorized l)) = (failedQueue s ++ qs)%list /\
    map cid qs = l /\
    in_flight (run s (unauthorized l)) = (old ++ cur')%list /\
    Permutation cur (qs ++ cur')%list.
Proof.
  revert s cur. induction l as [| id l IH]; intros s cur F E Hold ND R NDl Hin.
  - split; [reflexivity |]. exists [], cur. cbn [run unauthorized map fold_left].
    rewrite app_nil_r. repeat split; [exact E | apply Permutation_refl].
  - change (run s (unauthorized (id :: l)))
      with (run (step s (Reply id (Some 401%Z))) (unauthorized l)).
    destruct (take_spec id cur) as (c & rest & T & Hc & P).
    { apply Hin. left. reflexivity. }
    assert (T' : take id (in_flight s) = Some (c, (old ++ rest)%list)).
    { rewrite E, take_skip, T; [reflexivity |]. apply Hold. left. reflexivity. }
    assert (Rc : _retry c = false /\ Forall (fun c => _retry c = false) rest).
    { apply (Permutation_Forall P) in R. apply Forall_cons_iff in R. exact R. }
    assert (NDr : NoDup (cid c :: map cid rest)).
    { apply (Permutation_NoDup (l := map cid cur)); [| exact ND].
      apply (Permutation_map cid) in P. exact P. }
    rewrite (enqueue_step s id c (old ++ rest)%list T' (proj1 Rc) F).
    apply NoDup_cons_iff in NDr as [Nc NDr]. apply NoDup_cons_iff in NDl as [Nid NDl].
    destruct (IH (set_failedQueue (failedQueue s ++ [c])
                    (set_in_flight (old ++ rest)%list s)) rest)
      as (S & qs & cur' & Q & M & E' & P').
    + exact F.
    + reflexivity.
    + intros x Hx. apply Hold. right. exact Hx.
    + exact NDr.
    + exact (proj2 Rc).
    + exact NDl.
    + intros x Hx.
      assert (Hx' : In x (cid c :: map cid rest)).
      { apply (Permutation_in (l := map cid cur)).
        - apply (Permutation_map cid) in P. exact P.
        - apply Hin. right. exact Hx. }
      destruct Hx' as [Ex | Hx']; [| exact Hx'].
      rewrite Hc in Ex. subst x. contradiction.
    + split; [rewrite S; reflexivity |].
      exists (c :: qs), cur'.
      cbn [failedQueue set_failedQueue set_in_flight in_flight] in Q.
      rewrite Q, <- app_assoc. repeat split.
      * cbn [map]. rewrite M, Hc. reflexivity.
      * exact E'.
      * apply perm_trans with (c :: rest); [exact P |]. cbn [app]. apply perm_skip, P'.
Qed.

Variable s : state.               (* the client when the calls are made *)
Variable rt : string.             (* the refresh token a script reads from the cookies *)
Variables ids order : list nat.   (* the new calls, and the order their 401s arrive in *)
Variable data : value.            (* the body of the refresh reply *)

Hypothesis in_browser : window s = true.
Hypothesis no_refresh_going : idle s.
Hypothesis refresh_cookie : read_cookie (refresh_token (jar s)) = Some rt.
Hypothesis refresh_cookie_set : rt <> "".
Hypothesis calls_new : new_calls s ids.
Hypothesis arrival : Permutation order ids.

Lemma first_and_rest_from :
  forall first others, order = first :: others ->
  exists c,
    session (all_unauthorized_from s ids order)
      = (true, jar s, location s, true, [(with_retry c, rt)],
         (wire (calls_made_from s ids) ++ [Refresh rt])%list,
         settled s, pending_forever s) /\
    cid c = first /\
    map cid (failedQueue (all_unauthorized_from s ids order)) = others /\
    in_flight (all_unauthorized_from s ids order) = in_flight s.
Proof.
  intros first others Ho.
  pose proof no_refresh_going as (Ir & Ig & Iq).
  pose proof calls_new as (ids_distinct & ids_fresh).
  set (s0 := calls_made_from s ids).
  set (fresh := map (fun id => request_interceptor s (new_config id)) ids).
  destruct (calls_phase ids s) as (C & F & W).
  change (run s (map Call ids)) with s0 in C, F, W.
  fold fresh in F.
  unfold control in C. injection C as Cw Cj Cl Cr Cq Cf Cs Cp.
  assert (Hids : map cid fresh = ids).
  { unfold fresh. rewrite map_map. rewrite <- (map_id ids) at 2. apply map_ext.
    intros a. apply (request_interceptor_keeps s (new_config a)). }
  assert (Hfresh : Forall (fun c => _retry c = false) fresh).
  { apply Forall_forall. intros c Hc. apply in_map_iff in Hc as (a & <- & _).
    apply (request_interceptor_keeps s (new_config a)). }
  assert (NDo : NoDup (first :: others)).
  { rewrite <- Ho.
    apply (Permutation_NoDup (l := ids)); [apply Permutation_sym, arrival | exact ids_distinct]. }
  assert (Hin : forall x, In x (first :: others) -> In x ids).
  { intros x Hx. apply (Permutation_in (l := order)); [exact arrival |].
    rewrite Ho. exact Hx. }
  destruct (take_spec first fresh) as (c & rest & T & Hc & P).
  { rewrite Hids. apply Hin. left. reflexivity. }
  assert (T' : take first (in_flight s0) = Some (c, (in_flight s ++ rest)%list)).
  { rewrite F, take_skip, T; [reflexivity |]. apply ids_fresh, Hin. left. reflexivity. }
  assert (Rc : _retry c = false /\ Forall (fun c => _retry c = false) rest).
  { apply (Permutation_Forall P) in Hfresh. apply Forall_cons_iff in Hfresh.
    exact Hfresh. }
  assert (Htok : read_refreshToken s0 = rt).
  { unfold read_refreshToken. rewrite Cw, Cj, in_browser, refresh_cookie. reflexivity. }
  assert (Hne : (read_refreshToken s0 =? "") = false).
  { rewrite Htok. apply String.eqb_neq, refresh_cookie_set. }
  assert (Pids : Permutation (first :: others) (cid c :: map cid rest)).
  { rewrite <- Ho. apply perm_trans with ids; [exact arrival |].
    rewrite <- Hids. exact (Permutation_map cid P). }
  rewrite Hc in Pids. apply Permutation_cons_inv in Pids.
  apply NoDup_cons_iff in NDo as [Nf NDo].
  unfold all_unauthorized_from. fold s0. rewrite Ho.
  change (run s0 (unauthorized (first :: others)))
    with (run (step s0 (Reply first (Some 401%Z))) (unauthorized others)).
  rewrite (trigger_step s0 first c (in_flight s ++ rest)%list T' (proj1 Rc)
             (eq_trans Cr Ir) Hne), Htok.
  set (sA := emit (Refresh rt)
               (set_refreshing (refreshing s0 ++ [(with_retry c, rt)])
                  (set_isRefreshing true (set_in_flight (in_flight s ++ rest)%list s0)))).
  destruct (queue_phase_from (in_flight s) others sA rest)
    as (S & qs & cur' & Q & M & E' & P').
  - reflexivity.
  - reflexivity.
  - intros x Hx. apply ids_fresh, Hin. right. exact Hx.
  - apply (Permutation_NoDup Pids), NDo.
  - exact (proj2 Rc).
  - exact NDo.
  - intros x Hx. apply (Permutation_in _ Pids), Hx.
  - exists c.
    change (session sA)
      with (window s0, jar s0, location s0, true,
            (refreshing s0 ++ [(with_retry c, rt)])%list,
            (wire s0 ++ [Refresh rt])%list, settled s0, pending_forever s0) in S.
    change (failedQueue sA) with (failedQueue s0) in Q.
    rewrite Cw, Cj, Cl, Cf, Cs, Cp, Ig, in_browser in S. rewrite Cq, Iq in Q.
    split; [exact S |]. split; [exact Hc |].
    split; [rewrite Q; exact M |].
    rewrite E'.
    apply Permutation_length in P'. apply Permutation_length in Pids.
    rewrite length_app in P'. rewrite <- M in Pids. rewrite !length_map in Pids.
    destruct cur'; [apply app_nil_r |].
    cbn [length] in P'. lia.
Qed.

Hypothesis at_least_two : 2 <= length ids.
Hypothesis token_issued : truthy (get_opt data "access_token") = true.


End SingleFlight.



(** *** Retrying after the refresh *)

(** A call that carries the [_retry] mark is not refreshed for again: any
    further failure of it, a 401 included, is handed to the caller. *)
Lemma marked_call_is_surfaced
    (s : AxiosInstance.state) (id : nat) (c : AxiosInstance.config)
    (rest : list AxiosInstance.config) (st : option Z) :
  AxiosInstance.take id (AxiosInstance.in_flight s) = Some (c, rest) ->
  AxiosInstance._retry c = true ->
  AxiosInstance.is_2xx st = false ->
  AxiosInstance.step s (AxiosInstance.Reply id st)
  = AxiosInstance.settle id (AxiosInstance.Failed (AxiosInstance.RequestFailed st))
      (AxiosInstance.set_in_flight rest s).
Proof.
  intros T R F. unfold AxiosInstance.step. rewrite T, F.
  unfold AxiosInstance.response_error. rewrite R, andb_false_r.
  assert (E : AxiosInstance.cid c = id).
  { clear - T. revert c rest T.
    induction (AxiosInstance.in_flight s) as [| a l IH]; intros c rest T; [discriminate |].
    simpl in T. destruct (Nat.eqb (AxiosInstance.cid a) id) eqn:Ea.
    - injection T as <- _. apply Nat.eqb_eq, Ea.
    - destruct (AxiosInstance.take id l) as [[c' r'] |]; [| discriminate].
      injection T as <- _. apply (IH c' r' eq_refl). }
  rewrite E. reflexivity.
Qed.

(** C3 on the code.  After one refresh served calls 1 and 2, both are in
    flight again, but only call 1, which started the refresh, carries the
    [_retry] mark.  A second 401 for call 1 is handed to its caller and no
    refresh call is sent.  A second 401 for call 2, the one that waited in
    the queue, is not handed to anybody: it sends a second refresh call
    and call 2 is held for another retry. *)
Lemma queued_call_refreshes_again :
  map (fun c => (AxiosInstance.cid c, AxiosInstance._retry c))
      (AxiosInstance.in_flight two_calls_refreshed) = [ (1, true); (2, false) ] /\
  AxiosInstance.refresh_calls (AxiosInstance.wire two_calls_refreshed) = 1 /\
  (let s := AxiosInstance.step two_calls_refreshed (AxiosInstance.Reply 1 (Some 401%Z)) in
   AxiosInstance.settled s
     = [ (1, AxiosInstance.Failed (AxiosInstance.RequestFailed (Some 401%Z))) ] /\
   AxiosInstance.refresh_calls (AxiosInstance.wire s) = 1) /\
  (let s := AxiosInstance.step two_calls_refreshed (AxiosInstance.Reply 2 (Some 401%Z)) in
   AxiosInstance.settled s = [] /\
   AxiosInstance.refresh_calls (AxiosInstance.wire s) = 2 /\
   map (fun x => AxiosInstance.cid (fst x)) (AxiosInstance.refreshing s) = [2] /\
   AxiosInstance.isRefreshing s = true).
Proof. repeat split. Qed.

(* ================================================================== *)
(** * Further properties of the code *)

(** ** Session Client: runs without a 401 *)

Section QuietRuns.
Import AxiosInstance.

Lemma quiet_step (j : Jar) (s : state) (e : event) :
  (forall id st, e = Reply id st -> is_401 st = false) ->
  refresh_calls (wire s) = 0 /\ isRefreshing s = false /\ failedQueue s = [] /\
    refreshing s = [] /\ jar s = j /\ location s = None /\ pending_forever s = [] ->
  refresh_calls (wire (step s e)) = 0 /\ isRefreshing (step s e) = false /\
    failedQueue (step s e) = [] /\ refreshing (step s e) = [] /\ jar (step s e) = j /\
    location (step s e) = None /\ pending_forever (step s e) = [].
Proof.
  intros He (W & F & Q & R & J & L & P). destruct e as [id | id st | data]; cbn [step].
  - unfold apiClient.
    cbn [wire emit set_in_flight isRefreshing failedQueue refreshing jar location
         pending_forever].
    rewrite refresh_calls_app, W. repeat split; assumption.
  - destruct (take id (in_flight s)) as [[c rest] |]; [| repeat split; assumption].
    destruct (is_2xx st); [cbn; repeat split; assumption |].
    unfold response_error. rewrite (He id st eq_refl). cbn. repeat split; assumption.
  - rewrite R. repeat split; assumption.
Qed.

(** X3.  Only a 401 sets the refresh protocol going.  In every run in
    which no reply is a 401 (successes, other failures and network errors
    in any number and order) the client sends no refresh call, queues
    nothing, never raises [isRefreshing], leaves the cookies as they were
    and never sends the page to the login. *)
Theorem quiet_without_401 (w : bool) (j : Jar) (es : list event) :
  no_401 es ->
  refresh_calls (wire (run (init w j) es)) = 0 /\
  isRefreshing (run (init w j) es) = false /\
  failedQueue (run (init w j) es) = [] /\
  refreshing (run (init w j) es) = [] /\
  jar (run (init w j) es) = j /\
  location (run (init w j) es) = None /\
  pending_forever (run (init w j) es) = [].
Proof.
  intros H.
  assert (G : forall s,
            refresh_calls (wire s) = 0 /\ isRefreshing s = false /\ failedQueue s = [] /\
              refreshing s = [] /\ jar s = j /\ location s = None /\ pending_forever s = [] ->
            refresh_calls (wire (run s es)) = 0 /\ isRefreshing (run s es) = false /\
              failedQueue (run s es) = [] /\ refreshing (run s es) = [] /\
              jar (run s es) = j /\ location (run s es) = None /\
              pending_forever (run s es) = []).
  { unfold no_401 in H. induction es as [| e es IH]; intros s I; [exact I |].
    apply IH.
    - intros id st Hin. apply (H id st). right. exact Hin.
    - apply quiet_step; [| exact I].
      intros id st ->. apply (H id st). left. reflexivity. }
  apply G. repeat split.
Qed.

End QuietRuns.

Lemma quiet_without_401_witness :
  AxiosInstance.refresh_calls
    (AxiosInstance.wire (AxiosInstance.run (AxiosInstance.init true jar_stale) quiet_events))
    = 0 /\
  AxiosInstance.isRefreshing (AxiosInstance.run (AxiosInstance.init true jar_stale) quiet_events)
    = false /\
  AxiosInstance.failedQueue (AxiosInstance.run (AxiosInstance.init true jar_stale) quiet_events)
    = [] /\
  AxiosInstance.refreshing (AxiosInstance.run (AxiosInstance.init true jar_stale) quiet_events)
    = [] /\
  AxiosInstance.jar (AxiosInstance.run (AxiosInstance.init true jar_stale) quiet_events)
    = jar_stale /\
  AxiosInstance.location (AxiosInstance.run (AxiosInstance.init true jar_stale) quiet_events)
    = None /\
  AxiosInstance.pending_forever
    (AxiosInstance.run (AxiosInstance.init true jar_stale) quiet_events) = [].
Proof.
  apply (quiet_without_401 true jar_stale quiet_events).
  intros id st H. simpl in H.
  repeat (destruct H as [H | H]; [inversion H; subst; reflexivity |]).
  contradiction.
Defined.

(** ** Session Client: the queue and the refresh reply *)

Section QueueFacts.
Import AxiosInstance.

Lemma drop_all (lost : list nat) (s : state) :
  outside_queue (fold_left (fun acc id => drop id acc) lost s) = outside_queue s /\
  failedQueue (fold_left (fun acc id => drop id acc) lost s) = failedQueue s /\
  pending_forever (fold_left (fun acc id => drop id acc) lost s)
    = (pending_forever s ++ lost)%list.
Proof.
  revert s. induction lost as [| id lost IH]; intros s; simpl.
  - rewrite app_nil_r. repeat split.
  - destruct (IH (drop id s)) as (O & Q & P). rewrite O, Q, P.
    cbn [pending_forever drop]. rewrite <- app_assoc. repeat split.
Qed.

Lemma processQueue_fields (error : option failure) (token : value) (s : state) :
  outside_queue (fst (processQueue error token s)) = outside_queue s /\
  failedQueue (fst (processQueue error token s)) = [] /\
  pending_forever (fst (processQueue error token s))
    = (pending_forever s ++ snd (queue_jobs error token (failedQueue s)))%list /\
  snd (processQueue error token s) = fst (queue_jobs error token (failedQueue s)).
Proof.
  unfold processQueue. destruct (queue_jobs error token (failedQueue s)) as [jobs lost].
  destruct (drop_all lost s) as (O & _ & P). cbn [fst snd].
  repeat split; [exact O | exact P].
Qed.

Lemma run_jobs_core (jobs : list job) (s : state) :
  core (run_jobs jobs s) = core s.
Proof.
  revert s. induction jobs as [| j jobs IH]; intros s; [reflexivity |].
  unfold run_jobs in *. simpl. rewrite IH. destruct j; reflexivity.
Qed.

Lemma queue_jobs_abort (e : failure) (token : value) (q : list config) :
  queue_jobs (Some e) token q = (map (fun c => Abort c e) q, []).
Proof.
  induction q as [| c q IH]; simpl; [reflexivity |]. rewrite IH. reflexivity.
Qed.

Lemma abort_phase (e : failure) (qs : list config) (s : state) :
  core (run_jobs (map (fun c => Abort c e) qs) s) = core s /\
  in_flight (run_jobs (map (fun c => Abort c e) qs) s) = in_flight s /\
  wire (run_jobs (map (fun c => Abort c e) qs) s) = wire s /\
  settled (run_jobs (map (fun c => Abort c e) qs) s)
    = (settled s ++ map (fun c => (cid c, Failed e)) qs)%list.
Proof.
  split; [apply run_jobs_core |].
  revert s. induction qs as [| c qs IH]; intros s.
  - simpl. rewrite app_nil_r. repeat split.
  - change (run_jobs (map (fun c => Abort c e) (c :: qs)) s)
      with (run_jobs (map (fun c => Abort c e) qs) (settle (cid c) (Failed e) s)).
    destruct (IH (settle (cid c) (Failed e) s)) as (F & W & S).
    rewrite F, W, S. cbn [settled settle]. rewrite <- app_assoc. repeat split.
Qed.

(** The state in which the suspended handler leaves the client, whatever
    the refresh reply. *)
Lemma refresh_settled_idle (c : config) (data : option value) (s : state) :
  failedQueue (refresh_settled c data s) = [] /\
  isRefreshing (refresh_settled c data s) = false /\
  refreshing (refresh_settled c data s) = refreshing s /\
  window (refresh_settled c data s) = window s.
Proof.
  unfold refresh_settled.
  destruct (match data with Some d => _ | None => _ end) as [[access newRefresh] | e].
  - set (s1 := if window s then _ else s).
    assert (W1 : window s1 = window s /\ refreshing s1 = refreshing s).
    { unfold s1. destruct (window s) eqn:W; cbn; rewrite ?W; split; reflexivity. }
    destruct (processQueue_fields None access s1) as (O & Q & _).
    destruct (processQueue None access s1) as [s2 jobs]. cbn [fst] in O, Q.
    unfold outside_queue in O. injection O as Ow _ _ _ Or _ _ _.
    pose proof (run_jobs_core jobs
      (set_isRefreshing false
         (apiClient (with_authorization (bearer (to_str access)) c) s2))) as K.
    unfold core in K. injection K as Kw _ _ Ki Kq Kr _.
    rewrite Kq, Ki, Kr, Kw. cbn. rewrite Q, Or, Ow. destruct W1 as [-> ->].
    repeat split.
  - destruct (processQueue_fields (Some RefreshFailed) VNull s) as (O & Q & _).
    destruct (processQueue (Some RefreshFailed) VNull s) as [s2 jobs]. cbn [fst] in O, Q.
    unfold outside_queue in O. injection O as Ow _ _ _ Or _ _ _.
    cbn [failedQueue isRefreshing refreshing window settle].
    set (s3 := set_isRefreshing false _).
    pose proof (run_jobs_core jobs s3) as K.
    unfold core in K. injection K as Kw _ _ Ki Kq Kr _.
    rewrite Kq, Ki, Kr, Kw. unfold s3.
    destruct (window s2) eqn:W2; repeat split; cbn; congruence.
Qed.

Lemma step_keeps_queue_guarded (s : state) (e : event) :
  queue_guarded s -> queue_guarded (step s e).
Proof.
  unfold queue_guarded. intros I. destruct e as [id | id st | data]; cbn [step].
  - exact I.
  - destruct (take id (in_flight s)) as [[c rest] |]; [| exact I].
    destruct (is_2xx st); [exact I |].
    unfold response_error. cbn [isRefreshing failedQueue set_in_flight].
    destruct (is_401 st && negb (_retry c)); [| exact I].
    destruct (isRefreshing s) eqn:F; cbn; [rewrite F; discriminate |].
    destruct (read_refreshToken _ =? ""); cbn.
    + intros _. unfold redirect_to_login. destruct (window _); cbn; apply I; reflexivity.
    + discriminate.
  - destruct (refreshing s) as [| [c rt] rest]; [exact I |].
    intros _. apply refresh_settled_idle.
Qed.

End QueueFacts.

Lemma run_keeps_queue_guarded (es : list AxiosInstance.event) (s : AxiosInstance.state) :
  queue_guarded s -> queue_guarded (AxiosInstance.run s es).
Proof.
  revert s. induction es as [| e es IH]; intros s I; [exact I |].
  apply IH, step_keeps_queue_guarded, I.
Qed.

(** X4.  No call waits unattended.  In every state the client can reach,
    a non-empty [failedQueue] means that the flag is up and exactly one
    refresh call is in flight; and whatever that call is answered with
    (tokens, nothing usable, or a failure), the step that handles the
    answer leaves the queue empty and the flag down. *)
Theorem waiting_calls_have_a_refresh
    (w : bool) (j : AxiosInstance.Jar) (es : list AxiosInstance.event) :
  (AxiosInstance.failedQueue (AxiosInstance.run (AxiosInstance.init w j) es) <> [] ->
     AxiosInstance.isRefreshing (AxiosInstance.run (AxiosInstance.init w j) es) = true /\
     length (AxiosInstance.refreshing (AxiosInstance.run (AxiosInstance.init w j) es)) = 1)
  /\
  (forall data,
     AxiosInstance.failedQueue
       (AxiosInstance.step (AxiosInstance.run (AxiosInstance.init w j) es)
          (AxiosInstance.RefreshReply data)) = [] /\
     AxiosInstance.isRefreshing
       (AxiosInstance.step (AxiosInstance.run (AxiosInstance.init w j) es)
          (AxiosInstance.RefreshReply data)) = false).
Proof.
  pose proof (run_keeps_queue_guarded es (AxiosInstance.init w j) (fun _ => eq_refl)) as G.
  pose proof (run_keeps_flag es (AxiosInstance.init w j) eq_refl) as F.
  set (s := AxiosInstance.run (AxiosInstance.init w j) es) in *.
  unfold queue_guarded in G. unfold flag_guards_refresh in F.
  split.
  - intros Q. destruct (AxiosInstance.isRefreshing s).
    + split; [reflexivity | exact F].
    + elim Q. apply G. reflexivity.
  - intros data. cbn [AxiosInstance.step].
    destruct (AxiosInstance.refreshing s) as [| [c rt] rest] eqn:R.
    + destruct (AxiosInstance.isRefreshing s); [discriminate F |].
      split; [apply G |]; reflexivity.
    + destruct (refresh_settled_idle c data
                  (AxiosInstance.set_refreshing rest s)) as (Q & I & _).
      split; assumption.
Qed.

Section RefreshReplies.
Import AxiosInstance.

(** The cookies and the location after the refresh reply, in a browser. *)
Lemma refresh_settled_cookies (c : config) (data : option value) (s : state) :
  window s = true ->
  (jar (refresh_settled c data s), location (refresh_settled c data s))
  = match data with
    | Some d => if nullish d then (no_cookies, Some "/login")
                else (refreshed_cookies d, location s)
    | None => (no_cookies, Some "/login")
    end.
Proof.
  intros W.
  assert (Failure : forall e,
    (let (s, jobs) := processQueue (Some RefreshFailed) VNull s in
     let s := if window s
              then set_location "/login"
                     (set_jar {| access_token := None; refresh_token := None |} s)
              else s in
     let s := set_isRefreshing false s in
     (jar (settle (cid c) (Failed e) (run_jobs jobs s)),
      location (settle (cid c) (Failed e) (run_jobs jobs s))))
    = (no_cookies, Some "/login")).
  { intros e.
    destruct (processQueue_fields (Some RefreshFailed) VNull s) as (O & _).
    destruct (processQueue (Some RefreshFailed) VNull s) as [s2 jobs]. cbn [fst] in O.
    unfold outside_queue in O. injection O as Ow _ _ _ _ _ _ _.
    rewrite Ow, W. cbn [jar location settle].
    set (s3 := set_isRefreshing false _).
    pose proof (run_jobs_core jobs s3) as K.
    unfold core in K. injection K as _ Kj Kl _ _ _ _.
    rewrite Kj, Kl. reflexivity. }
  unfold refresh_settled.
  destruct data as [d |]; [unfold get; destruct (nullish d) eqn:N; cbn [bind] |].
  - specialize (Failure RefreshFailed).
    destruct (processQueue (Some RefreshFailed) VNull s) as [s2 jobs]. exact Failure.
  - rewrite W.
    set (s1 := set_jar _ s).
    destruct (processQueue_fields None (get_opt d "access_token") s1) as (O & _).
    destruct (processQueue None (get_opt d "access_token") s1) as [s2 jobs].
    cbn [fst] in O. unfold outside_queue in O. injection O as _ Oj Ol _ _ _ _ _.
    set (s3 := set_isRefreshing false _).
    pose proof (run_jobs_core jobs s3) as K.
    unfold core in K. injection K as _ Kj Kl _ _ _ _.
    rewrite Kj, Kl. unfold s3. cbn. rewrite Oj, Ol. reflexivity.
  - specialize (Failure RefreshFailed).
    destruct (processQueue (Some RefreshFailed) VNull s) as [s2 jobs]. exact Failure.
Qed.

(** The step that handles a failed refresh. *)
Lemma refresh_failure (s : state) (c : config) (rt : string) (rest : list (config * string)) :
  refreshing s = (c, rt) :: rest ->
  window s = true ->
  step s (RefreshReply None)
  = settle (cid c) (Failed RefreshFailed)
      (run_jobs (map (fun q => Abort q RefreshFailed) (failedQueue s))
         (set_isRefreshing false
            (set_location "/login"
               (set_jar no_cookies (set_failedQueue [] (set_refreshing rest s)))))).
Proof.
  intros R W. unfold step. rewrite R. unfold refresh_settled, processQueue.
  cbn [failedQueue set_refreshing]. rewrite queue_jobs_abort.
  cbn [fold_left window set_failedQueue set_refreshing]. rewrite W. reflexivity.
Qed.

End RefreshReplies.

(** X5.  A failed refresh fails every waiting call and ends the session.
    In the scenario of the single-flight property (the [N >= 1] distinct
    calls [ids], each answered 401 in any order, in a browser whose
    cookies hold a non-empty refresh token), let the refresh call be
    rejected.  Then each of the [N] calls is rejected, once, with the
    error of the refresh call and not with its own 401; nothing is sent
    again and no second refresh is tried; both cookies are cleared, the
    browser is sent to [/login], the flag is down, and no call is left in
    flight, queued or pending. *)
Theorem refresh_failure_rejects_all
    (j : AxiosInstance.Jar) (rt : string) (ids order : list nat) :
  NoDup ids ->
  Permutation order ids ->
  AxiosInstance.read_cookie (AxiosInstance.refresh_token j) = Some rt ->
  rt <> "" ->
  ids <> [] ->
  Permutation (AxiosInstance.settled (refresh_rejected j ids order))
    (map (fun id => (id, AxiosInstance.Failed AxiosInstance.RefreshFailed)) ids) /\
  AxiosInstance.wire (refresh_rejected j ids order)
    = AxiosInstance.wire (all_unauthorized j ids order) /\
  AxiosInstance.refresh_calls (AxiosInstance.wire (refresh_rejected j ids order)) = 1 /\
  AxiosInstance.jar (refresh_rejected j ids order) = no_cookies /\
  AxiosInstance.isAuthenticated (refresh_rejected j ids order) = false /\
  AxiosInstance.location (refresh_rejected j ids order) = Some "/login" /\
  AxiosInstance.isRefreshing (refresh_rejected j ids order) = false /\
  AxiosInstance.refreshing (refresh_rejected j ids order) = [] /\
  AxiosInstance.failedQueue (refresh_rejected j ids order) = [] /\
  AxiosInstance.in_flight (refresh_rejected j ids order) = [] /\
  AxiosInstance.pending_forever (refresh_rejected j ids order) = [].
Proof.
  intros ND arrival cookie nonempty some.
  assert (Ho : exists first others, order = first :: others).
  { destruct order as [| first others]; [| eauto].
    apply Permutation_nil in arrival. congruence. }
  destruct Ho as (first & others & Ho).
  destruct (first_and_rest j rt ids order ND arrival cookie nonempty first others Ho)
    as (c & S1 & Cc & Q1 & F1).
  unfold session in S1. injection S1 as Sw Sj Sl Si Sr Swire Ss Sp.
  unfold refresh_rejected.
  rewrite (refresh_failure _ _ _ _ Sr Sw).
  set (sB := AxiosInstance.set_isRefreshing false _).
  destruct (abort_phase AxiosInstance.RefreshFailed
              (AxiosInstance.failedQueue (all_unauthorized j ids order)) sB)
    as (K & F & W & S).
  unfold core in K. injection K as Kw Kj Kl Ki Kq Kr Kp.
  cbn [AxiosInstance.settled AxiosInstance.wire AxiosInstance.jar
       AxiosInstance.location AxiosInstance.isRefreshing AxiosInstance.refreshing
       AxiosInstance.failedQueue AxiosInstance.in_flight
       AxiosInstance.pending_forever AxiosInstance.settle].
  unfold AxiosInstance.isAuthenticated, AxiosInstance.getAccessToken.
  cbn [AxiosInstance.window AxiosInstance.jar AxiosInstance.settle].
  rewrite S, W, Kw, Kj, Kl, Ki, Kq, Kr, Kp, F. unfold sB. cbn.
  rewrite Ss, Sp, F1, Swire.
  repeat split.
  - change (AxiosInstance.cid (AxiosInstance.with_retry c)) with (AxiosInstance.cid c).
    rewrite Cc.
    etransitivity; [apply Permutation_sym, Permutation_cons_append |].
    rewrite <- (map_map AxiosInstance.cid
                  (fun id => (id, AxiosInstance.Failed AxiosInstance.RefreshFailed))).
    rewrite Q1.
    apply (Permutation_map
             (fun id => (id, AxiosInstance.Failed AxiosInstance.RefreshFailed))
             (l := first :: others)).
    rewrite <- Ho. exact arrival.
  - change (AxiosInstance.refresh_calls
              (AxiosInstance.wire (calls_made j ids) ++ [AxiosInstance.Refresh rt]) = 1).
    rewrite refresh_calls_app.
    destruct (calls_phase ids (AxiosInstance.init true j)) as (_ & _ & Wc).
    unfold calls_made. rewrite Wc. cbn [AxiosInstance.wire AxiosInstance.init app].
    rewrite refresh_calls_requests. reflexivity.
  - rewrite Sw. reflexivity.
Qed.

Lemma refresh_failure_rejects_all_witness :
  Permutation
    (AxiosInstance.settled (refresh_rejected jar_stale [1; 2; 3] [2; 3; 1]))
    [(1, AxiosInstance.Failed AxiosInstance.RefreshFailed);
     (2, AxiosInstance.Failed AxiosInstance.RefreshFailed);
     (3, AxiosInstance.Failed AxiosInstance.RefreshFailed)].
Proof.
  apply (refresh_failure_rejects_all jar_stale "R0" [1; 2; 3] [2; 3; 1]).
  - repeat constructor; simpl; intuition lia.
  - apply Permutation_sym, (Permutation_cons_app [2; 3] [] 1), Permutation_refl.
  - reflexivity.
  - discriminate.
  - discriminate.
Defined.



(** ** Session Client: how many refresh calls *)

Section RefreshBound.
Import AxiosInstance.

Lemma unmarked_app (l1 l2 : list config) :
  unmarked (l1 ++ l2) = unmarked l1 + unmarked l2.
Proof. unfold unmarked. rewrite filter_app, length_app. reflexivity. Qed.

Lemma take_unmarked (id : nat) (l : list config) (c : config) (rest : list config) :
  take id l = Some (c, rest) -> unmarked l = unmarked [c] + unmarked rest.
Proof.
  revert c rest. induction l as [| a l IH]; intros c rest; cbn [take]; [discriminate |].
  destruct (Nat.eqb (cid a) id).
  - intros [= <- <-]. apply (unmarked_app [a] l).
  - destruct (take id l) as [[c' rest'] |]; [| discriminate].
    intros [= <- <-]. specialize (IH c' rest' eq_refl).
    change (unmarked ([a] ++ l) = unmarked [c'] + unmarked ([a] ++ rest')).
    rewrite !unmarked_app, IH. lia.
Qed.

Lemma apiClient_potential (c : config) (s : state) :
  refresh_calls (wire (apiClient c s)) = refresh_calls (wire s) /\
  unmarked (in_flight (apiClient c s)) = unmarked (in_flight s) + unmarked [c] /\
  failedQueue (apiClient c s) = failedQueue s /\
  refreshing (apiClient c s) = refreshing s.
Proof.
  unfold apiClient. cbn [wire in_flight failedQueue refreshing emit set_in_flight].
  rewrite refresh_calls_app, unmarked_app.
  assert (U : unmarked [request_interceptor s c] = unmarked [c]).
  { unfold unmarked. cbn [filter].
    rewrite (proj2 (request_interceptor_keeps s c)).
    destruct (negb (_retry c)); reflexivity. }
  rewrite U. repeat split. cbn. lia.
Qed.

Lemma run_jobs_potential (jobs : list job) (s : state) :
  refresh_calls (wire (run_jobs jobs s)) = refresh_calls (wire s) /\
  unmarked (in_flight (run_jobs jobs s)) = unmarked (in_flight s) + resumes_unmarked jobs.
Proof.
  revert s. induction jobs as [| j jobs IH]; intros s.
  - cbn. split; [reflexivity | lia].
  - change (run_jobs (j :: jobs) s) with (run_jobs jobs (run_job s j)).
    destruct (IH (run_job s j)) as [W F]. rewrite W, F.
    destruct j as [c token | c e]; cbn [run_job].
    + destruct (apiClient_potential (with_authorization (bearer (to_str token)) c) s)
        as (W1 & F1 & _).
      rewrite W1, F1. split; [reflexivity |].
      unfold resumes_unmarked, unmarked. cbn [filter _retry with_authorization].
      destruct (negb (_retry c)); cbn [length app]; lia.
    + split; [reflexivity |]. cbn [in_flight settle].
      unfold resumes_unmarked. cbn [filter]. lia.
Qed.

Lemma queue_jobs_unmarked (error : option failure) (token : value) (q : list config) :
  resumes_unmarked (fst (queue_jobs error token q)) <= unmarked q.
Proof.
  induction q as [| c q IH]; [cbn; lia |].
  cbn [queue_jobs]. destruct (queue_jobs error token q) as [jobs lost].
  cbn [fst] in IH. change (c :: q) with ([c] ++ q)%list. rewrite unmarked_app.
  destruct error as [e |]; [| destruct (truthy token)]; cbn [fst];
    unfold resumes_unmarked, unmarked in *; cbn [filter];
    destruct (negb (_retry c)); cbn [length app]; lia.
Qed.

Lemma refresh_settled_potential (c : config) (data : option value) (s : state) :
  refresh_potential (refresh_settled c data s) <= refresh_potential s + unmarked [c].
Proof.
  unfold refresh_settled.
  destruct (match data with Some d => _ | None => _ end) as [[access newRefresh] | e].
  - set (s1 := if window s then _ else s).
    assert (E1 : refresh_potential s1 = refresh_potential s).
    { unfold s1. destruct (window s); reflexivity. }
    rewrite <- E1. clearbody s1. clear E1.
    destruct (processQueue_fields None access s1) as (O & Q & _ & J).
    pose proof (queue_jobs_unmarked None access (failedQueue s1)) as B.
    rewrite <- J in B.
    destruct (processQueue None access s1) as [s2 jobs]. cbn [fst snd] in O, Q, B.
    unfold outside_queue in O. injection O as _ _ _ _ Or Of Ow _.
    set (c' := with_authorization (bearer (to_str access)) c).
    set (s3 := set_isRefreshing false (apiClient c' s2)).
    destruct (run_jobs_potential jobs s3) as [W F].
    pose proof (run_jobs_core jobs s3) as K.
    unfold core in K. injection K as _ _ _ _ Kq Kr _.
    destruct (apiClient_potential c' s2) as (W1 & F1 & Q1 & R1).
    unfold refresh_potential. rewrite W, F, Kq, Kr. unfold s3.
    cbn [wire in_flight failedQueue refreshing set_isRefreshing].
    rewrite W1, F1, Q, Or, Of, Ow.
    assert (Uc : unmarked [c'] = unmarked [c]).
    { unfold unmarked, c'. cbn [filter _retry with_authorization].
      destruct (negb (_retry c)); reflexivity. }
    rewrite Uc.
    change (unmarked []) with 0. lia.
  - destruct (processQueue_fields (Some RefreshFailed) VNull s) as (O & Q & _ & J).
    pose proof (queue_jobs_unmarked (Some RefreshFailed) VNull (failedQueue s)) as B.
    rewrite <- J in B.
    destruct (processQueue (Some RefreshFailed) VNull s) as [s2 jobs].
    cbn [fst snd] in O, Q, B.
    unfold outside_queue in O. injection O as _ _ _ _ Or Of Ow _.
    set (s3 := set_isRefreshing false _).
    assert (E3 : (wire s3, in_flight s3, failedQueue s3, refreshing s3)
                 = (wire s2, in_flight s2, failedQueue s2, refreshing s2)).
    { unfold s3. destruct (window s2); reflexivity. }
    clearbody s3. injection E3 as W3 F3 Q3 R3.
    destruct (run_jobs_potential jobs s3) as [W F].
    pose proof (run_jobs_core jobs s3) as K.
    unfold core in K. injection K as _ _ _ _ Kq Kr _.
    unfold refresh_potential.
    cbn [wire in_flight failedQueue refreshing settle].
    rewrite W, F, Kq, Kr, W3, F3, Q3, R3, Q, Or, Of, Ow.
    change (unmarked []) with 0. lia.
Qed.

Lemma step_potential (s : state) (e : event) :
  refresh_potential (step s e) <= refresh_potential s + length (calls_in [e]).
Proof.
  destruct e as [id | id st | data]; cbn [step calls_in flat_map app length].
  - destruct (apiClient_potential {| cid := id; _retry := false; Authorization := None |} s)
      as (W & F & Q & R).
    unfold refresh_potential. rewrite W, F, Q, R. cbn. lia.
  - destruct (take id (in_flight s)) as [[c rest] |] eqn:T; [| lia].
    pose proof (take_unmarked _ _ _ _ T) as U.
    assert (Settle : forall r,
      refresh_potential (settle id r (set_in_flight rest s)) <= refresh_potential s + 0).
    { intros r. unfold refresh_potential.
      cbn [wire in_flight failedQueue refreshing settle set_in_flight]. lia. }
    destruct (is_2xx st); [apply Settle |].
    unfold response_error. cbn [isRefreshing failedQueue set_in_flight].
    destruct (is_401 st && negb (_retry c)) eqn:G.
    + apply andb_true_iff in G as [_ G].
      assert (Uc : unmarked [c] = 1) by (unfold unmarked; cbn [filter]; rewrite G; reflexivity).
      destruct (isRefreshing s).
      * unfold refresh_potential.
        cbn [wire in_flight failedQueue refreshing set_failedQueue set_in_flight].
        rewrite unmarked_app. lia.
      * destruct (read_refreshToken _ =? "").
        -- unfold redirect_to_login, refresh_potential.
           destruct (window _);
             cbn [wire in_flight failedQueue refreshing settle set_in_flight
                  set_isRefreshing set_location]; lia.
        -- unfold refresh_potential.
           cbn [wire in_flight failedQueue refreshing emit set_refreshing
                set_isRefreshing set_in_flight].
           rewrite refresh_calls_app, map_app, unmarked_app. cbn. lia.
    + unfold refresh_potential.
      cbn [wire in_flight failedQueue refreshing settle set_in_flight]. lia.
  - destruct (refreshing s) as [| [c rt] rest] eqn:R; [lia |].
    pose proof (refresh_settled_potential c data (set_refreshing rest s)) as P.
    assert (E : refresh_potential (set_refreshing rest s) + unmarked [c]
                = refresh_potential s).
    { unfold refresh_potential.
      cbn [wire in_flight failedQueue refreshing set_refreshing]. rewrite R.
      cbn [map fst]. change (c :: map fst rest) with ([c] ++ map fst rest)%list.
      rewrite unmarked_app. lia. }
    lia.
Qed.

Lemma run_potential (es : list event) (s : state) :
  refresh_potential (run s es) <= refresh_potential s + length (calls_in es).
Proof.
  revert s. induction es as [| e es IH]; intros s; [cbn; lia |].
  change (run s (e :: es)) with (run (step s e) es).
  specialize (IH (step s e)). pose proof (step_potential s e) as P.
  unfold calls_in in *. cbn [flat_map] in *. rewrite app_nil_r in P.
  rewrite length_app. lia.
Qed.

End RefreshBound.

(** X7.  Refresh calls never outnumber the calls made.  Whatever the
    application calls and whatever the replies and their order, the number
    of refresh calls the client has sent is at most the number of calls
    the application has made: no sequence of replies makes the client
    refresh without end. *)
Theorem refresh_calls_bounded_by_calls
    (w : bool) (j : AxiosInstance.Jar) (es : list AxiosInstance.event) :
  AxiosInstance.refresh_calls
    (AxiosInstance.wire (AxiosInstance.run (AxiosInstance.init w j) es))
  <= length (calls_in es).
Proof.
  pose proof (run_potential es (AxiosInstance.init w j)) as P.
  unfold refresh_potential at 1 in P.
  change (refresh_potential (AxiosInstance.init w j)) with 0 in P. lia.
Qed.

(** ** Session Client: promises that never settle *)

Section Stranded.
Import AxiosInstance.

Lemma queue_jobs_lost (tok : value) (q : list config) :
  truthy tok = false -> queue_jobs None tok q = ([], map cid q).
Proof.
  intros T. induction q as [| c q IH]; cbn [queue_jobs map]; [reflexivity |].
  rewrite IH, T. reflexivity.
Qed.

Lemma refresh_settled_pending (c : config) (data : option value) (s : state) :
  pending_forever (refresh_settled c data s)
  = (pending_forever s ++ stranded data (failedQueue s))%list.
Proof.
  assert (Failure :
    pending_forever
      (let (s, jobs) := processQueue (Some RefreshFailed) VNull s in
       let s := if window s
                then set_location "/login"
                       (set_jar {| access_token := None; refresh_token := None |} s)
                else s in
       let s := set_isRefreshing false s in
       settle (cid c) (Failed RefreshFailed) (run_jobs jobs s))
    = pending_forever s).
  { destruct (processQueue_fields (Some RefreshFailed) VNull s) as (_ & _ & P & _).
    rewrite queue_jobs_abort in P. cbn [snd] in P. rewrite app_nil_r in P.
    destruct (processQueue (Some RefreshFailed) VNull s) as [s2 jobs]. cbn [fst] in P.
    cbn [pending_forever settle].
    set (s3 := set_isRefreshing false _).
    assert (P3 : pending_forever s3 = pending_forever s2).
    { unfold s3. destruct (window s2); reflexivity. }
    pose proof (run_jobs_core jobs s3) as K.
    clearbody s3. unfold core in K. injection K as _ _ _ _ _ _ Kp. congruence. }
  unfold refresh_settled, stranded.
  destruct data as [d |]; [unfold get; destruct (nullish d) eqn:N; cbn [bind orb] |].
  - rewrite app_nil_r. exact Failure.
  - set (s1 := if window s then _ else s).
    assert (E1 : failedQueue s1 = failedQueue s /\ pending_forever s1 = pending_forever s).
    { unfold s1. destruct (window s); split; reflexivity. }
    destruct E1 as [Q1 P1]. rewrite <- Q1, <- P1. clearbody s1.
    destruct (processQueue_fields None (get_opt d "access_token") s1) as (_ & _ & P & _).
    destruct (processQueue None (get_opt d "access_token") s1) as [s2 jobs].
    cbn [fst] in P.
    set (s3 := set_isRefreshing false _).
    assert (P3 : pending_forever s3 = pending_forever s2) by reflexivity.
    pose proof (run_jobs_core jobs s3) as K. clearbody s3.
    unfold core in K. injection K as _ _ _ _ _ _ Kp.
    rewrite Kp, P3, P.
    destruct (truthy (get_opt d "access_token")) eqn:T.
    + rewrite (queue_jobs_resume _ _ T). reflexivity.
    + rewrite (queue_jobs_lost _ _ T). reflexivity.
  - rewrite app_nil_r. exact Failure.
Qed.

Lemma step_pending (s : state) (e : event) :
  pending_forever (step s e)
  = (pending_forever s
     ++ match e, refreshing s with
        | RefreshReply data, _ :: _ => stranded data (failedQueue s)
        | _, _ => []
        end)%list.
Proof.
  destruct e as [id | id st | data]; cbn [step].
  - rewrite app_nil_r. reflexivity.
  - replace (match refreshing s with [] => [] | _ :: _ => [] end) with (@nil nat)
      by (destruct (refreshing s); reflexivity).
    rewrite app_nil_r.
    destruct (take id (in_flight s)) as [[c rest] |]; [| reflexivity].
    destruct (is_2xx st); [reflexivity |].
    unfold response_error. cbn [isRefreshing set_in_flight].
    destruct (is_401 st && negb (_retry c)); [| reflexivity].
    destruct (isRefreshing s); [reflexivity |].
    destruct (read_refreshToken _ =? ""); [| reflexivity].
    unfold redirect_to_login. destruct (window _); reflexivity.
  - destruct (refreshing s) as [| [c rt] rest]; [rewrite app_nil_r; reflexivity |].
    apply (refresh_settled_pending c data (set_refreshing rest s)).
Qed.

Lemma stranded_usable (data : option value) (q : list config) :
  reply_usable (RefreshReply data) -> stranded data q = [].
Proof.
  destruct data as [d |]; [| reflexivity]. cbn. intros [-> | ->]; [reflexivity |].
  rewrite orb_true_r. reflexivity.
Qed.

Lemma run_usable (es : list event) (s : state) :
  Forall reply_usable es -> pending_forever (run s es) = pending_forever s.
Proof.
  revert s. induction es as [| e es IH]; intros s U; [reflexivity |].
  apply Forall_cons_iff in U as [Ue U].
  change (run s (e :: es)) with (run (step s e) es).
  rewrite (IH _ U), step_pending.
  destruct e as [id | id st | data]; try (rewrite app_nil_r; reflexivity).
  destruct (refreshing s); [rewrite app_nil_r; reflexivity |].
  rewrite (stranded_usable _ _ Ue), app_nil_r. reflexivity.
Qed.

(** The step that handles a refresh reply without an access token. *)
Lemma refresh_tokenless (s : state) (c : config) (rt : string)
    (rest : list (config * string)) (d : value) :
  refreshing s = (c, rt) :: rest ->
  window s = true ->
  nullish d = false ->
  truthy (get_opt d "access_token") = false ->
  step s (RefreshReply (Some d))
  = set_isRefreshing false
      (apiClient (with_authorization (bearer (to_str (get_opt d "access_token"))) c)
         (set_failedQueue []
            (fold_left (fun acc id => drop id acc) (map cid (failedQueue s))
               (set_jar (refreshed_cookies d) (set_refreshing rest s))))).
Proof.
  intros R W N T. unfold step. rewrite R. unfold refresh_settled, get.
  rewrite N. cbn [bind window set_refreshing]. rewrite W.
  unfold processQueue. cbn [failedQueue set_jar set_refreshing].
  rewrite (queue_jobs_lost _ _ T). reflexivity.
Qed.

End Stranded.

(** X8.  Only a refresh reply without a token leaves a caller waiting for
    ever.  When every refresh reply of a run is a failure, an unreadable
    body, or a body with an access token, then no queued promise has been
    dropped unsettled, whatever else happens in the run. *)
Theorem usable_refresh_strands_no_call
    (w : bool) (j : AxiosInstance.Jar) (es : list AxiosInstance.event) :
  Forall reply_usable es ->
  AxiosInstance.pending_forever (AxiosInstance.run (AxiosInstance.init w j) es) = [].
Proof.
  intros U. apply (run_usable es (AxiosInstance.init w j) U).
Qed.

Lemma usable_refresh_strands_no_call_witness :
  AxiosInstance.pending_forever
    (AxiosInstance.run (AxiosInstance.init true jar_stale) refreshed_run) = [].
Proof.
  apply (usable_refresh_strands_no_call true jar_stale refreshed_run).
  repeat (apply Forall_cons; [exact I || (right; reflexivity) |]).
  apply Forall_nil.
Defined.



(* ================================================================== *)
(** ** The proxy routes: sessions and outbound calls *)

Section ProxyRoutes.
Variable env : Env.
Variable message : exn -> string.
Variable remote : request -> res reply.

Lemma usable_token_some (cookie : option string) (t : string) :
  usable_token cookie = Some t -> cookie = Some t /\ t <> "".
Proof.
  unfold usable_token. destruct cookie as [c |]; [| discriminate].
  destruct (c =? "") eqn:E; [discriminate |].
  intros [= <-]. split; [reflexivity |]. apply String.eqb_neq, E.
Qed.

Lemma usable_token_given (t : string) : t <> "" -> usable_token (Some t) = Some t.
Proof. intros H. apply String.eqb_neq in H. unfold usable_token. rewrite H. reflexivity. Qed.

Lemma get_trace (id : string) (cookie : option string) :
  snd (PatientRoute.GET env message remote id cookie) = [] \/
  exists t, usable_token cookie = Some t /\
            snd (PatientRoute.GET env message remote id cookie)
            = [PatientRoute.get_request env id t].
Proof.
  unfold PatientRoute.GET. destruct (id =? ""); [left; reflexivity |].
  destruct (usable_token cookie) as [t |]; [| left; reflexivity].
  right. exists t. split; [reflexivity |].
  destruct (remote _) as [r | e]; [| reflexivity].
  destruct (negb (r_ok r)).
  - destruct (r_status r =? 401)%Z, (r_status r =? 404)%Z; reflexivity.
  - destruct (let* patientData := r_json r in _); reflexivity.
Qed.

Lemma put_trace (id : string) (cookie : option string) (parsed : res value) :
  snd (PatientRoute.PUT env message remote id cookie parsed) = [] \/
  exists t doc, usable_token cookie = Some t /\
                snd (PatientRoute.PUT env message remote id cookie parsed)
                = [PatientRoute.put_request env id t doc].
Proof.
  unfold PatientRoute.PUT. destruct (id =? ""); [left; reflexivity |].
  destruct (usable_token cookie) as [t |]; [| left; reflexivity].
  destruct (let* doc := parsed in _) as [[[doc rt] bid] | e]; [| left; reflexivity].
  destruct (negb (truthy rt) || negb (truthy bid)); [left; reflexivity |].
  destruct (negb (eq_str bid id)); [left; reflexivity |].
  right. exists t, doc. split; [reflexivity |].
  destruct (remote _) as [r | e]; [| reflexivity].
  destruct (negb (r_ok r)).
  - destruct (r_status r =? 401)%Z, (r_status r =? 404)%Z, (r_status r =? 400)%Z;
      reflexivity.
  - destruct (let* updatedPatient := r_json r in _); reflexivity.
Qed.

Lemma list_trace (page_param count_param cookie : option string) :
  snd (PatientsRoute.GET env message remote page_param count_param cookie) = [] \/
  exists t, usable_token cookie = Some t /\
            snd (PatientsRoute.GET env message remote page_param count_param cookie)
            = [PatientsRoute.list_request env
                 (PatientsRoute.param_or page_param "1")
                 (PatientsRoute.param_or count_param "20") t].
Proof.
  unfold PatientsRoute.GET.
  destruct (usable_token cookie) as [t |]; [| left; reflexivity].
  right. exists t. split; [reflexivity |].
  destruct (remote _) as [r | e]; [| reflexivity].
  destruct (negb (r_ok r)).
  - destruct (r_status r =? 401)%Z; reflexivity.
  - destruct (let* data := r_json r in _); reflexivity.
Qed.

End ProxyRoutes.

(** X10.  The proxy routes call the remote API only for a caller with a
    session, and only in that caller's name.  Without an [access_token]
    cookie, or with an empty one, the three handlers (one patient read,
    one patient update, the patient list) answer 401 (400 when the path
    id is empty) and make no outbound call.  Whatever the request and
    whatever the remote API does, each handler makes at most one outbound
    call, and every call made carries the caller's non-empty cookie value
    as [Authorization: Bearer] together with the configured API key. *)
Theorem proxy_routes_need_a_session
    (env : Env) (message : exn -> string) (remote : request -> res reply)
    (id : string) (page_param count_param cookie : option string)
    (parsed : res value) :
  (usable_token cookie = None ->
     PatientRoute.GET env message remote id cookie
       = (if id =? "" then respond 400 (error_body "Patient ID is required")
          else respond 401 (error_body "Unauthorized - No access token found"), []) /\
     PatientRoute.PUT env message remote id cookie parsed
       = (if id =? "" then respond 400 (error_body "Patient ID is required")
          else respond 401 (error_body "Unauthorized - No access token found"), []) /\
     PatientsRoute.GET env message remote page_param count_param cookie
       = (respond 401 (error_body "Unauthorized - No access token found"), []))
  /\
  (forall req,
     In req (snd (PatientRoute.GET env message remote id cookie)
             ++ snd (PatientRoute.PUT env message remote id cookie parsed)
             ++ snd (PatientsRoute.GET env message remote page_param count_param cookie))%list ->
     exists t, cookie = Some t /\ t <> "" /\
               In ("Authorization", "Bearer " ++ t) (headers req) /\
               In ("x-api-key", NEXT_API_KEY env) (headers req))
  /\
  length (snd (PatientRoute.GET env message remote id cookie)) <= 1 /\
  length (snd (PatientRoute.PUT env message remote id cookie parsed)) <= 1 /\
  length (snd (PatientsRoute.GET env message remote page_param count_param cookie)) <= 1.
Proof.
  split; [| split].
  - intros U. unfold PatientRoute.GET, PatientRoute.PUT, PatientsRoute.GET.
    rewrite U. destruct (id =? ""); repeat split.
  - intros req Hin.
    destruct (get_trace env message remote id cookie) as [G | (tg & Ug & G)];
      destruct (put_trace env message remote id cookie parsed) as [P | (tp & doc & Up & P)];
      destruct (list_trace env message remote page_param count_param cookie)
        as [L | (tl & Ul & L)];
      rewrite G, P, L in Hin; cbn [app In] in Hin;
      repeat match goal with
             | U1 : usable_token cookie = Some ?a, U2 : usable_token cookie = Some ?b |- _ =>
                 assert (a = b) by congruence; subst b; clear U2
             end;
      repeat match goal with
             | H : _ \/ _ |- _ => destruct H as [H | H]
             | H : False |- _ => destruct H
             end; subst req;
      match goal with
      | U : usable_token cookie = Some ?t |- _ =>
          exists t; destruct (usable_token_some _ _ U) as [-> Ht];
          split; [reflexivity |]; split; [exact Ht |]; cbn; auto 10
      end.
  - destruct (get_trace env message remote id cookie) as [G | (tg & Ug & G)];
      destruct (put_trace env message remote id cookie parsed) as [P | (tp & doc & Up & P)];
      destruct (list_trace env message remote page_param count_param cookie)
        as [L | (tl & Ul & L)];
      rewrite G, P, L; cbn; lia.
Qed.

(** X11.  A failure of the remote API reaches the caller under its own
    status.  For a caller with a session, when the remote API answers the
    forwarded call with a status outside 200..299, each of the three
    handlers answers with exactly that status and an [error] text, after
    that one call: nothing is retried, the remote body is not parsed, and
    only the update route passes the remote text on, as [details] of a
    400. *)
Theorem remote_failure_passes_through
    (env : Env) (message : exn -> string) (remote : request -> res reply)
    (id t : string) (page_param count_param : option string) (doc : value) (r : reply) :
  id <> "" -> t <> "" -> r_ok r = false ->
  (remote (PatientRoute.get_request env id t) = Ok r ->
     status (fst (PatientRoute.GET env message remote id (Some t))) = r_status r /\
     (exists msg, json (fst (PatientRoute.GET env message remote id (Some t)))
                  = error_body msg) /\
     snd (PatientRoute.GET env message remote id (Some t))
       = [PatientRoute.get_request env id t])
  /\
  (remote (PatientRoute.put_request env id t doc) = Ok r ->
   truthy (get_opt doc "resourceType") = true ->
   get_opt doc "id" = VStr id ->
     status (fst (PatientRoute.PUT env message remote id (Some t) (Ok doc))) = r_status r /\
     (exists msg,
        json (fst (PatientRoute.PUT env message remote id (Some t) (Ok doc)))
        = if (r_status r =? 400)%Z
          then VObj [("error", VStr msg); ("details", VStr (r_text r))]
          else error_body msg) /\
     snd (PatientRoute.PUT env message remote id (Some t) (Ok doc))
       = [PatientRoute.put_request env id t doc])
  /\
  (remote (PatientsRoute.list_request env (PatientsRoute.param_or page_param "1")
             (PatientsRoute.param_or count_param "20") t) = Ok r ->
     status (fst (PatientsRoute.GET env message remote page_param count_param (Some t)))
       = r_status r /\
     (exists msg,
        json (fst (PatientsRoute.GET env message remote page_param count_param (Some t)))
        = error_body msg) /\
     snd (PatientsRoute.GET env message remote page_param count_param (Some t))
       = [PatientsRoute.list_request env (PatientsRoute.param_or page_param "1")
            (PatientsRoute.param_or count_param "20") t]).
Proof.
  intros Hid Ht Hr.
  pose proof (usable_token_given t Ht) as U.
  apply String.eqb_neq in Hid.
  split; [| split].
  - intros R. unfold PatientRoute.GET. rewrite Hid, U, R, Hr. cbn [negb].
    destruct (r_status r =? 401)%Z eqn:E1;
      [apply Z.eqb_eq in E1; rewrite E1; repeat split; eexists; reflexivity |].
    destruct (r_status r =? 404)%Z eqn:E2;
      [apply Z.eqb_eq in E2; rewrite E2; repeat split; eexists; reflexivity |].
    repeat split; eexists; reflexivity.
  - intros R Hrt Hbid.
    assert (Hdoc : nullish doc = false) by (destruct doc; simpl in *; congruence).
    unfold PatientRoute.PUT. rewrite Hid, U. cbn [bind]. unfold get.
    rewrite Hdoc. cbn [bind]. rewrite Hrt, Hbid.
    cbn [truthy eq_str negb orb]. rewrite Hid, String.eqb_refl. cbn [negb].
    rewrite R, Hr. cbn [negb].
    destruct (r_status r =? 401)%Z eqn:E1;
      [apply Z.eqb_eq in E1; rewrite E1; repeat split; eexists; reflexivity |].
    destruct (r_status r =? 404)%Z eqn:E2;
      [apply Z.eqb_eq in E2; rewrite E2; repeat split; eexists; reflexivity |].
    destruct (r_status r =? 400)%Z eqn:E3;
      [apply Z.eqb_eq in E3; rewrite E3; repeat split; eexists; reflexivity |].
    repeat split; eexists; reflexivity.
  - intros R. unfold PatientsRoute.GET. rewrite U, R, Hr. cbn [negb].
    destruct (r_status r =? 401)%Z eqn:E1;
      [apply Z.eqb_eq in E1; rewrite E1; repeat split; eexists; reflexivity |].
    repeat split; eexists; reflexivity.
Qed.

Lemma remote_failure_passes_through_witness :
  status (fst (PatientRoute.GET env_production plain_message remote_unavailable "42"
                 (Some "tok"))) = 503%Z /\
  status (fst (PatientRoute.PUT env_production plain_message remote_unavailable "42"
                 (Some "tok") (Ok body_42))) = 503%Z /\
  status (fst (PatientsRoute.GET env_production plain_message remote_unavailable
                 None None (Some "tok"))) = 503%Z.
Proof.
  destruct (remote_failure_passes_through env_production plain_message remote_unavailable
              "42" "tok" None None body_42
              {| r_status := 503; r_statusText := "Service Unavailable"; r_text := "";
                 r_json := Throw SyntaxError |})
    as (G & P & L); [discriminate | discriminate | reflexivity |].
  split; [apply (G eq_refl) | split].
  - apply (P eq_refl eq_refl eq_refl).
  - apply (L eq_refl).
Defined.

(** X12.  The update route blames the request body for a reply it cannot
    read.  When the body passes the checks and the remote API answers 2xx
    with something that is not JSON, the route has forwarded the update
    (one PUT was made) and yet answers 400 "Invalid JSON in request body":
    the very response it gives, without any call, to a request whose body
    is not JSON. *)
Theorem put_blames_body_for_unreadable_reply
    (env : Env) (message : exn -> string) (remote : request -> res reply)
    (id t : string) (doc : value) (r : reply) :
  id <> "" -> t <> "" ->
  truthy (get_opt doc "resourceType") = true ->
  get_opt doc "id" = VStr id ->
  remote (PatientRoute.put_request env id t doc) = Ok r ->
  r_ok r = true ->
  r_json r = Throw SyntaxError ->
  PatientRoute.PUT env message remote id (Some t) (Ok doc)
    = (respond 400 (error_body "Invalid JSON in request body"),
       [PatientRoute.put_request env id t doc]) /\
  PatientRoute.PUT env message remote id (Some t) (Throw SyntaxError)
    = (respond 400 (error_body "Invalid JSON in request body"), []).
Proof.
  intros Hid Ht Hrt Hbid R Hr J.
  pose proof (usable_token_given t Ht) as U.
  apply String.eqb_neq in Hid.
  assert (Hdoc : nullish doc = false) by (destruct doc; simpl in *; congruence).
  unfold PatientRoute.PUT. rewrite Hid, U. cbn [bind]. unfold get.
  rewrite Hdoc. cbn [bind]. rewrite Hrt, Hbid.
  cbn [truthy eq_str negb orb]. rewrite Hid, String.eqb_refl. cbn [negb].
  rewrite R, Hr, J. split; reflexivity.
Qed.

Lemma put_blames_body_for_unreadable_reply_witness :
  PatientRoute.PUT env_production plain_message remote_garbled "42" (Some "tok") (Ok body_42)
    = (respond 400 (error_body "Invalid JSON in request body"),
       [PatientRoute.put_request env_production "42" "tok" body_42]) /\
  PatientRoute.PUT env_production plain_message remote_garbled "42" (Some "tok")
    (Throw SyntaxError)
    = (respond 400 (error_body "Invalid JSON in request body"), []).
Proof.
  apply (put_blames_body_for_unreadable_reply env_production plain_message remote_garbled
           "42" "tok" body_42
           {| r_status := 200; r_statusText := "OK"; r_text := "<html>";
              r_json := Throw SyntaxError |});
    first [ discriminate | reflexivity ].
Defined.

(* ================================================================== *)
(** ** [/api/login]: when cookies are set *)

Section LoginOutcomes.
Import LoginRoute.

Lemma check_field_inl (field msg : string) (v : option entry) (s : string) :
  check_field field msg v = inl s -> v = Some (Text s) /\ s <> "".
Proof.
  unfold check_field. destruct v as [[t |] |]; try discriminate.
  destruct (t =? "") eqn:E; [discriminate |].
  intros [= <-]. split; [reflexivity |]. apply String.eqb_neq, E.
Qed.

Lemma loginSchema_inl (username password : option entry) (u p : string) :
  loginSchema username password = inl (u, p) ->
  username = Some (Text u) /\ u <> "" /\ password = Some (Text p) /\ p <> "".
Proof.
  unfold loginSchema.
  destruct (check_field "username" _ username) as [u' | i] eqn:U;
    destruct (check_field "password" _ password) as [p' | j] eqn:P; try discriminate.
  intros [= <- <-].
  destruct (check_field_inl _ _ _ _ U), (check_field_inl _ _ _ _ P). repeat split; assumption.
Qed.

End LoginOutcomes.

(** X13.  The login route sets cookies only for a login that succeeded.
    Whatever the request and whatever the grant endpoint does, a response
    that sets any cookie is a 200 whose body is the body of a fulfilled
    grant call, made once with the non-empty username and password of the
    form.  A rejected grant call sets no cookie and is passed on: under
    the status and body of the rejection when it has a response, and as
    500 "Unknown login error" when it has none. *)
Theorem login_sets_cookies_only_on_success
    (env : Env) (message : exn -> string)
    (remote : request -> LoginRoute.axios_result) (formData : res LoginRoute.form) :
  (cookies (fst (LoginRoute.POST env message remote formData)) <> [] ->
   exists fd u p data,
     formData = Ok fd /\
     LoginRoute.form_get "username" fd = Some (LoginRoute.Text u) /\ u <> "" /\
     LoginRoute.form_get "password" fd = Some (LoginRoute.Text p) /\ p <> "" /\
     remote (LoginRoute.grant_request env u p) = LoginRoute.Fulfilled data /\
     nullish data = false /\
     status (fst (LoginRoute.POST env message remote formData)) = 200%Z /\
     json (fst (LoginRoute.POST env message remote formData)) = data /\
     snd (LoginRoute.POST env message remote formData) = [LoginRoute.grant_request env u p])
  /\
  (forall fd u p resp,
     formData = Ok fd ->
     LoginRoute.form_get "username" fd = Some (LoginRoute.Text u) -> u <> "" ->
     LoginRoute.form_get "password" fd = Some (LoginRoute.Text p) -> p <> "" ->
     remote (LoginRoute.grant_request env u p) = LoginRoute.Rejected resp ->
     LoginRoute.POST env message remote formData
     = (match resp with
        | Some (st, d) => respond st (VObj [("error", coalesce d (VStr "Unknown login error"))])
        | None => respond 500 (error_body "Unknown login error")
        end, [LoginRoute.grant_request env u p])).
Proof.
  split.
  - unfold LoginRoute.POST. destruct formData as [fd | e]; [| intros H; elim H; reflexivity].
    destruct (LoginRoute.loginSchema _ _) as [[u p] | issues] eqn:S;
      [| intros H; elim H; reflexivity].
    apply loginSchema_inl in S as (Hu & Hu' & Hp & Hp').
    destruct (remote _) as [data | resp] eqn:R; [| intros H; elim H; reflexivity].
    unfold get. destruct (nullish data) eqn:N; cbn [bind];
      [intros H; elim H; reflexivity |].
    intros _. exists fd, u, p, data. repeat split; assumption.
  - intros fd u p resp -> Hu Hu' Hp Hp' R.
    apply String.eqb_neq in Hu', Hp'.
    unfold LoginRoute.POST, LoginRoute.loginSchema, LoginRoute.check_field.
    rewrite Hu, Hp, Hu', Hp', R. destruct resp as [[st d] |]; reflexivity.
Qed.

Lemma login_sets_cookies_only_on_success_witness :
  exists fd u p data,
    Ok form_alice = Ok fd /\
    LoginRoute.form_get "username" fd = Some (LoginRoute.Text u) /\ u <> "" /\
    LoginRoute.form_get "password" fd = Some (LoginRoute.Text p) /\ p <> "" /\
    remote_grants (LoginRoute.grant_request env_production u p) = LoginRoute.Fulfilled data /\
    nullish data = false /\
    status (fst (LoginRoute.POST env_production plain_message remote_grants (Ok form_alice)))
      = 200%Z /\
    json (fst (LoginRoute.POST env_production plain_message remote_grants (Ok form_alice)))
      = data /\
    snd (LoginRoute.POST env_production plain_message remote_grants (Ok form_alice))
      = [LoginRoute.grant_request env_production u p].
Proof.
  apply (login_sets_cookies_only_on_success env_production plain_message remote_grants
           (Ok form_alice)).
  discriminate.
Defined.

(* ================================================================== *)
(** ** The page number, from the dashboard to the remote API and back *)

Section Decimal.
Import PatientsRoute.

Lemma digits_of_uint_acc (d : Decimal.uint) (p : positive) :
  digits (NilEmpty.string_of_uint d) (Some (Z.pos p))
  = Some (Z.pos (Pos.of_uint_acc d p)).
Proof.
  revert p. induction d; intros p; cbn [NilEmpty.string_of_uint Pos.of_uint_acc digits];
    [reflexivity | ..];
    match goal with
    | |- context [digit ?c] =>
        let v := eval vm_compute in (digit c) in change (digit c) with v
    end; cbv iota beta; rewrite <- IHd; do 2 f_equal; lia.
Qed.

Lemma digits_of_uint (d : Decimal.uint) (acc : option Z) :
  d <> Decimal.Nil ->
  match acc with Some a => a = 0%Z | None => True end ->
  digits (NilEmpty.string_of_uint d) acc = Some (Z.of_N (Pos.of_uint d)).
Proof.
  revert acc. induction d; intros acc Hd Hacc; [congruence | ..];
    cbn [NilEmpty.string_of_uint Pos.of_uint digits];
    match goal with
    | |- context [digit ?c] =>
        let v := eval vm_compute in (digit c) in change (digit c) with v
    end; cbv iota beta;
    assert (A : match acc with Some a => a | None => 0%Z end = 0%Z)
      by (destruct acc; [exact Hacc | reflexivity]);
    rewrite A; cbn [Z.mul Z.add];
    try (rewrite digits_of_uint_acc; reflexivity).
  destruct d; [reflexivity | apply IHd; [discriminate | reflexivity] ..].
Qed.

Lemma parseInt_of_uint (d : Decimal.uint) :
  d <> Decimal.Nil ->
  parseInt (NilEmpty.string_of_uint d) = number_of (Z.of_N (Pos.of_uint d)) /\
  parseInt (String "-" (NilEmpty.string_of_uint d)) = number_of (- Z.of_N (Pos.of_uint d)).
Proof.
  intros Hd. pose proof (digits_of_uint d None Hd I) as D.
  unfold parseInt.
  destruct d; [congruence | ..]; cbn [NilEmpty.string_of_uint] in *;
    (split; [| change (skip_spaces (String "-" ?s)) with (String "-" s); cbv iota beta;
               rewrite D; reflexivity]);
    match goal with
    | |- context [skip_spaces (String ?c ?s)] =>
        change (skip_spaces (String c s)) with (String c s)
    end; cbv iota beta; rewrite D; reflexivity.
Qed.

(** Reading back the decimal text of an integer gives the Number that
    integer denotes. *)
Lemma parseInt_dec_of_Z (z : Z) : parseInt (dec_of_Z z) = number_of z.
Proof.
  unfold dec_of_Z. destruct z as [| p | p]; [reflexivity | |];
    cbn [Z.to_int NilZero.string_of_int];
    pose proof (Unsigned.to_uint_nonnil p) as Hn;
    assert (S : NilZero.string_of_uint (Pos.to_uint p)
                = NilEmpty.string_of_uint (Pos.to_uint p))
      by (unfold NilZero.string_of_uint; destruct (Pos.to_uint p);
          [congruence | reflexivity ..]);
    rewrite S; destruct (parseInt_of_uint _ Hn) as [P N];
    rewrite (Unsigned.of_to p) in P, N; assumption.
Qed.

(** On the safe integers a Number is its integer and its text is the
    decimal text. *)
Lemma number_of_safe (z : Z) : safe z = true -> number_of z = VNum z.
Proof.
  unfold number_of, nearest_double, safe. intros H. rewrite H. f_equal.
  destruct z; reflexivity.
Qed.

Lemma to_str_safe (z : Z) : safe z = true -> to_str (VNum z) = dec_of_Z z.
Proof. intros H. cbn [to_str]. unfold number_text. rewrite H. reflexivity. Qed.

Lemma query_text_digits (d : Decimal.uint) :
  PatientsDashboard.query_text (NilEmpty.string_of_uint d) = NilEmpty.string_of_uint d.
Proof.
  induction d; cbn [NilEmpty.string_of_uint PatientsDashboard.query_text];
    [reflexivity | ..]; rewrite IHd; reflexivity.
Qed.

Lemma query_text_dec_of_Z (z : Z) : PatientsDashboard.query_text (dec_of_Z z) = dec_of_Z z.
Proof.
  unfold dec_of_Z. destruct z as [| p | p]; [reflexivity | |];
    cbn [Z.to_int NilZero.string_of_int];
    assert (S : NilZero.string_of_uint (Pos.to_uint p)
                = NilEmpty.string_of_uint (Pos.to_uint p))
      by (unfold NilZero.string_of_uint;
          pose proof (Unsigned.to_uint_nonnil p);
          destruct (Pos.to_uint p); [congruence | reflexivity ..]);
    rewrite S; cbn [PatientsDashboard.query_text]; rewrite query_text_digits;
    reflexivity.
Qed.

Lemma dec_of_Z_inj (a b : Z) :
  safe a = true -> safe b = true -> dec_of_Z a = dec_of_Z b -> a = b.
Proof.
  intros Ha Hb H. pose proof (parseInt_dec_of_Z a) as A.
  rewrite H, parseInt_dec_of_Z, (number_of_safe a Ha), (number_of_safe b Hb) in A.
  congruence.
Qed.

Lemma dec_of_Z_eqb (z n : Z) :
  safe z = true -> safe n = true -> (dec_of_Z z =? dec_of_Z n) = (z =? n)%Z.
Proof.
  intros Hz Hn. destruct (Z.eqb_spec z n) as [-> | Hne]; [apply String.eqb_refl |].
  apply String.eqb_neq. intros H. apply Hne, (dec_of_Z_inj z n Hz Hn H).
Qed.

Lemma dec_of_Z_nonempty (z : Z) : (dec_of_Z z =? "") = false.
Proof.
  apply String.eqb_neq. intros H. pose proof (parseInt_dec_of_Z z) as P.
  rewrite H in P. unfold number_of in P.
  destruct (nearest_double (Z.abs z)); discriminate P.
Qed.

Lemma transformedData_currentPage (page : string) (data out : value) :
  transformedData page data = Ok out ->
  get_opt (get_opt out "pagination") "currentPage" = parseInt page.
Proof.
  intros H. destruct (transformedData_built page data out H)
    as (rows & hasNext & hasPrev & _ & _ & -> & _).
  reflexivity.
Qed.

Lemma not_ok_not_200 (r : reply) : r_ok r = false -> r_status r <> 200%Z.
Proof. unfold r_ok. intros H E. rewrite E in H. discriminate H. Qed.

End Decimal.

(** X15.  The page the dashboard asks for is the page it is told it got.
    When the dashboard fetches page [page], a safe integer (at most
    2^53 - 1 in magnitude), the list route forwards at most one call,
    whose query is empty for page 1 and [page=<page>] otherwise: the
    dashboard's fixed [count=20] never reaches the remote API.  And
    whenever the route answers 200, the [pagination.currentPage] of the
    answer is the number [page], the very value the dashboard stores as
    its current page. *)
Theorem dashboard_page_round_trip
    (env : Env) (message : exn -> string) (remote : request -> res reply)
    (page : Z) (cookie : option string) :
  safe page = true ->
  (forall req,
     In req (snd (PatientsRoute.GET env message remote
                    (fst (PatientsDashboard.fetchPatients page))
                    (snd (PatientsDashboard.fetchPatients page)) cookie)) ->
     query req = if (page =? 1)%Z then [] else [("page", to_str (VNum page))])
  /\
  (status (fst (PatientsRoute.GET env message remote
                  (fst (PatientsDashboard.fetchPatients page))
                  (snd (PatientsDashboard.fetchPatients page)) cookie)) = 200%Z ->
   get_opt (get_opt (json (fst (PatientsRoute.GET env message remote
                                  (fst (PatientsDashboard.fetchPatients page))
                                  (snd (PatientsDashboard.fetchPatients page)) cookie)))
              "pagination") "currentPage"
   = VNum (PatientsDashboard.currentPage
             (PatientsDashboard.fetched page
                (json (fst (PatientsRoute.GET env message remote
                              (fst (PatientsDashboard.fetchPatients page))
                              (snd (PatientsDashboard.fetchPatients page)) cookie)))))).
Proof.
  intros Safe.
  cbn [PatientsDashboard.fetchPatients fst snd PatientsDashboard.currentPage
       PatientsDashboard.fetched].
  rewrite (to_str_safe page Safe), query_text_dec_of_Z.
  assert (P : PatientsRoute.param_or (Some (dec_of_Z page)) "1" = dec_of_Z page).
  { unfold PatientsRoute.param_or. rewrite dec_of_Z_nonempty. reflexivity. }
  split.
  - intros req Hin.
    destruct (list_trace env message remote (Some (dec_of_Z page)) (Some "20") cookie)
      as [L | (t & _ & L)]; rewrite L in Hin; [destruct Hin |].
    destruct Hin as [<- | []]. rewrite P.
    cbn [query PatientsRoute.list_request PatientsRoute.param_or String.eqb Ascii.eqb
         Bool.eqb].
    change "1" with (dec_of_Z 1). rewrite (dec_of_Z_eqb page 1 Safe eq_refl).
    destruct (page =? 1)%Z; reflexivity.
  - unfold PatientsRoute.GET. rewrite P.
    destruct (usable_token cookie) as [t |]; [| discriminate].
    destruct (remote _) as [r | e]; [| discriminate].
    destruct (r_ok r) eqn:Hr; cbn [negb].
    + destruct (r_json r) as [data |]; cbn [bind]; [| discriminate].
      destruct (PatientsRoute.transformedData (dec_of_Z page) data) as [out |] eqn:T;
        [| discriminate].
      intros _. cbn [fst json respond].
      rewrite (transformedData_currentPage _ _ _ T), parseInt_dec_of_Z.
      apply number_of_safe, Safe.
    + destruct (r_status r =? 401)%Z; [discriminate |].
      cbn [fst status respond]. intros E. elim (not_ok_not_200 r Hr E).
Qed.

Lemma dashboard_page_round_trip_witness :
  get_opt (get_opt (json (fst (PatientsRoute.GET env_production plain_message
                                 remote_first_page
                                 (fst (PatientsDashboard.fetchPatients 3))
                                 (snd (PatientsDashboard.fetchPatients 3)) (Some "tok"))))
             "pagination") "currentPage" = VNum 3.
Proof.
  apply (proj2 (dashboard_page_round_trip env_production plain_message remote_first_page
                  3 (Some "tok") eq_refl)).
  reflexivity.
Defined.



(* ================================================================== *)
(** ** The editor and the patient route together *)

Section SaveAndReload.
Import PatientsModal.

Variable o : obj.
Variable fd : FormData.

Lemma merged_edited :
  lookup "telecom" (merged o fd) = telecom fd /\
  lookup "name" (merged o fd)
    = VArr [ VObj [ ("family", name_family fd); ("given", name_given fd) ] ] /\
  lookup "gender" (merged o fd) = gender fd /\
  lookup "birthDate" (merged o fd) = birthDate fd /\
  lookup "active" (merged o fd) = active fd /\
  get_opt (lookup "maritalStatus" (merged o fd)) "text" = maritalStatus fd.
Proof. repeat split; unfold merged; lookup_literal. Qed.

Lemma formatted_merged (view0 : value) :
  PatientRoute.formatted (VObj o) = Ok view0 ->
  PatientRoute.formatted (VObj (merged o fd))
  = Ok (VObj
      [ ("identifier", get_opt view0 "identifier");
        ("name", VObj
          [ ("family", or_else (name_family fd) (VStr "Unknown"));
            ("given", or_else (name_given fd) (VArr [VStr "Unknown"]));
            ("full", VStr (to_str (or_else (idx_opt (name_given fd) 0) (VStr "Unknown"))
                           ++ " "
                           ++ to_str (or_else (name_family fd) (VStr "Unknown")))) ]);
        ("gender", or_else (gender fd) (VStr "unknown"));
        ("birthDate", or_else (birthDate fd) (VStr "Unknown"));
        ("active", coalesce (active fd) (VBool false));
        ("deceased", get_opt view0 "deceased");
        ("maritalStatus", or_else (maritalStatus fd) (VStr "Unknown"));
        ("lastUpdated", get_opt view0 "lastUpdated");
        ("telecom", or_else (telecom fd) (VArr []));
        ("address", get_opt view0 "address");
        ("ethnicity", get_opt view0 "ethnicity") ]).
Proof.
  destruct merged_edited as (Mt & Mn & Mg & Mb & Ma & Mm).
  unfold PatientRoute.formatted. cbn [nullish get_opt].
  rewrite Mt, Mn, Mg, Mb, Ma. cbn [get_opt] in Mm. rewrite Mm.
  rewrite !(merged_untouched o fd) by reflexivity.
  destruct (find_opt (lookup "extension" o) _) as [ext |]; cbn [bind]; [| discriminate].
  destruct (find_opt (get_opt ext "extension") _) as [subExt |]; cbn [bind];
    [| discriminate].
  intros [= <-]. reflexivity.
Qed.

End SaveAndReload.



(** X18.  Saving without editing is not the identity.  Open the editor on
    a raw resource the route can present and save the form as
    [fetchPatientData] filled it.  The document sent then carries, under
    every member the form edits, the value as the view showed it: the raw
    value where that is present and not empty, and otherwise the view's
    placeholder, written into the record ([gender] "unknown", [birthDate]
    "Unknown", marital status text "Unknown", [active] false, an empty
    telecom array, and a single name made of the first raw name's family
    and given names or "Unknown"). *)
Theorem unedited_save_writes_placeholders (o : obj) (t : value) :
  PatientRoute.transformedPatient (VObj o) = Ok t ->
  exists fd doc,
    PatientsModalForm.form_of t = Ok fd /\
    PatientsModal.updatedPatient (get_opt t "raw") fd = Ok doc /\
    get_opt doc "gender" = or_else (lookup "gender" o) (VStr "unknown") /\
    get_opt doc "birthDate" = or_else (lookup "birthDate" o) (VStr "Unknown") /\
    get_opt doc "active" = coalesce (lookup "active" o) (VBool false) /\
    get_opt (get_opt doc "maritalStatus") "text"
      = or_else (get_opt (lookup "maritalStatus" o) "text") (VStr "Unknown") /\
    get_opt doc "telecom" = or_else (lookup "telecom" o) (VArr []) /\
    get_opt doc "name"
      = VArr [ VObj [ ("family",
                        or_else (get_opt (idx_opt (lookup "name" o) 0) "family")
                                (VStr "Unknown"));
                      ("given",
                        or_else (get_opt (idx_opt (lookup "name" o) 0) "given")
                                (VArr [VStr "Unknown"])) ] ].
Proof.
  unfold PatientRoute.transformedPatient, PatientRoute.formatted.
  cbn [get nullish bind get_opt].
  destruct (find_opt (lookup "extension" o) _) as [ext |]; cbn [bind]; [| discriminate].
  destruct (find_opt (get_opt ext "extension") _) as [subExt |]; cbn [bind];
    [| discriminate].
  intros [= <-].
  unfold PatientsModalForm.form_of, get.
  cbn [nullish bind get_opt lookup String.eqb Ascii.eqb Bool.eqb].
  eexists. eexists.
  split; [reflexivity |]. split; [apply updatedPatient_object |].
  cbn [get_opt].
  match goal with
  | |- context [merged o ?f] => destruct (merged_edited o f) as (Mt & Mn & Mg & Mb & Ma & Mm)
  end.
  cbn [get_opt] in Mm.
  rewrite Mt, Mn, Mg, Mb, Ma, Mm.
  cbn [PatientsModal.telecom PatientsModal.name_family PatientsModal.name_given
       PatientsModal.gender PatientsModal.birthDate PatientsModal.active
       PatientsModal.maritalStatus].
  repeat split.
  unfold or_else. destruct (truthy (lookup "telecom" o)) eqn:T; [rewrite T |]; reflexivity.
Qed.

Lemma unedited_save_writes_placeholders_witness :
  exists fd doc,
    PatientsModalForm.form_of
      (VObj [ ("id", VStr "7"); ("resourceType", VStr "Patient");
              ("raw", VObj raw_minimal);
              ("formatted", VObj
                 [ ("identifier", VStr "N/A");
                   ("name", VObj [ ("family", VStr "Unknown");
                                   ("given", VArr [VStr "Unknown"]);
                                   ("full", VStr "Unknown Unknown") ]);
                   ("gender", VStr "unknown");
                   ("birthDate", VStr "Unknown");
                   ("active", VBool false);
                   ("deceased", VBool false);
                   ("maritalStatus", VStr "Unknown");
                   ("lastUpdated", VStr "Unknown");
                   ("telecom", VArr []);
                   ("address", VArr []);
                   ("ethnicity", VStr "Unspecified") ]) ]) = Ok fd /\
    PatientsModal.updatedPatient (VObj raw_minimal) fd = Ok doc /\
    get_opt doc "gender" = VStr "unknown" /\
    get_opt doc "birthDate" = VStr "Unknown".
Proof.
  destruct (unedited_save_writes_placeholders raw_minimal _ eq_refl)
    as (fd & doc & F & U & G & B & _).
  exists fd, doc. repeat split; assumption.
Defined.

(** X19.  What the editor sends passes the checks of the update route.
    Let the editor hold a patient whose raw resource has the string [id]
    as its id, the id it was fetched under.  Whatever the state of the
    form, [handleSave] sends a document that still carries that id and
    the raw resource type, to the path of that id.  So, for a caller with
    a session, the update route forwards it in one PUT when the raw
    resource has a resource type, and answers 400 without any call when it
    has none: the id-mismatch answer cannot occur. *)
Theorem editor_save_passes_put_checks
    (env : Env) (message : exn -> string) (remote : request -> res reply)
    (o : obj) (id tok : string) (fd : PatientsModal.FormData) :
  id <> "" -> tok <> "" -> lookup "id" o = VStr id ->
  exists doc,
    PatientsModal.handleSave (Some (id, VObj o)) fd
      = Some (Ok ("/api/patients/" ++ id, doc)) /\
    get_opt doc "id" = VStr id /\
    get_opt doc "resourceType" = lookup "resourceType" o /\
    (truthy (lookup "resourceType" o) = true ->
       snd (PatientRoute.PUT env message remote id (Some tok) (Ok doc))
       = [PatientRoute.put_request env id tok doc]) /\
    (truthy (lookup "resourceType" o) = false ->
       PatientRoute.PUT env message remote id (Some tok) (Ok doc)
       = (respond 400
            (error_body "Invalid patient data - resourceType and id are required"), [])).
Proof.
  intros Hid Htok Ho. exists (VObj (merged o fd)).
  pose proof (merged_untouched o fd "id" eq_refl) as Mi.
  pose proof (merged_untouched o fd "resourceType" eq_refl) as Mr.
  pose proof (usable_token_given tok Htok) as U.
  apply String.eqb_neq in Hid.
  split; [reflexivity |]. cbn [get_opt]. rewrite Mi, Mr.
  split; [exact Ho |]. split; [reflexivity |].
  unfold PatientRoute.PUT. rewrite Hid, U. cbn [bind get nullish get_opt].
  rewrite Mi, Mr, Ho. cbn [truthy eq_str]. rewrite Hid, String.eqb_refl.
  split; intros T; rewrite T; cbn [negb orb]; [| reflexivity].
  destruct (remote _) as [r | e]; [| reflexivity].
  destruct (negb (r_ok r)).
  - destruct (r_status r =? 401)%Z, (r_status r =? 404)%Z, (r_status r =? 400)%Z;
      reflexivity.
  - destruct (let* updatedPatient := r_json r in _); reflexivity.
Qed.

Lemma editor_save_passes_put_checks_witness :
  exists doc,
    PatientsModal.handleSave (Some ("42", VObj raw_two_names)) form_divorced
      = Some (Ok ("/api/patients/" ++ "42", doc)) /\
    snd (PatientRoute.PUT env_production plain_message remote_empty_200 "42" (Some "tok")
           (Ok doc))
    = [PatientRoute.put_request env_production "42" "tok" doc].
Proof.
  destruct (editor_save_passes_put_checks env_production plain_message remote_empty_200
              raw_two_names "42" "tok" form_divorced)
    as (doc & S & _ & _ & P & _); [discriminate | discriminate | reflexivity |].
  exists doc. split; [exact S | apply P; reflexivity].
Defined.

(* ================================================================== *)
(** ** The editor's list fields *)

Section FormLists.
Import PatientsModal PatientsModalForm.

Lemma filter_index_all {A : Type} (keep : nat -> bool) (k : nat) (l : list A) :
  (forall j, k <= j -> keep j = true) -> filter_index keep k l = l.
Proof.
  revert k. induction l as [| a l IH]; intros k H; cbn [filter_index]; [reflexivity |].
  rewrite (H k (le_n k)), IH; [reflexivity |]. intros j Hj. apply H. lia.
Qed.

Lemma filter_index_remove {A : Type} (i k : nat) (l : list A) :
  filter_index (fun j => negb (Nat.eqb j (i + k))) k l = (firstn i l ++ skipn (S i) l)%list.
Proof.
  revert i k. induction l as [| a l IH]; intros i k.
  - destruct i; reflexivity.
  - cbn [filter_index]. destruct i as [| i].
    + cbn [Nat.add firstn skipn app]. rewrite Nat.eqb_refl. cbn [negb].
      apply filter_index_all. intros j Hj. apply negb_true_iff, Nat.eqb_neq. lia.
    + replace (Nat.eqb k (S i + k)) with false by (symmetry; apply Nat.eqb_neq; lia).
      cbn [negb firstn skipn app]. f_equal.
      replace (S i + k) with (i + S k) by lia. apply IH.
Qed.

Lemma filter_index_remove0 {A : Type} (i : nat) (l : list A) :
  filter_index (fun j => negb (Nat.eqb j i)) 0 l = (firstn i l ++ skipn (S i) l)%list.
Proof.
  pose proof (filter_index_remove i 0 l) as H. rewrite Nat.add_0_r in H. exact H.
Qed.

Lemma map_index_length {A B : Type} (f : A -> nat -> B) (k : nat) (l : list A) :
  length (map_index f k l) = length l.
Proof.
  revert k. induction l as [| a l IH]; intros k; cbn [map_index length]; [reflexivity |].
  rewrite IH. reflexivity.
Qed.

Lemma map_index_nth {A B : Type} (f : A -> nat -> B) (k : nat) (l : list A) (j : nat) :
  nth_error (map_index f k l) j = option_map (fun a => f a (k + j)) (nth_error l j).
Proof.
  revert k j. induction l as [| a l IH]; intros k j.
  - destruct j; reflexivity.
  - destruct j as [| j]; cbn [map_index nth_error option_map].
    + rewrite Nat.add_0_r. reflexivity.
    + rewrite IH. replace (S k + j) with (k + S j) by lia. reflexivity.
Qed.

Lemma with_telecom_same (fd : FormData) : with_telecom (telecom fd) fd = fd.
Proof. destruct fd; reflexivity. Qed.

Lemma with_given_same (fd : FormData) : with_given (name_given fd) fd = fd.
Proof. destruct fd; reflexivity. Qed.

End FormLists.

(** X20.  Removing a list entry of the form takes out exactly that entry.
    With an array under [telecom] (or under the given names),
    [removeTelecomEntry i] ([removeGivenName i]) keeps the entries before
    index [i] and those after it, in order, and touches no other field of
    the form; an index past the end changes nothing; and removing the
    entry that [addTelecomEntry] ([addGivenName]) has just appended gives
    the form back as it was. *)
Theorem remove_takes_out_one_entry
    (fd : PatientsModal.FormData) (l : list value) (i : nat) :
  (PatientsModal.telecom fd = VArr l ->
     PatientsModalForm.removeTelecomEntry i fd
       = Ok (PatientsModalForm.with_telecom (VArr (firstn i l ++ skipn (S i) l)) fd) /\
     (length l <= i -> PatientsModalForm.removeTelecomEntry i fd = Ok fd) /\
     (let* added := PatientsModalForm.addTelecomEntry fd in
      PatientsModalForm.removeTelecomEntry (length l) added) = Ok fd)
  /\
  (PatientsModal.name_given fd = VArr l ->
     PatientsModalForm.removeGivenName i fd
       = Ok (PatientsModalForm.with_given (VArr (firstn i l ++ skipn (S i) l)) fd) /\
     (length l <= i -> PatientsModalForm.removeGivenName i fd = Ok fd) /\
     (let* added := PatientsModalForm.addGivenName fd in
      PatientsModalForm.removeGivenName (length l) added) = Ok fd).
Proof.
  split; intros E.
  - unfold PatientsModalForm.removeTelecomEntry, PatientsModalForm.addTelecomEntry.
    rewrite E. cbn [PatientsModalForm.array_items PatientsModalForm.spread_items bind
                    PatientsModal.telecom PatientsModalForm.with_telecom].
    rewrite !filter_index_remove0.
    split; [reflexivity |]. split.
    + intros Hi. rewrite firstn_all2, skipn_all2, app_nil_r by lia.
      rewrite <- E. rewrite with_telecom_same. reflexivity.
    + rewrite firstn_app, Nat.sub_diag, firstn_all, skipn_all2, !app_nil_r
        by (rewrite length_app; cbn; lia).
      destruct fd; cbn in E |- *; rewrite E; reflexivity.
  - unfold PatientsModalForm.removeGivenName, PatientsModalForm.addGivenName.
    rewrite E. cbn [PatientsModalForm.array_items PatientsModalForm.spread_items bind
                    PatientsModal.name_given PatientsModalForm.with_given].
    rewrite !filter_index_remove0.
    split; [reflexivity |]. split.
    + intros Hi. rewrite firstn_all2, skipn_all2, app_nil_r by lia.
      rewrite <- E. rewrite with_given_same. reflexivity.
    + rewrite firstn_app, Nat.sub_diag, firstn_all, skipn_all2, !app_nil_r
        by (rewrite length_app; cbn; lia).
      destruct fd; cbn in E |- *; rewrite E; reflexivity.
Qed.

(** X21.  Editing a list entry of the form changes that entry only.  With
    an array under [telecom], [updateTelecomEntry i field v] keeps the
    length of the array and every entry at another index; the entry at
    [i], when there is one, gets [v] under [field] and keeps its other
    properties; no other field of the form changes.  Likewise
    [updateGivenName i v] puts [v] at index [i] of the given names and
    keeps the rest. *)
Theorem update_changes_one_entry
    (fd : PatientsModal.FormData) (l : list value) (i : nat) (field v : string) :
  (PatientsModal.telecom fd = VArr l ->
   exists l',
     PatientsModalForm.updateTelecomEntry i field v fd
       = Ok (PatientsModalForm.with_telecom (VArr l') fd) /\
     length l' = length l /\
     (forall j, j <> i -> nth_error l' j = nth_error l j) /\
     (forall item, nth_error l i = Some item ->
        exists item',
          nth_error l' i = Some item' /\
          get_opt item' field = VStr v /\
          forall k, k <> field -> get_opt item' k = lookup k (own_props item)))
  /\
  (PatientsModal.name_given fd = VArr l ->
   exists l',
     PatientsModalForm.updateGivenName i v fd
       = Ok (PatientsModalForm.with_given (VArr l') fd) /\
     length l' = length l /\
     (forall j, j <> i -> nth_error l' j = nth_error l j) /\
     (i < length l -> nth_error l' i = Some (VStr v))).
Proof.
  split; intros E.
  - unfold PatientsModalForm.updateTelecomEntry. rewrite E.
    cbn [PatientsModalForm.array_items bind]. eexists. split; [reflexivity |].
    split; [apply map_index_length |]. split.
    + intros j Hj. rewrite map_index_nth. cbn [Nat.add].
      apply Nat.eqb_neq in Hj. rewrite Hj. destruct (nth_error l j); reflexivity.
    + intros item Hi. rewrite map_index_nth, Hi. cbn [Nat.add option_map].
      rewrite Nat.eqb_refl. eexists. split; [reflexivity |].
      unfold set_props. cbn [fold_left fst snd get_opt].
      split.
      * rewrite lookup_set_prop, String.eqb_refl. reflexivity.
      * intros k Hk. rewrite lookup_set_prop.
        replace (field =? k) with false; [reflexivity |].
        symmetry. apply String.eqb_neq. congruence.
  - unfold PatientsModalForm.updateGivenName. rewrite E.
    cbn [PatientsModalForm.array_items bind]. eexists. split; [reflexivity |].
    split; [apply map_index_length |]. split.
    + intros j Hj. rewrite map_index_nth. cbn [Nat.add].
      apply Nat.eqb_neq in Hj. rewrite Hj. destruct (nth_error l j); reflexivity.
    + intros Hi. rewrite map_index_nth. cbn [Nat.add].
      destruct (nth_error l i) eqn:N.
      * cbn [option_map]. rewrite Nat.eqb_refl. reflexivity.
      * apply nth_error_None in N. lia.
Qed.

(* ================================================================== *)
(** ** The login route and the browser-side client together *)

Section HiddenCookies.
Import AxiosInstance.

Lemma step_keeps_tokenless (s : state) (e : event) : tokenless s -> tokenless (step s e).
Proof.
  unfold tokenless. intros (J & F & Q & R & W).
  destruct e as [id | id st | data]; cbn [step].
  - unfold apiClient, request_interceptor. rewrite J.
    cbn [access_token no_cookies read_cookie option_map].
    replace (if window s then _ else _)
      with {| cid := id; _retry := false; Authorization := None |}
      by (destruct (window s); reflexivity).
    cbn [jar isRefreshing failedQueue refreshing wire emit set_in_flight cid Authorization].
    repeat split; try assumption.
    apply Forall_app. split; [exact W |]. repeat constructor.
  - destruct (take id (in_flight s)) as [[c rest] |]; [| repeat split; assumption].
    destruct (is_2xx st); [repeat split; assumption |].
    unfold response_error. cbn [isRefreshing set_in_flight]. rewrite F.
    destruct (is_401 st && negb (_retry c)); [| repeat split; assumption].
    unfold read_refreshToken. cbn [window jar set_isRefreshing set_in_flight].
    rewrite J. cbn [refresh_token no_cookies read_cookie option_map].
    replace (if window s then "" else "") with "" by (destruct (window s); reflexivity).
    cbn [String.eqb]. unfold redirect_to_login.
    cbn [window set_isRefreshing set_in_flight].
    destruct (window s); repeat split; assumption.
  - rewrite R. repeat split; assumption.
Qed.

Lemma run_keeps_tokenless (es : list event) (s : state) :
  tokenless s -> tokenless (run s es).
Proof.
  revert s. induction es as [| e es IH]; intros s I; [exact I |].
  apply IH, step_keeps_tokenless, I.
Qed.

Lemma unauthenticated_no_refresh (w : list sent) :
  Forall unauthenticated_request w -> refresh_calls w = 0.
Proof.
  unfold refresh_calls. induction 1 as [| x w Hx _ IH]; [reflexivity |].
  destruct x as [id [a |] | rt]; cbn in Hx; try contradiction. exact IH.
Qed.

Lemma tokenless_401_surfaces (s : state) (id : nat) :
  tokenless s ->
  In id (map cid (in_flight s)) ->
  In (id, Failed (RequestFailed (Some 401%Z)))
     (settled (step s (Reply id (Some 401%Z)))).
Proof.
  intros (J & F & Q & R & W) Hin.
  destruct (take_spec id (in_flight s) Hin) as (c & rest & T & Cc & _).
  cbn [step]. rewrite T.
  change (is_2xx (Some 401%Z)) with false. cbv iota.
  unfold response_error. cbn [isRefreshing set_in_flight]. rewrite F.
  destruct (is_401 (Some 401%Z) && negb (_retry c)).
  - unfold read_refreshToken. cbn [window jar set_isRefreshing set_in_flight].
    rewrite J. cbn [refresh_token no_cookies read_cookie option_map].
    replace (if window s then "" else "") with "" by (destruct (window s); reflexivity).
    cbn [String.eqb]. unfold redirect_to_login.
    cbn [window set_isRefreshing set_in_flight cid with_retry].
    rewrite Cc.
    destruct (window s); cbn [settled settle set_isRefreshing set_location set_in_flight];
      apply in_or_app; right; left; reflexivity.
  - cbn [settled settle]. rewrite Cc. apply in_or_app. right. left. reflexivity.
Qed.

End HiddenCookies.

(** X22.  The cookies of the login route never reach the browser-side
    client.  Both cookies are set HTTP-only, so after any answer of the
    login route, success included, a browser that held no cookie shows
    none to scripts.  The client then reports no token and is not
    authenticated, in every run sends its requests without an
    [Authorization] header and never sends a refresh call, and a 401 on a
    call in flight is surfaced to its caller. *)
Theorem login_cookies_are_hidden_from_the_client
    (env : Env) (message : exn -> string)
    (remote : request -> LoginRoute.axios_result) (formData : res LoginRoute.form)
    (w : bool) (es : list AxiosInstance.event) :
  AxiosInstance.jar (client_after_login env message remote formData w) = no_cookies /\
  AxiosInstance.getAccessToken
    (AxiosInstance.run (client_after_login env message remote formData w) es) = None /\
  AxiosInstance.isAuthenticated
    (AxiosInstance.run (client_after_login env message remote formData w) es) = false /\
  Forall unauthenticated_request
    (AxiosInstance.wire
       (AxiosInstance.run (client_after_login env message remote formData w) es)) /\
  AxiosInstance.refresh_calls
    (AxiosInstance.wire
       (AxiosInstance.run (client_after_login env message remote formData w) es)) = 0 /\
  (forall id,
     In id (map AxiosInstance.cid
              (AxiosInstance.in_flight
                 (AxiosInstance.run (client_after_login env message remote formData w) es))) ->
     In (id, AxiosInstance.Failed (AxiosInstance.RequestFailed (Some 401%Z)))
        (AxiosInstance.settled
           (AxiosInstance.step
              (AxiosInstance.run (client_after_login env message remote formData w) es)
              (AxiosInstance.Reply id (Some 401%Z))))).
Proof.
  assert (J : jar_after (cookies (fst (LoginRoute.POST env message remote formData)))
              = no_cookies).
  { unfold LoginRoute.POST. destruct formData as [fd | e]; [| reflexivity].
    destruct (LoginRoute.loginSchema _ _) as [[u p] | issues]; [| reflexivity].
    destruct (remote _) as [data | resp]; [| reflexivity].
    destruct (let* access := get data "access_token" in _) as [[access refresh] | e];
      reflexivity. }
  unfold client_after_login. rewrite J.
  assert (T : tokenless (AxiosInstance.run (AxiosInstance.init w no_cookies) es)).
  { apply run_keeps_tokenless. repeat split. constructor. }
  split; [reflexivity |].
  pose proof T as (Tj & _ & _ & _ & Tw).
  unfold AxiosInstance.isAuthenticated, AxiosInstance.getAccessToken. rewrite Tj.
  cbn [AxiosInstance.access_token no_cookies AxiosInstance.read_cookie option_map].
  repeat split.
  - destruct (AxiosInstance.window _); reflexivity.
  - destruct (AxiosInstance.window _); reflexivity.
  - exact Tw.
  - apply unauthenticated_no_refresh, Tw.
  - intros id. apply tokenless_401_surfaces, T.
Qed.

(* ================================================================== *)
(** ** Session Client: no call is lost *)

Section Conservation.
Import AxiosInstance.

Lemma known_iff (s : state) (x : nat) :
  In x (known s) <->
  In x (map cid (in_flight s)) \/ In x (map cid (failedQueue s)) \/
  In x (map (fun y => cid (fst y)) (refreshing s)) \/
  In x (map fst (settled s)) \/ In x (pending_forever s).
Proof. unfold known. rewrite !in_app_iff. tauto. Qed.

Lemma take_ids (id : nat) (l : list config) (c : config) (rest : list config) :
  take id l = Some (c, rest) ->
  cid c = id /\ forall x, In x (map cid l) <-> x = id \/ In x (map cid rest).
Proof.
  revert c rest. induction l as [| a l IH]; intros c rest; cbn [take]; [discriminate |].
  destruct (Nat.eqb (cid a) id) eqn:E.
  - intros [= <- <-]. apply Nat.eqb_eq in E. split; [exact E |].
    intros x. cbn [map In]. rewrite E. intuition congruence.
  - destruct (take id l) as [[c' rest'] |]; [| discriminate].
    intros [= <- <-]. destruct (IH c' rest' eq_refl) as [Hc Hl]. split; [exact Hc |].
    intros x. cbn [map In]. rewrite Hl. tauto.
Qed.

Lemma run_jobs_known (jobs : list job) (s : state) (x : nat) :
  In x (map cid (in_flight s)) \/ In x (map fst (settled s)) \/ In x (map job_id jobs) ->
  In x (map cid (in_flight (run_jobs jobs s))) \/
  In x (map fst (settled (run_jobs jobs s))).
Proof.
  revert s. induction jobs as [| j jobs IH]; intros s H.
  - cbn in H |- *. tauto.
  - change (run_jobs (j :: jobs) s) with (run_jobs jobs (run_job s j)).
    apply IH. cbn [map In] in H.
    destruct j as [c token | c e]; cbn [run_job job_id] in *.
    + unfold apiClient. cbn [in_flight settled emit set_in_flight].
      rewrite map_app, in_app_iff. cbn [map In].
      rewrite (proj1 (request_interceptor_keeps s _)). cbn [cid with_authorization].
      intuition.
    + cbn [in_flight settled settle]. rewrite map_app, in_app_iff. cbn [map In fst].
      intuition.
Qed.

Lemma queue_jobs_ids (error : option failure) (token : value) (q : list config) (x : nat) :
  In x (map cid q) ->
  In x (map job_id (fst (queue_jobs error token q))) \/
  In x (snd (queue_jobs error token q)).
Proof.
  induction q as [| c q IH]; [intros []|].
  cbn [map In queue_jobs]. destruct (queue_jobs error token q) as [jobs lost].
  cbn [fst snd] in IH.
  destruct error as [e |]; [| destruct (truthy token)]; cbn [fst snd map In job_id];
    intuition.
Qed.

Lemma refresh_settled_known (c : config) (data : option value) (s : state) (x : nat) :
  In x (known s) \/ x = cid c -> In x (known (refresh_settled c data s)).
Proof.
  rewrite !known_iff. intros H. unfold refresh_settled.
  destruct (match data with Some d => _ | None => _ end) as [[access newRefresh] | e].
  - set (s1 := if window s then _ else s).
    assert (E1 : (in_flight s1, failedQueue s1, refreshing s1, settled s1, pending_forever s1)
                 = (in_flight s, failedQueue s, refreshing s, settled s, pending_forever s)).
    { unfold s1. destruct (window s); reflexivity. }
    clearbody s1. injection E1 as Ea Eb Ec Ed Ee.
    rewrite <- Ea, <- Eb, <- Ec, <- Ed, <- Ee in H. clear Ea Eb Ec Ed Ee.
    destruct (processQueue_fields None access s1) as (O & Q & P & J).
    pose proof (queue_jobs_ids None access (failedQueue s1) x) as Hq.
    destruct (processQueue None access s1) as [s2 jobs]. cbn [fst snd] in O, Q, P, J.
    rewrite <- J in Hq.
    unfold outside_queue in O. injection O as _ _ _ _ Or Of _ Os.
    set (c' := with_authorization (bearer (to_str access)) c).
    set (s3 := set_isRefreshing false (apiClient c' s2)).
    assert (E3 : (map cid (in_flight s3), settled s3)
                 = ((map cid (in_flight s2) ++ [cid c])%list, settled s2)).
    { unfold s3, apiClient. cbn [in_flight settled emit set_in_flight set_isRefreshing].
      rewrite map_app. cbn [map]. rewrite (proj1 (request_interceptor_keeps s2 c')).
      reflexivity. }
    assert (E3' : (failedQueue s3, refreshing s3, pending_forever s3)
                  = (failedQueue s2, refreshing s2, pending_forever s2)) by reflexivity.
    pose proof (run_jobs_known jobs s3 x) as Hj.
    pose proof (run_jobs_core jobs s3) as K.
    clearbody s3. injection E3 as E3a E3b. injection E3' as E3c E3d E3e.
    unfold core in K. injection K as _ _ _ _ Kq Kr Kp.
    rewrite Kq, Kr, Kp, E3c, E3d, E3e, Q, Or.
    rewrite E3a, E3b, in_app_iff, Of, Os in Hj. cbn [map In] in Hj |- *.
    rewrite P, in_app_iff.
    assert (Sym : cid c = x <-> x = cid c) by (split; intros; symmetry; assumption).
    rewrite Sym in Hj. intuition.
  - destruct (processQueue_fields (Some RefreshFailed) VNull s) as (O & Q & P & J).
    pose proof (queue_jobs_ids (Some RefreshFailed) VNull (failedQueue s) x) as Hq.
    rewrite queue_jobs_abort in P, Hq. cbn [snd fst] in P, Hq.
    rewrite queue_jobs_abort in J. cbn [fst] in J. rewrite app_nil_r in P.
    destruct (processQueue (Some RefreshFailed) VNull s) as [s2 jobs].
    cbn [fst snd] in O, Q, P, J. subst jobs.
    unfold outside_queue in O. injection O as _ _ _ _ Or Of _ Os.
    set (s3 := set_isRefreshing false _).
    assert (E3 : (in_flight s3, failedQueue s3, refreshing s3, settled s3, pending_forever s3)
                 = (in_flight s2, failedQueue s2, refreshing s2, settled s2,
                    pending_forever s2)).
    { unfold s3. destruct (window s2); reflexivity. }
    pose proof (run_jobs_known (map (fun c0 => Abort c0 RefreshFailed) (failedQueue s)) s3 x)
      as Hj.
    pose proof (run_jobs_core (map (fun c0 => Abort c0 RefreshFailed) (failedQueue s)) s3)
      as K.
    clearbody s3. injection E3 as E3a E3b E3c E3d E3e.
    unfold core in K. injection K as _ _ _ _ Kq Kr Kp.
    cbn [in_flight failedQueue refreshing settled pending_forever settle].
    rewrite Kq, Kr, Kp, E3b, E3c, E3e, Q, Or, P.
    rewrite E3a, E3d, Of, Os in Hj.
    rewrite map_app, in_app_iff. cbn [map In fst].
    intuition.
Qed.

Lemma step_known (s : state) (e : event) (x : nat) :
  In x (known s) \/ In x (calls_in [e]) -> In x (known (step s e)).
Proof.
  destruct e as [id | id st | data]; cbn [step calls_in flat_map app In].
  - rewrite !known_iff. unfold apiClient.
    cbn [in_flight failedQueue refreshing settled pending_forever emit set_in_flight].
    rewrite map_app, in_app_iff. cbn [map In].
    rewrite (proj1 (request_interceptor_keeps s _)). cbn [cid]. intuition.
  - intros [H | []].
    destruct (take id (in_flight s)) as [[c rest] |] eqn:T; [| exact H].
    destruct (take_ids _ _ _ _ T) as [Hc Hl].
    rewrite known_iff in H. rewrite (Hl x) in H.
    assert (Settle : forall r, In x (known (settle (cid c) r (set_in_flight rest s)))).
    { intros r. rewrite known_iff.
      cbn [in_flight failedQueue refreshing settled pending_forever settle set_in_flight].
      rewrite map_app, in_app_iff. cbn [map In fst]. rewrite Hc. intuition. }
    destruct (is_2xx st); [rewrite <- Hc; apply Settle |].
    unfold response_error. cbn [isRefreshing failedQueue set_in_flight].
    destruct (is_401 st && negb (_retry c)); [| apply Settle].
    destruct (isRefreshing s).
    + rewrite known_iff.
      cbn [in_flight failedQueue refreshing settled pending_forever set_failedQueue
           set_in_flight].
      rewrite map_app, in_app_iff. cbn [map In]. rewrite Hc. intuition.
    + destruct (read_refreshToken _ =? "").
      * rewrite known_iff. unfold redirect_to_login.
        destruct (window _);
          cbn [in_flight failedQueue refreshing settled pending_forever settle
               set_isRefreshing set_location set_in_flight cid with_retry];
          rewrite map_app, in_app_iff; cbn [map In fst]; rewrite Hc; intuition.
      * rewrite known_iff.
        cbn [in_flight failedQueue refreshing settled pending_forever emit set_refreshing
             set_isRefreshing set_in_flight].
        rewrite map_app, in_app_iff. cbn [map In fst cid with_retry]. rewrite Hc.
        intuition.
  - intros [H | []].
    destruct (refreshing s) as [| [c rt] rest] eqn:R; [exact H |].
    apply refresh_settled_known. rewrite known_iff in *.
    cbn [in_flight failedQueue refreshing settled pending_forever set_refreshing].
    rewrite R in H. cbn [map In fst] in H. intuition.
Qed.

Lemma run_known (es : list event) (s : state) (x : nat) :
  In x (known s) \/ In x (calls_in es) -> In x (known (run s es)).
Proof.
  revert s. induction es as [| e es IH]; intros s H.
  - destruct H as [H | []]. exact H.
  - change (run s (e :: es)) with (run (step s e) es). apply IH.
    unfold calls_in in H. cbn [flat_map] in H. rewrite in_app_iff in H.
    destruct H as [H | [H | H]].
    + left. apply step_known. left. exact H.
    + left. apply step_known. right. unfold calls_in. cbn [flat_map].
      rewrite app_nil_r. exact H.
    + right. exact H.
Qed.

End Conservation.

(** X23.  No call is lost.  Whatever the events, every call the
    application has made is, at every moment, in flight, waiting in
    [failedQueue], suspended on the refresh call, settled, or one of the
    queued promises dropped unsettled; and when every refresh reply of
    the run is a failure, an unreadable body, or a body with an access
    token, the last case is out: each call is being attended to or has
    been settled. *)
Theorem every_call_is_accounted_for
    (w : bool) (j : AxiosInstance.Jar) (es : list AxiosInstance.event) (id : nat) :
  In id (calls_in es) ->
  In id (known (AxiosInstance.run (AxiosInstance.init w j) es)) /\
  (Forall reply_usable es ->
   In id (attended (AxiosInstance.run (AxiosInstance.init w j) es))).
Proof.
  intros H.
  pose proof (run_known es (AxiosInstance.init w j) id (or_intror H)) as K.
  split; [exact K |].
  intros U. pose proof (run_usable es (AxiosInstance.init w j) U) as P.
  cbn [AxiosInstance.pending_forever AxiosInstance.init] in P.
  unfold known in K. unfold attended. rewrite P in K.
  rewrite !in_app_iff in *. cbn [In] in K. tauto.
Qed.

Lemma every_call_is_accounted_for_witness :
  In 2 (attended (AxiosInstance.run (AxiosInstance.init true jar_stale) refreshed_run)).
Proof.
  apply (every_call_is_accounted_for true jar_stale refreshed_run 2).
  - right. left. reflexivity.
  - repeat (apply Forall_cons; [exact I || (right; reflexivity) |]).
    apply Forall_nil.
Defined.
